(** * Active-learning loop of KMU-AELAB-AL/al_test: ranking loss, scoring, selection

    A shallow embedding of [main.py], [bias_test_ll4al.py] and
    [autoencoder/vae.py].

    - Python lists are [list]s, Python integers are [Z] (slice bounds may be
      negative) or [nat] (lengths, class labels, positions).
    - A one-dimensional float tensor is a [list Q]: the floating-point
      numbers are idealised as exact rationals, so rounding, infinities
      inside a tensor and nan inputs are outside the model.  The one
      non-finite value that exact arithmetic itself produces, a division
      by a zero count, is kept ([scalar]).
    - A raised exception is a value of [exn]; fallible code lives in the
      [result] monad.
    - [np.argsort] is any function that returns the positions in an order
      that sorts the scores ([Argsort]): where equal scores land is not
      fixed.
    - [list(set(..) - set(..))] is [elements] of a [gset]: the order of the
      resulting list is not fixed either.
    - The networks and the constants of [config.py] are parameters; what a
      call does to the models is passed on explicitly.
    - The optimizers, the schedulers and the file system are parameters as
      well; what [vae.py] hands to the [SummaryWriter], to [os.makedirs]
      and to [torch.save] is a list of events in the order of the calls.
      What the functions print, and the progress bars, are left out. *)

From Stdlib Require Import ZArith QArith Qminmax List String Bool Arith Lia
  Lqa Permutation Sorted.
From stdpp Require Import base list gmap sets strings sorting.
Import ListNotations.

Local Open Scope nat_scope.

(* ===================================================================== *)
(** ** Python: exceptions, assertions, slices                             *)
(* ===================================================================== *)

Module Py.

(** The exceptions the modelled code can raise.  [UnboundLocalError] is a
    subclass of [NameError] in Python. *)
Inductive exn : Type :=
| AssertionError (msg : string)
| RuntimeError
| IndexError
| UnboundLocalError (var : string)
| NotImplementedError.

Definition is_NameError (e : exn) : bool :=
  match e with UnboundLocalError _ => true | _ => false end.

Inductive result (A : Type) : Type :=
| Return (a : A)
| Raise (e : exn).
Arguments Return {A} a.
Arguments Raise {A} e.

Definition bind {A B} (m : result A) (k : A -> result B) : result B :=
  match m with
  | Return a => k a
  | Raise e => Raise e
  end.

(** [assert c, msg] *)
Definition py_assert (c : bool) (msg : string) : result unit :=
  if c then Return tt else Raise (AssertionError msg).

(** A slice bound [k] on a list of length [n]: negative bounds count from
    the end, and the bound is clipped to [0 .. n]. *)
Definition clip (n : nat) (k : Z) : nat :=
  if (k <? 0)%Z then n - Z.to_nat (- k) else Nat.min (Z.to_nat k) n.

(** [l[:k]] *)
Definition slice_to {A} (l : list A) (k : Z) : list A :=
  firstn (clip (length l) k) l.

(** [l[k:]] *)
Definition slice_from {A} (l : list A) (k : Z) : list A :=
  skipn (clip (length l) k) l.

(** [l[i]] for a position [i >= 0]; out of range raises. *)
Definition getitem {A} (l : list A) (i : nat) : result A :=
  match l !! i with
  | Some x => Return x
  | None => Raise IndexError
  end.

(** [[l[i] for i in idx]]: indexing by an integer array. *)
Fixpoint getitems {A} (l : list A) (idx : list nat) : result (list A) :=
  match idx with
  | [] => Return []
  | i :: idx' =>
      match getitem l i with
      | Return x =>
          match getitems l idx' with
          | Return xs => Return (x :: xs)
          | Raise e => Raise e
          end
      | Raise e => Raise e
      end
  end.

End Py.

Import Py.

(** [x ← m; k] runs [m] and hands its value to [k], or passes the
    exception on. *)
#[global] Instance result_bind : MBind result := fun A B k m => Py.bind m k.

(* ===================================================================== *)
(** ** Torch: the tensor operations the loss uses                         *)
(* ===================================================================== *)

Module Torch.

(** A zero-dimensional float: a finite value, or what a division by a
    zero count gives. *)
Inductive scalar : Type :=
| Fin (q : Q)
| PosInf
| NegInf
| NaN.

(** What [loss_pred_loss] can return: a vector or a zero-dimensional
    tensor. *)
Inductive tensor : Type :=
| Tensor1 (l : list Q)
| Tensor0 (x : scalar).

(** [t.flip(0)] *)
Definition flip (t : list Q) : list Q := rev t.

(** Element-wise binary operation on two one-dimensional tensors with
    broadcasting: equal sizes are paired, a size-one operand is
    repeated, anything else is a [RuntimeError]. *)
Definition broadcast2 (f : Q -> Q -> Q) (a b : list Q) : result (list Q) :=
  if Nat.eqb (length a) (length b) then
    Return (map (fun p => f (fst p) (snd p)) (combine a b))
  else
    match a, b with
    | [x], _ => Return (map (fun y => f x y) b)
    | _, [y] => Return (map (fun x => f x y) a)
    | _, _ => Raise RuntimeError
    end.

Definition sub := broadcast2 Qminus.
Definition mul := broadcast2 Qmult.

(** [torch.clamp(t, min=m)] *)
Definition clamp_min1 (m x : Q) : Q := if Qle_bool m x then x else m.
Definition clamp_min (t : list Q) (m : Q) : list Q := map (clamp_min1 m) t.

(** [torch.sign] *)
Definition sign1 (x : Q) : Q :=
  match Qnum x with
  | Z0 => 0
  | Zpos _ => 1
  | Zneg _ => -1
  end%Q.
Definition sign (t : list Q) : list Q := map sign1 t.

(** [c * t], [t - c] and [c - t] with a Python number [c] *)
Definition scale (c : Q) (t : list Q) : list Q := map (Qmult c) t.
Definition sub_const (t : list Q) (c : Q) : list Q := map (fun x => x - c)%Q t.
Definition rsub_const (c : Q) (t : list Q) : list Q := map (fun x => c - x)%Q t.

(** [torch.sum] *)
Definition sum (t : list Q) : Q := fold_right Qplus 0%Q t.

(** [x / n] for a zero-dimensional tensor [x] and a Python int [n]:
    a zero divisor gives nan or an infinity, not an exception. *)
Definition div_int (x : Q) (n : nat) : scalar :=
  match n with
  | O => match Qnum x with
         | Z0 => NaN
         | Zpos _ => PosInf
         | Zneg _ => NegInf
         end
  | S _ => Fin (x / inject_Z (Z.of_nat n))
  end.

End Torch.

(* ===================================================================== *)
(** ** [loss_pred_loss] (the same text in main.py and bias_test_ll4al.py)  *)
(* ===================================================================== *)

Module RankingLoss.
Import Torch.

(** The per-pair (unreduced) loss [torch.clamp(margin - one * input, min=0)]. *)
Definition pair_losses (one input : list Q) (margin : Q) : result (list Q) :=
  prod ← mul one input;
  Return (clamp_min (rsub_const margin prod) 0).

Definition loss_pred_loss (input target : list Q) (margin : Q)
    (reduction : string) : result tensor :=
  _ ← py_assert (Nat.even (length input)) "the batch size is not even.";
  _ ← py_assert (Nat.eqb (length input) (length (flip input))) EmptyString;
  d ← sub input (flip input);
  let input := slice_to d (Z.of_nat (length input / 2)) in
  d ← sub target (flip target);
  let target := slice_to d (Z.of_nat (length target / 2)) in
  let one := sub_const (scale 2 (sign (clamp_min target 0))) 1 in
  (* the local [loss] is bound by the first two branches only *)
  loss ←
    (if String.eqb reduction "mean" then
       l ← pair_losses one input margin;
       let loss := sum l in
       Return (Some (Tensor0 (div_int loss (length input))))
     else if String.eqb reduction "none" then
       l ← pair_losses one input margin;
       Return (Some (Tensor1 l))
     else
       (* [NotImplementedError()] is an expression statement: the
          exception object is built and dropped *)
       let _ := NotImplementedError in
       Return None);
  match loss with
  | Some v => Return v
  | None => Raise (UnboundLocalError "loss")
  end.

(** One entry of [2 * torch.sign(torch.clamp(target, min=0)) - 1]. *)
Definition indicator (t : Q) : Q :=
  (2 * sign1 (clamp_min1 0 t) - 1)%Q.

(** [(t - t.flip(0))[:len(t)//2]] once the subtraction has gone through. *)
Definition half_diff (t : list Q) : list Q :=
  firstn (length t / 2)
    (map (fun p => fst p - snd p)%Q (combine t (flip t))).

(** The value of [torch.clamp(margin - one * input, min=0)] on the two
    halved differences, for operands of one size. *)
Definition unreduced (input target : list Q) (margin : Q) : list Q :=
  clamp_min
    (rsub_const margin
       (map (fun p => fst p * snd p)%Q
          (combine (map indicator (half_diff target)) (half_diff input))))
    0.

(** "Sample [i] is paired with sample [N-1-i] and entry [i] of [loss] is
    [max(0, margin - s * dpredicted)]", for a sign rule [sgn] applied to
    [dtarget]. *)
Definition pairwise_hinge (sgn : Q -> Q) (input target : list Q)
    (margin : Q) (loss : list Q) : Prop :=
  forall i, i < length input / 2 ->
    let N := length input in
    let dpredicted := (nth i input 0 - nth (N - 1 - i) input 0)%Q in
    let dtarget := (nth i target 0 - nth (N - 1 - i) target 0)%Q in
    (nth i loss 0 == Qmax 0 (margin - sgn dtarget * dpredicted))%Q.

(** The sign rule [+1] for a positive difference, [-1] otherwise. *)
Definition sign_strict (d : Q) : Q := if Qle_bool d 0 then (-1)%Q else 1%Q.

(** The sign rule in the words of the spec: [+1] if the difference is
    [>= 0], else [-1]. *)
Definition sign_weak (d : Q) : Q := if Qle_bool 0 d then 1%Q else (-1)%Q.

End RankingLoss.

(* ===================================================================== *)
(** ** [config.py]: the constants both scripts import                     *)
(* ===================================================================== *)

(** [config.py] is not part of the sources at hand; its constants are taken
    as parameters.  They are Python integers. *)
Record config : Type := Config {
  NUM_TRAIN : Z;
  INIT_CNT : Z;
  ADDENDUM : Z;
  MINIMUM_CNT : Z;
  CLS_CNT : Z
}.

(* ===================================================================== *)
(** ** Numpy: [np.argsort]                                                *)
(* ===================================================================== *)

Module Numpy.

(** The scores at the positions [arg], in that order. *)
Definition keys (u : list Q) (arg : list nat) : list Q :=
  map (fun k => nth k u 0%Q) arg.

(** [np.argsort(u)] returns the positions of [u] in an order that sorts
    the scores ascending.  Its default sort is not stable, so where equal
    scores land is left open: every function with these two properties is
    an admissible [argsort]. *)
Class Argsort : Type := {
  argsort : list Q -> list nat;
  argsort_perm : forall u, Permutation (argsort u) (seq 0 (length u));
  argsort_sorted : forall u, StronglySorted Qle (keys u (argsort u))
}.

(** One admissible [argsort]: insertion of the positions, last to first,
    each before the first position whose score is not smaller. *)
Fixpoint insert_pos (u : list Q) (k : nat) (l : list nat) : list nat :=
  match l with
  | [] => [k]
  | j :: l' =>
      if Qle_bool (nth k u 0%Q) (nth j u 0%Q) then k :: l
      else j :: insert_pos u k l'
  end.

Definition stable_argsort (u : list Q) : list nat :=
  fold_right (insert_pos u) [] (seq 0 (length u)).

(** No two positions of [u] hold the same score. *)
Definition distinct_scores (u : list Q) : bool :=
  forallb (fun i =>
    forallb (fun j => Nat.eqb i j || negb (Qeq_bool (nth i u 0%Q) (nth j u 0%Q)))
      (seq 0 (length u)))
    (seq 0 (length u)).

End Numpy.

Import Numpy.

(* ===================================================================== *)
(** ** [main.py]: scoring by the true loss, selection with a class floor  *)
(* ===================================================================== *)

(** [for x in xs: st = body(st, x)], stopping at the first exception. *)
Fixpoint for_each {S X} (body : S -> X -> result S) (st : S) (xs : list X)
    : result S :=
  match xs with
  | [] => Return st
  | x :: xs' => st' ← body st x; for_each body st' xs'
  end.

(** [range(n)] *)
Definition py_range (n : Z) : list nat := seq 0 (Z.to_nat n).

(** How many samples of [l] are of class [c], for the labelling [lab] of
    the dataset. *)
Definition class_count (lab : nat -> nat) (c : nat) (l : list nat) : nat :=
  count_occ Nat.eq_dec (map lab l) c.

(** What a module (an [nn.Module]) carries: its train/eval flag and its
    parameters and buffers. *)
Record module_state (W : Type) : Type := ModuleState {
  training : bool;
  weights : W
}.
Arguments ModuleState {W} _ _.
Arguments training {W} _.
Arguments weights {W} _.

(** [m.eval()] *)
Definition eval {W} (m : module_state W) : module_state W :=
  ModuleState false (weights m).

(** The dict [models]: [models['backbone']] and [models['module']]. *)
Record model_pair (Wb Wm : Type) : Type := Models {
  backbone : module_state Wb;
  module : module_state Wm
}.
Arguments Models {Wb Wm} _ _.
Arguments backbone {Wb Wm} _.
Arguments module {Wb Wm} _.

(** The collaborators of the scorers.  [models/resnet.py] and
    [models/lossnet.py] are not part of the sources at hand: the forward
    passes are parameters.  A forward pass may write to its module (batch
    statistics while training), so it returns the module as well.  A batch
    of inputs, the class scores and the feature list are kept abstract; a
    batch of labels is a list of classes and a batch of per-sample losses a
    list of numbers. *)
Class Networks : Type := {
  Wb : Type;
  Wm : Type;
  Inputs : Type;
  Scores : Type;
  Features : Type;
  backbone_forward : module_state Wb -> Inputs -> (Scores * Features) * module_state Wb;
  module_forward : module_state Wm -> Features -> list Q * module_state Wm
}.

Module Main.

Section Scorer.
Context `{Networks}.

(** The body of the loop over [unlabeled_loader]; [criterion] is the
    per-sample loss [nn.CrossEntropyLoss(reduction='none')]. *)
Definition score_batch (criterion : Scores -> list nat -> list Q)
    (st : (list Q * list nat) * model_pair Wb Wm)
    (batch : Inputs * list nat) : (list Q * list nat) * model_pair Wb Wm :=
  let '((uncertainty, label), models) := st in
  let '(inputs, labels) := batch in
  let '((scores, features), b) := backbone_forward (backbone models) inputs in
  let target_loss := criterion scores labels in
  ((uncertainty ++ target_loss, label ++ labels), Models b (module models)).

(** The arrays returned, and the models as the call leaves them. *)
Definition get_uncertainty (models : model_pair Wb Wm)
    (unlabeled_loader : list (Inputs * list nat))
    (criterion : Scores -> list nat -> list Q)
    : (list Q * list nat) * model_pair Wb Wm :=
  let models := Models (eval (backbone models)) (module models) in
  let models := Models (backbone models) (eval (module models)) in
  fold_left (score_batch criterion) unlabeled_loader (([], []), models).

End Scorer.

Section Selection.
Context `{Argsort}.
Variable cfg : config.

(** The pool in descending order of score: [list(t[arg].numpy())[::-1]]. *)
Definition descending {A} (t : list A) (arg : list nat) : result (list A) :=
  picked ← getitems t arg;
  Return (rev picked).

(** The slots left to the globally highest scores. *)
Definition free_slots : Z := (ADDENDUM cfg - MINIMUM_CNT cfg * CLS_CNT cfg)%Z.

(** The body of [for idx in range(len(ordered_index))]. *)
Definition floor_body (ordered_index ordered_label : list nat)
    (st : list Z * list nat) (idx : nat) : result (list Z * list nat) :=
  let '(cnt_lst, labeled_set) := st in
  c ← getitem ordered_label idx;
  n ← getitem cnt_lst c;
  if (n <? MINIMUM_CNT cfg)%Z then
    c ← getitem ordered_label idx;
    n ← getitem cnt_lst c;
    let cnt_lst := <[c := (n + 1)%Z]> cnt_lst in
    x ← getitem ordered_index idx;
    Return (cnt_lst, labeled_set ++ [x])
  else Return (cnt_lst, labeled_set).

(** The same loop as a recursion over the two lists side by side
    ([for_each_floor_body] shows that it is the loop): what it leaves in
    [cnt_lst] and what it appends to [labeled_set]. *)
Fixpoint walk (cnt_lst : list Z) (ordered_index ordered_label : list nat)
    : result (list Z * list nat) :=
  match ordered_index, ordered_label with
  | x :: ordered_index, c :: ordered_label =>
      n ← getitem cnt_lst c;
      if (n <? MINIMUM_CNT cfg)%Z then
        '(cnt_lst, admitted) ←
          walk (<[c := (n + 1)%Z]> cnt_lst) ordered_index ordered_label;
        Return (cnt_lst, x :: admitted)
      else walk cnt_lst ordered_index ordered_label
  | _, _ => Return (cnt_lst, [])
  end.

(** Lines 198-211: one update of the two index lists from the scores
    and labels of the pool.  The order in which Python lists the set
    [set(unlabeled_set) - set(labeled_set)] is not specified; [elements]
    stands for it, and nothing proved below depends on that order. *)
Definition select (labeled_set unlabeled_set : list nat)
    (uncertainty : list Q) (label : list nat)
    : result (list nat * list nat) :=
  let subset := unlabeled_set in
  let arg := argsort uncertainty in
  ordered_label ← descending label arg;
  ordered_index ← descending subset arg;
  let labeled_set := labeled_set ++ slice_to ordered_index free_slots in
  let ordered_index := slice_from ordered_index free_slots in
  let ordered_label := slice_from ordered_label free_slots in
  let cnt_lst := map (fun _ => 0%Z) (py_range (CLS_CNT cfg)) in
  '(_, labeled_set) ←
    for_each (floor_body ordered_index ordered_label)
      (cnt_lst, labeled_set) (py_range (Z.of_nat (length ordered_index)));
  let unlabeled_set :=
    elements ((list_to_set unlabeled_set : gset nat) ∖ list_to_set labeled_set) in
  Return (labeled_set, unlabeled_set).

(** Lines 154-157, for the order [indices] that [random.shuffle] left. *)
Definition initial_split (indices : list nat) : list nat * list nat :=
  (slice_to indices (INIT_CNT cfg), slice_from indices (INIT_CNT cfg)).

(** What [random.shuffle(list(range(NUM_TRAIN)))] can leave. *)
Definition shuffled (indices : list nat) : Prop :=
  Permutation indices (py_range (NUM_TRAIN cfg)).

(** One cycle of a trial, seen from the index lists: the scorer hands
    back some scores and labels and [select] goes through. *)
Inductive cycle : list nat * list nat -> list nat * list nat -> Prop :=
| cycle_select labeled_set unlabeled_set uncertainty label st' :
    select labeled_set unlabeled_set uncertainty label = Return st' ->
    cycle (labeled_set, unlabeled_set) st'.

(** The index lists at a cycle boundary of a trial. *)
Inductive boundary (indices : list nat) : list nat * list nat -> Prop :=
| boundary_init : boundary indices (initial_split indices)
| boundary_cycle st st' :
    boundary indices st -> cycle st st' -> boundary indices st'.

End Selection.

End Main.

(* ===================================================================== *)
(** ** [bias_test_ll4al.py]: scoring by the predicted loss, plain Top-B   *)
(* ===================================================================== *)

Module BiasTest.

Section Scorer.
Context `{Networks}.

(** The body of the loop over [unlabeled_loader]; [module_forward] gives
    the predicted losses already flattened by [view]. *)
Definition score_batch (st : (list Q * list nat) * model_pair Wb Wm)
    (batch : Inputs * list nat) : (list Q * list nat) * model_pair Wb Wm :=
  let '((uncertainty, label), models) := st in
  let '(inputs, labels) := batch in
  let '((scores, features), b) := backbone_forward (backbone models) inputs in
  let '(pred_loss, m) := module_forward (module models) features in
  ((uncertainty ++ pred_loss, label ++ labels), Models b m).

(** The arrays returned, and the models as the call leaves them. *)
Definition get_uncertainty (models : model_pair Wb Wm)
    (unlabeled_loader : list (Inputs * list nat))
    : (list Q * list nat) * model_pair Wb Wm :=
  let models := Models (eval (backbone models)) (module models) in
  let models := Models (backbone models) (eval (module models)) in
  fold_left score_batch unlabeled_loader (([], []), models).

End Scorer.

Section Selection.
Context `{Argsort}.
Variable cfg : config.

(** [Counter(labels)] *)
Definition Counter (labels : list nat) : gmap nat nat :=
  fold_left (fun m c => <[c := S (default 0 (m !! c))]> m) labels ∅.

(** What one cycle pickles into [data_<cycle>.pkl]. *)
Record dump : Type := Dump {
  samples : list nat;
  label_cnt : gmap nat nat;
  real_samples : list nat;
  real_label_cnt : gmap nat nat
}.

(** Lines 220-235: one update of the two index lists; [subset] is the
    pool in the order [random.shuffle] left it. *)
Definition select (labeled_set subset : list nat)
    (uncertainty : list Q) (labels : list nat)
    (real_uncertainty : list Q) (real_labels : list nat)
    : result ((list nat * list nat) * dump) :=
  let arg := argsort uncertainty in
  by_score ← getitems labels arg;
  let selected_labels := slice_from by_score (- ADDENDUM cfg) in
  by_score ← getitems subset arg;
  let selected_samples := slice_from by_score (- ADDENDUM cfg) in
  let selected_label_cnt := Counter selected_labels in
  let real_arg := argsort real_uncertainty in
  by_score ← getitems real_labels real_arg;
  let real_labels := slice_from by_score (-5000) in
  by_score ← getitems subset real_arg;
  let real_samples := slice_from by_score (-5000) in
  let real_label_cnt := Counter real_labels in
  let pickled :=
    Dump selected_samples selected_label_cnt real_samples real_label_cnt in
  let labeled_set := labeled_set ++ selected_samples in
  by_score ← getitems subset arg;
  let unlabeled_set := slice_to by_score (- ADDENDUM cfg) in
  Return ((labeled_set, unlabeled_set), pickled).

End Selection.

(** The scenario of the spec: ten samples [0..9], sample [i] scored
    [scenario_scores[i]]. *)
Definition scenario_scores : list Q :=
  [1 # 10; 9 # 10; 3 # 10; 8 # 10; 2 # 10; 7 # 10; 5 # 100; 6 # 10; 4 # 10; 5 # 10]%Q.

Definition scenario_score (i : nat) : Q := nth i scenario_scores 0%Q.

End BiasTest.

(* ===================================================================== *)
(** ** Concrete data for the worked instances                             *)
(* ===================================================================== *)

Module Demo.

(** 4 classes, budget 8, per-class minimum 1; 14 samples, 2 labeled at the
    start. *)
Definition cfg : config :=
  {| NUM_TRAIN := 14; INIT_CNT := 2; ADDENDUM := 8; MINIMUM_CNT := 1; CLS_CNT := 4 |}.

(** The same policy on 11 samples, for one cycle of a trial; sample [i] of
    the pool [2 .. 10] is of class [(i - 2) mod 4]. *)
Definition cfg_trial : config :=
  {| NUM_TRAIN := 11; INIT_CNT := 2; ADDENDUM := 8; MINIMUM_CNT := 1; CLS_CNT := 4 |}.
Definition lab_trial (i : nat) : nat := (i - 2) mod 4.

(** Budget 3, for the Top-B scenario. *)
Definition cfg_top3 : config :=
  {| NUM_TRAIN := 12; INIT_CNT := 2; ADDENDUM := 3; MINIMUM_CNT := 0; CLS_CNT := 4 |}.

(** Budget 2 for four classes with a minimum of 1 each, and budget 5 with
    the labels [i mod 4]. *)
Definition cfg_small : config :=
  {| NUM_TRAIN := 14; INIT_CNT := 2; ADDENDUM := 2; MINIMUM_CNT := 1; CLS_CNT := 4 |}.
Definition cfg_five : config :=
  {| NUM_TRAIN := 14; INIT_CNT := 2; ADDENDUM := 5; MINIMUM_CNT := 1; CLS_CNT := 4 |}.
Definition lab_mod (i : nat) : nat := i mod 4.

(** The pool [0 .. 11]; sample [i] scores [12 - i], so the ranking is
    [0, 1, ..., 11]. *)
Definition pool : list nat := seq 0 12.
Definition score (i : nat) : Q := inject_Z (12 - Z.of_nat i).

(** True labels under which the four highest-scoring samples cover the four
    classes. *)
Definition lab (i : nat) : nat := nth i [0; 1; 2; 3; 0; 0; 0; 0; 1; 2; 3; 0] 0.

(** True labels under which the four highest-scoring samples cover classes
    0 and 1 only. *)
Definition lab_two (i : nat) : nat := nth i [0; 1; 0; 1; 0; 1; 2; 3; 2; 3; 0; 1] 0.

(** Toy networks: a backbone that counts its forward passes while training
    and copies its input to scores and features, a loss module that does
    the same and returns the features, and a criterion that returns the
    scores. *)
Definition count_if_training (m : module_state nat) : module_state nat :=
  if training m then ModuleState true (S (weights m)) else m.

Definition networks : Networks := {|
  Wb := nat;
  Wm := nat;
  Inputs := list Q;
  Scores := list Q;
  Features := list Q;
  backbone_forward m x := ((x, x), count_if_training m);
  module_forward m f := (f, count_if_training m)
|}.

Definition criterion (scores : list Q) (labels : list nat) : list Q := scores.

Definition models : model_pair nat nat :=
  Models (ModuleState false 7) (ModuleState false 9).

Definition loader : list (list Q * list nat) :=
  [([1; 2]%Q, [0; 1]); ([3]%Q, [2])].

End Demo.

(* ===================================================================== *)
(** ** Python and Torch: what the remaining functions need                *)
(* ===================================================================== *)

Module PyMore.

(** The exceptions of the functions below: those of [Py.exn], a missing
    dictionary key and a division of Python numbers by zero. *)
Inductive exn : Type :=
| Core (e : Py.exn)
| KeyError (key : string)
| ZeroDivisionError.

Inductive outcome (A : Type) : Type :=
| Done (a : A)
| Fail (e : exn).
Arguments Done {A} a.
Arguments Fail {A} e.

Definition bind {A B} (m : outcome A) (k : A -> outcome B) : outcome B :=
  match m with
  | Done a => k a
  | Fail e => Fail e
  end.

(** A computation that raises only exceptions of [Py.exn]. *)
Definition lift {A} (r : result A) : outcome A :=
  match r with
  | Return a => Done a
  | Raise e => Fail (Core e)
  end.

(** [d[key]] for a dict with string keys *)
Definition dict_getitem {V} (d : gmap string V) (key : string) : outcome V :=
  match d !! key with
  | Some v => Done v
  | None => Fail (KeyError key)
  end.

(** [a / b] for two Python ints *)
Definition int_truediv (a b : Z) : outcome Q :=
  if (b =? 0)%Z then Fail ZeroDivisionError else Done (inject_Z a / inject_Z b)%Q.

End PyMore.

Import PyMore.

#[global] Instance outcome_bind : MBind outcome := fun A B k m => PyMore.bind m k.

(** [for epoch in epochs: body], where the body can raise. *)
Fixpoint for_epochs {S} (body : S -> nat -> outcome S) (st : S) (epochs : list nat)
    : outcome S :=
  match epochs with
  | [] => Done st
  | e :: epochs' => st' ← body st e; for_epochs body st' epochs'
  end.

Module TorchMore.
Import Torch.

(** [x + y] and [w * x] for zero-dimensional floats, [w] a Python number *)
Definition add0 (x y : scalar) : scalar :=
  match x, y with
  | Fin a, Fin b => Fin (a + b)
  | NaN, _ | _, NaN => NaN
  | PosInf, NegInf | NegInf, PosInf => NaN
  | PosInf, _ | _, PosInf => PosInf
  | NegInf, _ | _, NegInf => NegInf
  end.

Definition scale0 (w : Q) (x : scalar) : scalar :=
  match x with
  | Fin a => Fin (w * a)
  | NaN => NaN
  | PosInf =>
      match Qnum w with Z0 => NaN | Zpos _ => PosInf | Zneg _ => NegInf end
  | NegInf =>
      match Qnum w with Z0 => NaN | Zpos _ => NegInf | Zneg _ => PosInf end
  end.

(** [(preds == labels).sum().item()], with the broadcasting of [==] *)
Definition count_equal (preds labels : list nat) : result nat :=
  if Nat.eqb (length preds) (length labels) then
    Return (length (List.filter (fun p => Nat.eqb (fst p) (snd p))
                      (combine preds labels)))
  else
    match preds, labels with
    | [p], _ => Return (count_occ Nat.eq_dec labels p)
    | _, [l] => Return (count_occ Nat.eq_dec preds l)
    | _, _ => Raise RuntimeError
    end.

End TorchMore.

(** [m.train()] *)
Definition train_mode {W} (m : module_state W) : module_state W :=
  ModuleState true (weights m).

(* ===================================================================== *)
(** ** [main.py]: [train_epoch], [test] and [train]                       *)
(* ===================================================================== *)

Module MainRun.
Import Torch TorchMore.

Section Functions.
Context `{Networks}.

(** [MARGIN] and [WEIGHT] of [config.py] *)
Variables MARGIN WEIGHT : Q.

(** [nn.CrossEntropyLoss(reduction='none')], and [torch.max(scores.data, 1)]
    as the index it returns for every row of scores *)
Variable criterion : Scores -> list nat -> list Q.
Variable argmax : Scores -> list nat.

(** [features[i] = features[i].detach()] for the four feature maps *)
Variable detach : Features -> Features.

(** The dict [optimizers] with the gradients it works on; [zero_grad] is
    the two [zero_grad()] calls and [descend] is [loss.backward()] followed
    by the two [step()] calls, on the batch and the loss at hand. *)
Variable Optimizers : Type.
Variable zero_grad : Optimizers -> Optimizers.
Variable descend : scalar -> bool -> Inputs -> list nat ->
  model_pair Wb Wm * Optimizers -> model_pair Wb Wm * Optimizers.

(** The dict [schedulers] acts on the optimizers it was built on. *)
Variable sched_step : Optimizers -> Optimizers.

(** The file system, as far as [train] touches it. *)
Variable World : Type.
Variable path_exists : World -> string -> bool.
Variable makedirs : World -> string -> World.

(** The body of the loop of [train_epoch]. *)
Definition train_batch (epoch epoch_loss : Z)
    (st : model_pair Wb Wm * Optimizers) (data : Inputs * list nat)
    : result (model_pair Wb Wm * Optimizers) :=
  let '(models, optimizers) := st in
  let '(inputs, labels) := data in
  let optimizers := zero_grad optimizers in
  let '((scores, features), b) := backbone_forward (backbone models) inputs in
  let target_loss := criterion scores labels in
  let detached := (epoch_loss <? epoch)%Z in
  let features := if detached then detach features else features in
  let '(pred_loss, m) := module_forward (module models) features in
  let m_backbone_loss := div_int (sum target_loss) (length target_loss) in
  m_module_loss ← RankingLoss.loss_pred_loss pred_loss target_loss MARGIN "mean";
  match m_module_loss with
  | Tensor0 m_module_loss =>
      let loss := add0 m_backbone_loss (scale0 WEIGHT m_module_loss) in
      Return (descend loss detached inputs labels (Models b m, optimizers))
  | Tensor1 _ =>
      (* [backward()] takes a scalar only *)
      Raise RuntimeError
  end.

Definition train_epoch (models : model_pair Wb Wm) (optimizers : Optimizers)
    (dataloaders : gmap string (list (Inputs * list nat)))
    (epoch epoch_loss : Z) : outcome (model_pair Wb Wm * Optimizers) :=
  let models := Models (train_mode (backbone models)) (module models) in
  let models := Models (backbone models) (train_mode (module models)) in
  loader ← dict_getitem dataloaders "train";
  lift (for_each (train_batch epoch epoch_loss) (models, optimizers) loader).

(** The body of the loop of [test]. *)
Definition test_batch (st : (Z * Z) * model_pair Wb Wm)
    (data : Inputs * list nat) : result ((Z * Z) * model_pair Wb Wm) :=
  let '((total, correct), models) := st in
  let '(inputs, labels) := data in
  let '((scores, _), b) := backbone_forward (backbone models) inputs in
  let preds := argmax scores in
  let total := (total + Z.of_nat (length labels))%Z in
  n ← count_equal preds labels;
  Return ((total, (correct + Z.of_nat n)%Z), Models b (module models)).

(** [test(models, dataloaders, mode)]; the source gives [mode] the default
    ['val'].  The accuracy, and the models as the call leaves them. *)
Definition test (models : model_pair Wb Wm)
    (dataloaders : gmap string (list (Inputs * list nat))) (mode : string)
    : outcome (Q * model_pair Wb Wm) :=
  let models := Models (eval (backbone models)) (module models) in
  let models := Models (backbone models) (eval (module models)) in
  loader ← dict_getitem dataloaders mode;
  '((total, correct), models) ← lift (for_each test_batch ((0%Z, 0%Z), models) loader);
  acc ← int_truediv (100 * correct) total;
  Done (acc, models).

(** [train]; [dataloaders_at epoch] are the batches that the loaders yield
    in that epoch (the sampler of the training loader draws a new order
    for every pass). *)
Definition train_step (dataloaders_at : nat -> gmap string (list (Inputs * list nat)))
    (epoch_loss : Z) (st : model_pair Wb Wm * Optimizers) (epoch : nat)
    : outcome (model_pair Wb Wm * Optimizers) :=
  let '(models, optimizers) := st in
  let optimizers := sched_step optimizers in
  train_epoch models optimizers (dataloaders_at epoch) (Z.of_nat epoch) epoch_loss.

Definition train (models : model_pair Wb Wm) (optimizers : Optimizers)
    (dataloaders_at : nat -> gmap string (list (Inputs * list nat)))
    (num_epochs epoch_loss : Z) (world : World)
    : outcome ((model_pair Wb Wm * Optimizers) * World) :=
  let checkpoint_dir := "./trained/weights" in
  let world :=
    if negb (path_exists world checkpoint_dir) then makedirs world checkpoint_dir
    else world in
  st ← for_epochs (train_step dataloaders_at epoch_loss) (models, optimizers)
         (py_range num_epochs);
  Done (st, world).

End Functions.

End MainRun.

(* ===================================================================== *)
(** ** [bias_test_ll4al.py]: [get_real_uncertainty]                       *)
(* ===================================================================== *)

Module BiasOracle.

Section Scorer.
Context `{Networks}.

Definition score_batch (criterion : Scores -> list nat -> list Q)
    (st : (list Q * list nat) * model_pair Wb Wm)
    (batch : Inputs * list nat) : (list Q * list nat) * model_pair Wb Wm :=
  let '((uncertainty, label), models) := st in
  let '(inputs, labels) := batch in
  let '((scores, features), b) := backbone_forward (backbone models) inputs in
  let target_loss := criterion scores labels in
  ((uncertainty ++ target_loss, label ++ labels), Models b (module models)).

Definition get_real_uncertainty (models : model_pair Wb Wm)
    (unlabeled_loader : list (Inputs * list nat))
    (criterion : Scores -> list nat -> list Q)
    : (list Q * list nat) * model_pair Wb Wm :=
  let models := Models (eval (backbone models)) (module models) in
  let models := Models (backbone models) (eval (module models)) in
  fold_left (score_batch criterion) unlabeled_loader (([], []), models).

End Scorer.

End BiasOracle.

(* ===================================================================== *)
(** ** Scoring and selection, as the cycles of the two scripts chain them *)
(* ===================================================================== *)

Module MainCycle.

Section Body.
Context `{Networks} `{Argsort}.
Variable cfg : config.

(** [main.py], from the call of [get_uncertainty] to the new
    [unlabeled_set]. *)
Definition score_and_select (models : model_pair Wb Wm)
    (unlabeled_loader : list (Inputs * list nat))
    (criterion : Scores -> list nat -> list Q)
    (labeled_set unlabeled_set : list nat)
    : result ((list nat * list nat) * model_pair Wb Wm) :=
  let '((uncertainty, label), models) :=
    Main.get_uncertainty models unlabeled_loader criterion in
  lists ← Main.select cfg labeled_set unlabeled_set uncertainty label;
  Return (lists, models).

End Body.

End MainCycle.

Module BiasCycle.

Section Body.
Context `{Networks} `{Argsort}.
Variable cfg : config.

(** [bias_test_ll4al.py], from the call of [get_uncertainty] to the new
    [unlabeled_set]. *)
Definition score_and_select (models : model_pair Wb Wm)
    (unlabeled_loader : list (Inputs * list nat))
    (criterion : Scores -> list nat -> list Q)
    (labeled_set subset : list nat)
    : result (((list nat * list nat) * BiasTest.dump) * model_pair Wb Wm) :=
  let '((uncertainty, labels), models) :=
    BiasTest.get_uncertainty models unlabeled_loader in
  let '((real_uncertainty, real_labels), models) :=
    BiasOracle.get_real_uncertainty models unlabeled_loader criterion in
  lists ← BiasTest.select cfg labeled_set subset uncertainty labels
            real_uncertainty real_labels;
  Return (lists, models).

End Body.

End BiasCycle.

(* ===================================================================== *)
(** ** [autoencoder/vae.py]: [train_epoch], [test] and [train]            *)
(* ===================================================================== *)

(** The autoencoder [VAE]: its [state_dict], an image, and the three other
    tensors that [model(inputs)] returns beside the reconstruction.  A
    batch of images is the list of its images; a forward pass may write to
    the module. *)
Class AutoEncoder : Type := {
  Wae : Type;
  Image : Type;
  Feat : Type;
  Mu : Type;
  Logvar : Type;
  vae_forward : module_state Wae -> list Image ->
    (((list Image * Feat) * Mu) * Logvar) * module_state Wae
}.

Module Vae.
Import Torch.

Section Functions.
Context `{AutoEncoder}.

(** [nn.MSELoss(reduction='sum')], and the Kullback-Leibler term that
    [train_epoch] computes from [mu] and [logvar] *)
Variable criterion : list Image -> list Image -> Q.
Variable kld : Mu -> Logvar -> Q.

(** Adam together with the scheduler built on it: [zero_grad()],
    [loss.backward(); opt.step()] and [scheduler.step(loss)] *)
Variable Opt : Type.
Variable zero_grad : Opt -> Opt.
Variable descend : Q -> list Image -> module_state Wae * Opt -> module_state Wae * Opt.
Variable sched_step : scalar -> Opt -> Opt.

(** [DATASET] of [config.py] *)
Variable DATASET : string.

(** What the functions do to the world, in the order of the calls: the
    calls on the [SummaryWriter], [os.makedirs] and [torch.save] (the
    checkpoint with its two entries, and the path). *)
Inductive event : Type :=
| add_image (tag : string) (img_tensor : Image) (global_step : Z)
| add_scalar (tag : string) (scalar_value : scalar) (global_step : Z)
| add_embedding (mat : Feat) (metadata : list nat) (label_img : list Image)
    (global_step : Z)
| makedirs (name : string)
| torch_save (epoch : Z) (ae_state_dict : Wae) (f : string).

(** The locals that the loop of [train_epoch] binds. *)
Record bound : Type := Bound {
  inputs : list Image;
  targets : list nat;
  recon : list Image;
  features : Feat
}.

Record epoch_state : Type := EpochState {
  cnt : nat;
  _loss : Q;
  net : module_state Wae;
  adam : Opt;
  locals : option bound
}.

Definition train_batch (st : epoch_state) (data : list Image * list nat)
    : epoch_state :=
  let cnt := S (cnt st) in
  let opt := zero_grad (adam st) in
  let inputs := fst data in
  let targets := snd data in
  let '((((recon, features), mu), logvar), model) := vae_forward (net st) inputs in
  let recon_loss := criterion recon inputs in
  let kld_loss := kld mu logvar in
  let loss := (recon_loss + kld_loss)%Q in
  let '(model, opt) := descend loss inputs (model, opt) in
  EpochState cnt (_loss st + loss)%Q model opt
    (Some (Bound inputs targets recon features)).

(** [train_epoch]: the mean loss it returns, and the model, the optimizer
    and the events as the call leaves them. *)
Definition train_epoch (model : module_state Wae) (opt : Opt)
    (dataloaders : gmap string (list (list Image * list nat)))
    (summary_writer : list event) (epoch : Z)
    : outcome (scalar * ((module_state Wae * Opt) * list event)) :=
  let model := train_mode model in
  loader ← dict_getitem dataloaders "train";
  let st := fold_left train_batch loader (EpochState 0 0%Q model opt None) in
  match locals st with
  | None => Fail (Core (UnboundLocalError "inputs"))
  | Some b =>
      origin ← lift (getitem (inputs b) 0);
      let summary_writer := summary_writer ++ [add_image "image/origin" origin epoch] in
      recon0 ← lift (getitem (recon b) 0);
      let summary_writer := summary_writer ++ [add_image "image/recon" recon0 epoch] in
      let mean := div_int (_loss st) (cnt st) in
      let summary_writer := summary_writer ++ [add_scalar "loss" mean epoch] in
      let summary_writer :=
        if (epoch mod 100 =? 99)%Z
        then summary_writer ++ [add_embedding (features b) (targets b) (inputs b) epoch]
        else summary_writer in
      Done (mean, ((net st, adam st), summary_writer))
  end.

Definition test_batch (st : Q * module_state Wae) (data : list Image * list nat)
    : Q * module_state Wae :=
  let '(loss, model) := st in
  let inputs := fst data in
  let '((((recon, _), _), _), model) := vae_forward model inputs in
  ((loss + criterion recon inputs)%Q, model).

(** [test(model, criterion, dataloaders, mode)]; the source gives [mode]
    the default ['val']. *)
Definition test (model : module_state Wae)
    (dataloaders : gmap string (list (list Image * list nat))) (mode : string)
    : outcome (Q * module_state Wae) :=
  _ ← lift (py_assert (String.eqb mode "val" || String.eqb mode "test") EmptyString);
  let model := eval model in
  loader ← dict_getitem dataloaders mode;
  Done (fold_left test_batch loader (0%Q, model)).

Definition checkpoint_path : string := "../trained_ae/vae_" ++ DATASET ++ ".pth.tar".

Record train_state : Type := TrainState {
  best_loss : Q;
  current : module_state Wae;
  optimizer : Opt;
  events : list event
}.

(** The body of the loop of [train]. *)
Definition train_step (dataloaders : gmap string (list (list Image * list nat)))
    (st : train_state) (epoch : nat) : outcome train_state :=
  '(loss, ((model, opt), summary_writer)) ←
    train_epoch (current st) (optimizer st) dataloaders (events st) (Z.of_nat epoch);
  let opt := sched_step loss opt in
  if (Z.of_nat epoch mod 5 =? 4)%Z then
    '(_loss, model) ← test model dataloaders "test";
    if negb (Qle_bool (best_loss st) _loss) then
      Done (TrainState _loss model opt
              (summary_writer ++
               [torch_save (Z.of_nat epoch + 1) (weights model) checkpoint_path]))
    else Done (TrainState (best_loss st) model opt summary_writer)
  else Done (TrainState (best_loss st) model opt summary_writer).

(** [train]; [trained_ae_exists] is what [os.path.exists('../trained_ae')]
    answers.  The state holds [best_loss] as the loop leaves it. *)
Definition train (model : module_state Wae) (opt : Opt)
    (dataloaders : gmap string (list (list Image * list nat)))
    (num_epochs : Z) (trained_ae_exists : bool) : outcome train_state :=
  let best_loss := 999999999%Q in
  let events := if negb trained_ae_exists then [makedirs "../trained_ae"] else [] in
  for_epochs (train_step dataloaders) (TrainState best_loss model opt events)
    (py_range num_epochs).

(** The checkpoints written, in the order of the calls. *)
Definition saves (log : list event) : list (Z * Wae) :=
  omap (fun ev => match ev with
                  | torch_save epoch w _ => Some (epoch, w)
                  | _ => None
                  end) log.

End Functions.

Arguments cnt {_ _} _.
Arguments _loss {_ _} _.
Arguments net {_ _} _.
Arguments adam {_ _} _.
Arguments locals {_ _} _.
Arguments best_loss {_ _} _.
Arguments current {_ _} _.
Arguments optimizer {_ _} _.
Arguments events {_ _} _.

End Vae.

(* ===================================================================== *)
(** ** Concrete data for the training and test functions                  *)
(* ===================================================================== *)

Module DemoRun.

(** For the toy networks of [Demo]: a score of 2 or more is read as class
    1, any other as class 0. *)
Definition argmax (scores : list Q) : list nat :=
  map (fun s => if Qle_bool 2 s then 1 else 0) scores.

(** Two batches of two samples, and the loaders of a run: [Demo.loader],
    with a batch of one sample, to train on. *)
Definition even_loader : list (list Q * list nat) :=
  [([1; 2]%Q, [0; 1]); ([3; 4]%Q, [2; 0])].

Definition dataloaders : gmap string (list (list Q * list nat)) :=
  <["train" := Demo.loader]> (<["test" := even_loader]> ∅).

Definition even_dataloaders : gmap string (list (list Q * list nat)) :=
  <["train" := even_loader]> (<["test" := even_loader]> ∅).

(** Optimizers that count their steps, and a file system that is the list
    of its directories. *)
Definition descend (loss : Torch.scalar) (detached : bool) (inputs : list Q)
    (labels : list nat) (st : model_pair nat nat * nat) : model_pair nat nat * nat :=
  (st.1, S st.2).

Definition path_exists (world : list string) (path : string) : bool :=
  existsb (String.eqb path) world.

Definition makedirs (world : list string) (path : string) : list string :=
  path :: world.

(** A toy autoencoder on images of one pixel: it counts its forward passes
    while training, and reconstructs an image [x] as [x / (w + 1)] after
    [w] of them. *)
#[local] Instance autoencoder : AutoEncoder := {|
  Wae := nat;
  Image := Q;
  Feat := unit;
  Mu := unit;
  Logvar := unit;
  vae_forward m x :=
    ((((map (fun q => q / inject_Z (Z.of_nat (S (weights m))))%Q x, tt), tt), tt),
     Demo.count_if_training m)
|}.

(** The criterion adds up the reconstruction. *)
Definition criterion (recon inputs : list Q) : Q := Torch.sum recon.

Definition kld (mu logvar : unit) : Q := 0.

Definition step (loss : Q) (inputs : list Q) (st : module_state nat * nat)
    : module_state nat * nat :=
  (st.1, S st.2).

Definition images : gmap string (list (list Q * list nat)) :=
  <["train" := [([1; 2]%Q, [0; 1])]]> (<["test" := [([6]%Q, [0])]]> ∅).

Definition images_without_test : gmap string (list (list Q * list nat)) :=
  <["train" := [([1; 2]%Q, [0; 1])]]> ∅.

(** The labels of [Demo.lab], but for sample 11, whose label 7 is no class
    of [Demo.cfg]. *)
Definition lab_unknown (i : nat) : nat := if Nat.eqb i 11 then 7 else Demo.lab i.

End DemoRun.

(* ===================================================================== *)
(** ** Facts about the primitives                                         *)
(* ===================================================================== *)

Section PrimitiveFacts.
Import Torch RankingLoss.

Lemma clip_of_nat (n k : nat) : clip n (Z.of_nat k) = Nat.min k n.
Proof.
  unfold clip. destruct (Z.ltb_spec (Z.of_nat k) 0); [lia|].
  now rewrite Nat2Z.id.
Qed.

Lemma slice_to_of_nat {A} (l : list A) (k : nat) :
  slice_to l (Z.of_nat k) = firstn k l.
Proof.
  unfold slice_to. rewrite clip_of_nat.
  destruct (Nat.le_ge_cases k (length l)).
  - now rewrite Nat.min_l.
  - rewrite Nat.min_r by assumption.
    now rewrite !firstn_all2 by lia.
Qed.

(** Any integer bound cuts a list in two: [l[:k] + l[k:] == l]. *)
Lemma slice_to_from {A} (l : list A) (k : Z) :
  slice_to l k ++ slice_from l k = l.
Proof. apply firstn_skipn. Qed.

Lemma broadcast2_same f (a b : list Q) :
  length a = length b ->
  broadcast2 f a b = Return (map (fun p => f (fst p) (snd p)) (combine a b)).
Proof. intros E. unfold broadcast2. now rewrite E, Nat.eqb_refl. Qed.

Lemma nth_zip f (a b : list Q) (i : nat) :
  length a = length b -> i < length a ->
  nth i (map (fun p => f (fst p) (snd p)) (combine a b)) 0%Q
  = f (nth i a 0%Q) (nth i b 0%Q).
Proof.
  intros E Hi.
  rewrite nth_indep with (d' := f (fst (0%Q, 0%Q)) (snd (0%Q, 0%Q))).
  - rewrite (map_nth (fun p => f (fst p) (snd p))).
    now rewrite combine_nth.
  - rewrite length_map, length_combine. lia.
Qed.

Lemma nth_map_in (f : Q -> Q) (l : list Q) (i : nat) :
  i < length l -> nth i (map f l) 0%Q = f (nth i l 0%Q).
Proof.
  intros Hi. rewrite nth_indep with (d' := f 0%Q).
  - apply map_nth.
  - now rewrite length_map.
Qed.

Lemma nth_firstn_in {A} (l : list A) (k i : nat) (d : A) :
  i < k -> nth i (firstn k l) d = nth i l d.
Proof.
  intros Hi. rewrite nth_firstn.
  destruct (Nat.ltb_spec i k); [reflexivity | lia].
Qed.

(** [clamp(x, min=0)] is [max(0, x)]. *)
Lemma clamp_min1_max (x : Q) : (clamp_min1 0 x == Qmax 0 x)%Q.
Proof.
  unfold clamp_min1. destruct (Qle_bool 0 x) eqn:E.
  - apply Qle_bool_iff in E. symmetry. now apply Q.max_r.
  - symmetry. apply Q.max_l.
    destruct (Qlt_le_dec x 0) as [L | L].
    + now apply Qlt_le_weak.
    + apply Qle_bool_iff in L. congruence.
Qed.

Lemma clamp_min1_nonneg (x : Q) : (0 <= clamp_min1 0 x)%Q.
Proof.
  unfold clamp_min1. destruct (Qle_bool 0 x) eqn:E.
  - now apply Qle_bool_iff.
  - apply Qle_refl.
Qed.

(** [2 * sign(clamp(t, min=0)) - 1] is [1] for a positive [t] and [-1]
    for every other [t], zero included. *)
Lemma indicator_pos (t : Q) : (0 < t)%Q -> indicator t = 1%Q.
Proof.
  intros H. unfold indicator, clamp_min1.
  assert (E : Qle_bool 0 t = true) by (apply Qle_bool_iff; now apply Qlt_le_weak).
  rewrite E. unfold sign1. destruct t as [n d].
  unfold Qlt in H. simpl in *. destruct n; try lia. reflexivity.
Qed.

Lemma indicator_nonpos (t : Q) : (t <= 0)%Q -> indicator t = (-1)%Q.
Proof.
  intros H. unfold indicator, clamp_min1.
  destruct (Qle_bool 0 t) eqn:E.
  - apply Qle_bool_iff in E. unfold sign1. destruct t as [n d].
    unfold Qle in *. simpl in *. destruct n; try lia. reflexivity.
  - reflexivity.
Qed.

End PrimitiveFacts.

(* ===================================================================== *)
(** ** The ranking loss                                                   *)
(* ===================================================================== *)

Section RankingLossFacts.
Import Torch RankingLoss.

Lemma length_half_diff (t : list Q) : length (half_diff t) = length t / 2.
Proof.
  unfold half_diff, flip.
  rewrite length_firstn, length_map, length_combine, length_rev.
  pose proof (Nat.Div0.div_le_upper_bound (length t) 2 (length t)). lia.
Qed.

Lemma nth_half_diff (t : list Q) (i : nat) :
  i < length t / 2 ->
  nth i (half_diff t) 0%Q
  = (nth i t 0 - nth (length t - 1 - i) t 0)%Q.
Proof.
  intros Hi. unfold half_diff, flip.
  assert (Hlt : i < length t).
  { pose proof (Nat.Div0.div_le_upper_bound (length t) 2 (length t)). lia. }
  rewrite nth_firstn_in by assumption.
  rewrite nth_zip by (rewrite ?length_rev; lia).
  rewrite rev_nth by assumption.
  now replace (length t - S i) with (length t - 1 - i) by lia.
Qed.

Lemma one_is_indicator (t : list Q) :
  sub_const (scale 2 (sign (clamp_min t 0))) 1 = map indicator t.
Proof.
  unfold sub_const, scale, sign, clamp_min. now rewrite !map_map.
Qed.

Lemma length_unreduced input target margin :
  length target = length input ->
  length (unreduced input target margin) = length input / 2.
Proof.
  intros E. unfold unreduced, clamp_min, rsub_const.
  rewrite !length_map, length_combine, length_map, !length_half_diff, E.
  apply Nat.min_id.
Qed.

Lemma nth_unreduced input target margin i :
  length target = length input -> i < length input / 2 ->
  nth i (unreduced input target margin) 0%Q
  = clamp_min1 0 (margin - indicator (nth i (half_diff target) 0)
                           * nth i (half_diff input) 0)%Q.
Proof.
  intros E Hi. unfold unreduced, clamp_min, rsub_const.
  rewrite nth_map_in.
  2:{ rewrite !length_map, length_combine, length_map, !length_half_diff, E. lia. }
  rewrite nth_map_in.
  2:{ rewrite length_map, length_combine, length_map, !length_half_diff, E. lia. }
  rewrite nth_zip.
  2:{ rewrite length_map, !length_half_diff, E. reflexivity. }
  2:{ rewrite length_map, !length_half_diff, E. lia. }
  rewrite nth_map_in by (rewrite length_half_diff, E; lia).
  reflexivity.
Qed.

(** The run of the function up to the branch on [reduction]. *)
Lemma pair_losses_halves input target margin :
  length target = length input ->
  pair_losses (map indicator (half_diff target)) (half_diff input) margin
  = Return (unreduced input target margin).
Proof.
  intros E. unfold pair_losses, mul.
  rewrite broadcast2_same by (now rewrite length_map, !length_half_diff, E).
  reflexivity.
Qed.

(** On an even batch both assertions pass and both subtractions go
    through: what is left is the branch on [reduction] and the return. *)
Lemma loss_pred_loss_branch input target margin reduction :
  Nat.even (length input) = true ->
  loss_pred_loss input target margin reduction
  = (let one := map indicator (half_diff target) in
     loss ←
       (if String.eqb reduction "mean" then
          l ← pair_losses one (half_diff input) margin;
          Return (Some (Tensor0 (div_int (sum l) (length (half_diff input)))))
        else if String.eqb reduction "none" then
          l ← pair_losses one (half_diff input) margin;
          Return (Some (Tensor1 l))
        else Return None);
     match loss with
     | Some v => Return v
     | None => Raise (UnboundLocalError "loss")
     end).
Proof.
  intros Hev. unfold loss_pred_loss.
  rewrite Hev. unfold flip at 1. rewrite length_rev, Nat.eqb_refl.
  unfold sub. rewrite !broadcast2_same by (unfold flip; now rewrite length_rev).
  cbn [py_assert mbind result_bind Py.bind].
  rewrite !slice_to_of_nat, one_is_indicator. reflexivity.
Qed.

Lemma loss_pred_loss_none input target margin :
  Nat.even (length input) = true ->
  length target = length input ->
  loss_pred_loss input target margin "none"
  = Return (Tensor1 (unreduced input target margin)).
Proof.
  intros Hev E. rewrite (loss_pred_loss_branch _ _ _ _ Hev).
  cbn [String.eqb Ascii.eqb Bool.eqb].
  now rewrite pair_losses_halves by assumption.
Qed.

Lemma loss_pred_loss_mean input target margin :
  Nat.even (length input) = true ->
  length target = length input ->
  loss_pred_loss input target margin "mean"
  = Return (Tensor0 (div_int (sum (unreduced input target margin))
                       (length input / 2))).
Proof.
  intros Hev E. rewrite (loss_pred_loss_branch _ _ _ _ Hev).
  cbn [String.eqb Ascii.eqb Bool.eqb].
  rewrite pair_losses_halves by assumption.
  cbn [mbind result_bind Py.bind]. now rewrite length_half_diff.
Qed.

Lemma indicator_sign_strict (t : Q) : indicator t = sign_strict t.
Proof.
  unfold sign_strict. destruct (Qle_bool t 0) eqn:E.
  - apply indicator_nonpos. now apply Qle_bool_iff.
  - apply indicator_pos. destruct (Qlt_le_dec 0 t) as [L | L]; [assumption|].
    apply Qle_bool_iff in L. congruence.
Qed.

(** C1 (as amended).  On an even batch with a target of the same length,
    the unreduced loss has one entry per index [i] of the first half;
    entry [i] pairs sample [i] with sample [N-1-i] and is
    [max(0, margin - s * dpredicted)], where [s] is [+1] exactly when
    [dtarget = target[i] - target[N-1-i]] is strictly positive and [-1]
    otherwise, a zero difference included. *)
Theorem loss_pairs_first_half_with_reverse input target margin :
  Nat.even (length input) = true ->
  length target = length input ->
  exists loss,
    loss_pred_loss input target margin "none" = Return (Tensor1 loss) /\
    length loss = length input / 2 /\
    pairwise_hinge sign_strict input target margin loss.
Proof.
  intros Hev E. exists (unreduced input target margin).
  split; [now apply loss_pred_loss_none|].
  split; [now apply length_unreduced|].
  intros i Hi. cbv zeta.
  rewrite nth_unreduced by assumption.
  rewrite !nth_half_diff by (rewrite ?E; assumption).
  rewrite indicator_sign_strict, E.
  apply clamp_min1_max.
Qed.

Lemma loss_pairs_first_half_with_reverse_witness :
  exists loss,
    loss_pred_loss [1; 0; 3; 4]%Q [5; 5; 7; 1]%Q 1 "none" = Return (Tensor1 loss) /\
    length loss = 2 /\
    pairwise_hinge sign_strict [1; 0; 3; 4]%Q [5; 5; 7; 1]%Q 1 loss.
Proof.
  apply (loss_pairs_first_half_with_reverse [1; 0; 3; 4]%Q [5; 5; 7; 1]%Q 1);
    reflexivity.
Defined.

(** C1 as stated fails on a tie: with [target = [5; 5]] the difference is
    [0 >= 0], the claimed sign is [+1] and the claimed loss
    [max(0, 1 - 1) = 0], but the function returns [2]. *)
Lemma loss_sign_on_tie_counterexample :
  ~ (forall input target margin,
       Nat.even (length input) = true ->
       length target = length input ->
       exists loss,
         loss_pred_loss input target margin "none" = Return (Tensor1 loss) /\
         length loss = length input / 2 /\
         pairwise_hinge sign_weak input target margin loss).
Proof.
  intros H.
  destruct (H [1; 0]%Q [5; 5]%Q 1%Q eq_refl eq_refl) as (loss & Hrun & _ & Hp).
  vm_compute in Hrun. injection Hrun as <-.
  specialize (Hp 0 ltac:(vm_compute; lia)).
  vm_compute in Hp. discriminate Hp.
Qed.

(** C7.  For every even-length input (and a target of the same length)
    the unreduced mode returns a vector of length [N/2] whose entries are
    all non-negative. *)
Theorem loss_unreduced_half_length_nonneg input target margin :
  Nat.even (length input) = true ->
  length target = length input ->
  exists loss,
    loss_pred_loss input target margin "none" = Return (Tensor1 loss) /\
    length loss = length input / 2 /\
    Forall (fun x => 0 <= x)%Q loss.
Proof.
  intros Hev E. exists (unreduced input target margin).
  split; [now apply loss_pred_loss_none|].
  split; [now apply length_unreduced|].
  unfold unreduced, clamp_min. apply List.Forall_forall.
  intros x Hx. apply in_map_iff in Hx as (y & <- & _).
  apply clamp_min1_nonneg.
Qed.

Lemma loss_unreduced_half_length_nonneg_witness :
  exists loss,
    loss_pred_loss [1; 0; 3; 4]%Q [5; 5; 7; 1]%Q 1 "none" = Return (Tensor1 loss) /\
    length loss = 2 /\
    Forall (fun x => 0 <= x)%Q loss.
Proof.
  apply (loss_unreduced_half_length_nonneg [1; 0; 3; 4]%Q [5; 5; 7; 1]%Q 1);
    reflexivity.
Defined.

(** C6.  With reduction ['mean'] the function returns the sum of the
    per-pair losses (the vector the unreduced mode returns) divided by
    the number of those pairs, [N/2], not by the batch size [N]. *)
Theorem loss_mean_divides_by_pair_count input target margin :
  Nat.even (length input) = true ->
  length target = length input ->
  exists loss,
    loss_pred_loss input target margin "none" = Return (Tensor1 loss) /\
    length loss = length input / 2 /\
    loss_pred_loss input target margin "mean"
    = Return (Tensor0 (div_int (sum loss) (length input / 2))) /\
    (0 < length input ->
     loss_pred_loss input target margin "mean"
     = Return (Tensor0 (Fin (sum loss / inject_Z (Z.of_nat (length input / 2)))))).
Proof.
  intros Hev E. exists (unreduced input target margin).
  split; [now apply loss_pred_loss_none|].
  split; [now apply length_unreduced|].
  split; [now apply loss_pred_loss_mean|].
  intros Hpos. rewrite loss_pred_loss_mean by assumption.
  destruct (length input / 2) as [|h] eqn:Eh; [|reflexivity].
  exfalso. destruct (length input) as [|[|n]]; [lia | discriminate Hev |].
  change (S (S n)) with (1 * 2 + n) in Eh.
  rewrite Nat.div_add_l in Eh by lia. lia.
Qed.

Lemma loss_mean_divides_by_pair_count_witness :
  exists loss,
    loss_pred_loss [1; 0; 3; 4]%Q [5; 5; 7; 1]%Q 1 "none" = Return (Tensor1 loss) /\
    length loss = 2 /\
    loss_pred_loss [1; 0; 3; 4]%Q [5; 5; 7; 1]%Q 1 "mean"
    = Return (Tensor0 (div_int (sum loss) 2)) /\
    (0 < 4 ->
     loss_pred_loss [1; 0; 3; 4]%Q [5; 5; 7; 1]%Q 1 "mean"
     = Return (Tensor0 (Fin (sum loss / inject_Z 2)))).
Proof.
  apply (loss_mean_divides_by_pair_count [1; 0; 3; 4]%Q [5; 5; 7; 1]%Q 1);
    reflexivity.
Defined.

(** C8.  An odd batch size makes the function fail on its first
    assertion instead of returning; on an even batch size no assertion
    fails.  The spec's InvalidInputError is this assertion failure. *)
Theorem loss_rejects_exactly_odd_batches input target margin reduction :
  (Nat.odd (length input) = true ->
   loss_pred_loss input target margin reduction
   = Raise (AssertionError "the batch size is not even.")) /\
  (Nat.even (length input) = true ->
   forall msg,
     loss_pred_loss input target margin reduction <> Raise (AssertionError msg)).
Proof.
  split.
  - intros Hodd. unfold loss_pred_loss.
    rewrite <- Nat.negb_even in Hodd. apply negb_true_iff in Hodd.
    now rewrite Hodd.
  - intros Hev msg. rewrite (loss_pred_loss_branch _ _ _ _ Hev). cbv zeta.
    unfold pair_losses, mul, broadcast2.
    destruct (String.eqb reduction "mean"); [|destruct (String.eqb reduction "none")];
      cbn [mbind result_bind Py.bind];
      repeat match goal with
             | |- context [if ?c then _ else _] => destruct c
             | |- context [match ?l with [] => _ | _ :: _ => _ end] => destruct l
             end;
      cbn [mbind result_bind Py.bind]; discriminate.
Qed.

Lemma loss_rejects_exactly_odd_batches_witness :
  loss_pred_loss [1; 0; 3]%Q [5; 5; 7]%Q 1 "mean"
  = Raise (AssertionError "the batch size is not even.") /\
  (forall msg,
     loss_pred_loss [1; 0; 3; 4]%Q [5; 5; 7; 1]%Q 1 "mean"
     <> Raise (AssertionError msg)).
Proof.
  split.
  - apply (proj1 (loss_rejects_exactly_odd_batches [1; 0; 3]%Q [5; 5; 7]%Q 1 "mean")).
    reflexivity.
  - apply (proj2 (loss_rejects_exactly_odd_batches [1; 0; 3; 4]%Q [5; 5; 7; 1]%Q 1 "mean")).
    reflexivity.
Defined.

(** C10.  For a reduction mode other than ['mean'] and ['none'] the
    function never raises NotImplementedError and never returns: on an
    even batch it reaches [return loss] with [loss] unbound and fails
    with UnboundLocalError, a NameError. *)
Theorem loss_unknown_reduction_unbound_local input target margin reduction :
  reduction <> "mean" -> reduction <> "none" ->
  loss_pred_loss input target margin reduction <> Raise NotImplementedError /\
  (forall v, loss_pred_loss input target margin reduction <> Return v) /\
  (Nat.even (length input) = true ->
   exists e,
     loss_pred_loss input target margin reduction = Raise e /\
     e = UnboundLocalError "loss" /\ is_NameError e = true).
Proof.
  intros Hm Hn.
  apply String.eqb_neq in Hm. apply String.eqb_neq in Hn.
  assert (Hev : Nat.even (length input) = true ->
                loss_pred_loss input target margin reduction
                = Raise (UnboundLocalError "loss")).
  { intros Hev. rewrite (loss_pred_loss_branch _ _ _ _ Hev).
    cbv zeta. now rewrite Hm, Hn. }
  destruct (Nat.even (length input)) eqn:Ev.
  - rewrite (Hev eq_refl). repeat split; try discriminate.
    intros _. now exists (UnboundLocalError "loss").
  - unfold loss_pred_loss. rewrite Ev.
    repeat split; try discriminate.
Qed.

Lemma loss_unknown_reduction_unbound_local_witness :
  loss_pred_loss [1; 0; 3; 4]%Q [5; 5; 7; 1]%Q 1 "sum" <> Raise NotImplementedError /\
  (forall v, loss_pred_loss [1; 0; 3; 4]%Q [5; 5; 7; 1]%Q 1 "sum" <> Return v) /\
  (Nat.even 4 = true ->
   exists e,
     loss_pred_loss [1; 0; 3; 4]%Q [5; 5; 7; 1]%Q 1 "sum" = Raise e /\
     e = UnboundLocalError "loss" /\ is_NameError e = true).
Proof.
  apply (loss_unknown_reduction_unbound_local [1; 0; 3; 4]%Q [5; 5; 7; 1]%Q 1 "sum");
    discriminate.
Defined.

End RankingLossFacts.

(* ===================================================================== *)
(** ** [np.argsort]: the insertion sort is admissible                     *)
(* ===================================================================== *)

Section ArgsortFacts.

Lemma insert_pos_perm u k l : Permutation (insert_pos u k l) (k :: l).
Proof.
  induction l as [|j l IH]; simpl; [reflexivity|].
  destruct (Qle_bool _ _); [reflexivity|].
  rewrite IH. apply perm_swap.
Qed.

Lemma stable_argsort_perm u : Permutation (stable_argsort u) (seq 0 (length u)).
Proof.
  unfold stable_argsort. generalize (seq 0 (length u)) as l.
  induction l as [|k l IH]; simpl; [reflexivity|].
  rewrite insert_pos_perm. now apply perm_skip.
Qed.

Lemma insert_pos_sorted u k l :
  StronglySorted Qle (keys u l) ->
  StronglySorted Qle (keys u (insert_pos u k l)).
Proof.
  induction l as [|j l IH]; simpl; intros Hs.
  - repeat constructor.
  - inversion Hs as [|? ? Hs' Hall]; subst.
    destruct (Qle_bool (nth k u 0%Q) (nth j u 0%Q)) eqn:E.
    + apply Qle_bool_iff in E. simpl. constructor; [exact Hs|].
      constructor; [exact E|].
      eapply List.Forall_impl; [|exact Hall].
      intros q Hq. eapply Qle_trans; eassumption.
    + assert (Hjk : (nth j u 0%Q <= nth k u 0%Q)%Q).
      { destruct (Qlt_le_dec (nth j u 0%Q) (nth k u 0%Q)) as [L | L].
        - now apply Qlt_le_weak.
        - apply Qle_bool_iff in L. congruence. }
      simpl. constructor; [now apply IH|].
      unfold keys.
      eapply Permutation_Forall.
      { symmetry. apply Permutation_map. apply insert_pos_perm. }
      simpl. constructor; assumption.
Qed.

Lemma stable_argsort_sorted u : StronglySorted Qle (keys u (stable_argsort u)).
Proof.
  unfold stable_argsort. generalize (seq 0 (length u)) as l.
  induction l as [|k l IH]; simpl; [constructor|].
  now apply insert_pos_sorted.
Qed.

End ArgsortFacts.

#[global] Instance stable_argsort_admissible : Argsort := {|
  argsort := stable_argsort;
  argsort_perm := stable_argsort_perm;
  argsort_sorted := stable_argsort_sorted
|}.


(* ===================================================================== *)
(** ** Indexing by an integer array                                       *)
(* ===================================================================== *)

Section IndexingFacts.
Context {A : Type}.
Implicit Types (l xs : list A) (idx : list nat).

Lemma getitem_Return l i x : getitem l i = Return x <-> l !! i = Some x.
Proof.
  unfold getitem. destruct (l !! i); split; intros E; congruence.
Qed.

(** Indexing goes through exactly when every position is in range, and then
    picks the elements position by position. *)
Lemma getitems_Return l idx xs :
  getitems l idx = Return xs <-> Forall2 (fun k x => l !! k = Some x) idx xs.
Proof.
  revert xs. induction idx as [|k idx IH]; intros xs; simpl.
  - split.
    + intros E. injection E as <-. constructor.
    + intros E. inversion E. reflexivity.
  - unfold getitem. destruct (l !! k) as [x|] eqn:Ek.
    + destruct (getitems l idx) as [ys|e].
      * split.
        -- intros E. injection E as <-. constructor; [assumption|]. now apply IH.
        -- intros E. inversion E as [|? y ? ys' Hk Hrest]; subst.
           apply IH in Hrest. congruence.
      * split; [discriminate|].
        intros E. inversion E as [|? y ? ys' Hk Hrest]; subst.
        apply IH in Hrest. discriminate.
    + split; [discriminate|].
      intros E. inversion E; subst. congruence.
Qed.

Lemma getitems_in_range l idx :
  Forall (fun k => k < length l) idx ->
  exists xs, getitems l idx = Return xs.
Proof.
  induction 1 as [|k idx Hk _ [xs IH]]; simpl.
  - now exists [].
  - apply lookup_lt_is_Some_2 in Hk as [x Hx].
    unfold getitem. rewrite Hx, IH. now eexists.
Qed.

Lemma getitems_length l idx xs :
  getitems l idx = Return xs -> length xs = length idx.
Proof.
  intros E. apply getitems_Return in E. symmetry. eapply Forall2_length, E.
Qed.

Lemma getitems_elem_of l idx xs x :
  getitems l idx = Return xs -> x ∈ xs -> x ∈ l.
Proof.
  intros E. apply getitems_Return in E.
  induction E as [|k y idx ys Hk _ IH]; intros Hx.
  - inversion Hx.
  - apply elem_of_cons in Hx as [-> | Hx]; [|auto].
    eapply list_elem_of_lookup_2, Hk.
Qed.

Lemma getitems_NoDup l idx xs :
  getitems l idx = Return xs -> NoDup l -> NoDup idx -> NoDup xs.
Proof.
  intros E Hl. apply getitems_Return in E.
  induction E as [|k y idx ys Hk E IH]; intros Hnd.
  - constructor.
  - apply NoDup_cons in Hnd as [Hk' Hnd]. apply NoDup_cons. split; [|auto].
    intros Hy. apply Hk'. clear IH Hnd Hk'.
    induction E as [|j z idx ys Hj _ IH]; [inversion Hy|].
    apply elem_of_cons in Hy as [-> | Hy].
    + rewrite (NoDup_lookup l k j z Hl Hk Hj). left.
    + right. auto.
Qed.

Lemma getitems_lookups l idx xs :
  getitems l idx = Return xs -> Some <$> xs = (fun k => l !! k) <$> idx.
Proof.
  intros E. apply getitems_Return in E.
  induction E as [|k y idx ys Hk _ IH]; [reflexivity|].
  rewrite !fmap_cons, Hk. now f_equal.
Qed.

Lemma lookups_range l : (fun k => l !! k) <$> seq 0 (length l) = Some <$> l.
Proof.
  apply list_eq. intros i. rewrite !list_lookup_fmap.
  destruct (Nat.lt_ge_cases i (length l)) as [Hi | Hi].
  - rewrite lookup_seq_lt by assumption.
    destruct (lookup_lt_is_Some_2 l i Hi) as [x Hx]. cbn. now rewrite Hx.
  - rewrite lookup_seq_ge by assumption.
    now rewrite (lookup_ge_None_2 l i Hi).
Qed.

Lemma omap_Some xs : omap (fun o : option A => o) (Some <$> xs) = xs.
Proof. induction xs as [|x xs IH]; [reflexivity | cbn; now f_equal]. Qed.

(** Indexing by a rearrangement of all positions rearranges the list. *)
Lemma getitems_perm l idx xs :
  idx ≡ₚ seq 0 (length l) -> getitems l idx = Return xs -> xs ≡ₚ l.
Proof.
  intros Hp E. apply getitems_lookups in E.
  rewrite <- (omap_Some xs), <- (omap_Some l), E, Hp.
  now rewrite lookups_range.
Qed.

Lemma getitems_total l idx :
  idx ≡ₚ seq 0 (length l) -> exists xs, getitems l idx = Return xs.
Proof.
  intros Hp. apply getitems_in_range.
  apply List.Forall_forall. intros k Hk.
  apply (Permutation_in _ Hp), in_seq in Hk. lia.
Qed.

End IndexingFacts.

Lemma getitems_fmap {A B} (f : A -> B) (l xs : list A) idx :
  getitems l idx = Return xs -> getitems (f <$> l) idx = Return (f <$> xs).
Proof.
  rewrite !getitems_Return.
  induction 1 as [|k y idx ys Hk _ IH]; constructor; [|assumption].
  now rewrite list_lookup_fmap, Hk.
Qed.

(** With the scores matched to the samples, the scores in [argsort] order
    are the scores of the samples in that order. *)
Lemma keys_getitems (score : nat -> Q) (subset xs : list nat) arg :
  getitems subset arg = Return xs ->
  keys (score <$> subset) arg = score <$> xs.
Proof.
  rewrite getitems_Return. unfold keys.
  induction 1 as [|k y idx ys Hk _ IH]; [reflexivity|].
  simpl. f_equal; [|assumption].
  rewrite nth_lookup, list_lookup_fmap, Hk. reflexivity.
Qed.

(* ===================================================================== *)
(** ** [main.py]: the class-floor loop                                    *)
(* ===================================================================== *)

Section FloorFacts.
Context `{Argsort}.
Variable cfg : config.

Local Abbreviation walk := (Main.walk cfg).
Local Abbreviation floor_body := (Main.floor_body cfg).

Lemma floor_body_at oi ol cnt labeled_set idx x c :
  getitem ol idx = Return c -> getitem oi idx = Return x ->
  floor_body oi ol (cnt, labeled_set) idx
  = (n ← getitem cnt c;
     if (n <? MINIMUM_CNT cfg)%Z
     then Return (<[c := (n + 1)%Z]> cnt, labeled_set ++ [x])
     else Return (cnt, labeled_set)).
Proof.
  intros Hc Hx. unfold Main.floor_body. rewrite Hc, Hx.
  cbn [mbind result_bind Py.bind].
  destruct (getitem cnt c) as [n|e]; cbn [mbind result_bind Py.bind]; reflexivity.
Qed.

(** The loop over [range(len(ordered_index))], started after [pre_i] and
    [pre_l], is the recursion over what is left of the two lists. *)
Lemma for_each_floor_body_from oi : forall ol pre_i pre_l cnt labeled_set,
  length ol = length oi -> length pre_l = length pre_i ->
  for_each (floor_body (pre_i ++ oi) (pre_l ++ ol)) (cnt, labeled_set)
    (seq (length pre_i) (length oi))
  = ('(cnt', admitted) ← walk cnt oi ol; Return (cnt', labeled_set ++ admitted)).
Proof.
  induction oi as [|x oi IH]; intros [|c ol] pre_i pre_l cnt L Hlen Hpre;
    try discriminate Hlen.
  - cbn. now rewrite app_nil_r.
  - cbn [length seq for_each Main.walk].
    assert (Hc : getitem (pre_l ++ c :: ol) (length pre_i) = Return c).
    { apply getitem_Return. rewrite <- Hpre. apply list_lookup_middle. reflexivity. }
    assert (Hx : getitem (pre_i ++ x :: oi) (length pre_i) = Return x).
    { apply getitem_Return. apply list_lookup_middle. reflexivity. }
    rewrite (floor_body_at _ _ _ _ _ _ _ Hc Hx).
    destruct (getitem cnt c) as [n|e]; cbn [mbind result_bind Py.bind]; [|reflexivity].
    destruct (n <? MINIMUM_CNT cfg)%Z; cbn [mbind result_bind Py.bind].
    + specialize (IH ol (pre_i ++ [x]) (pre_l ++ [c]) (<[c:=(n + 1)%Z]> cnt) (L ++ [x])).
      rewrite <- !app_assoc, !length_app in IH. cbn [app length] in IH.
      rewrite !Nat.add_1_r in IH. rewrite IH by (simpl in Hlen; lia).
      destruct (Main.walk cfg (<[c:=(n + 1)%Z]> cnt) oi ol) as [[cnt' adm]|e];
        cbn [mbind result_bind Py.bind]; [|reflexivity].
      now rewrite <- app_assoc.
    + specialize (IH ol (pre_i ++ [x]) (pre_l ++ [c]) cnt L).
      rewrite <- !app_assoc, !length_app in IH. cbn [app length] in IH.
      rewrite !Nat.add_1_r in IH. now rewrite IH by (simpl in Hlen; lia).
Qed.

Lemma for_each_floor_body oi ol cnt labeled_set :
  length ol = length oi ->
  for_each (floor_body oi ol) (cnt, labeled_set)
    (py_range (Z.of_nat (length oi)))
  = ('(cnt', admitted) ← walk cnt oi ol; Return (cnt', labeled_set ++ admitted)).
Proof.
  intros Hlen. unfold py_range. rewrite Nat2Z.id.
  now apply (for_each_floor_body_from oi ol [] []).
Qed.

(** The loop admits samples in the order of the tail, each at most once. *)
Lemma walk_sublist oi : forall ol cnt cnt' admitted,
  walk cnt oi ol = Return (cnt', admitted) -> admitted `sublist_of` oi.
Proof.
  induction oi as [|x oi IH]; intros [|c ol] cnt cnt' adm E; cbn in E;
    try (injection E as <- <-; apply sublist_nil_l).
  destruct (getitem cnt c) as [n|e]; cbn in E; [|discriminate].
  destruct (n <? MINIMUM_CNT cfg)%Z.
  - destruct (Main.walk cfg (<[c:=(n + 1)%Z]> cnt) oi ol) as [[cnt1 adm1]|e] eqn:E1;
      cbn in E; [|discriminate].
    injection E as <- <-. apply sublist_skip. eapply IH, E1.
  - apply sublist_cons. eapply IH, E.
Qed.

(** With every label below the length of [cnt_lst] the loop raises nothing. *)
Lemma walk_total oi : forall ol cnt,
  Forall (fun c => c < length cnt) ol ->
  exists r, walk cnt oi ol = Return r.
Proof.
  induction oi as [|x oi IH]; intros [|c ol] cnt Hol; cbn; try (now eexists).
  apply Forall_cons in Hol as [Hc Hol].
  destruct (lookup_lt_is_Some_2 cnt c Hc) as [n Hn].
  unfold getitem. rewrite Hn. cbn.
  destruct (n <? MINIMUM_CNT cfg)%Z.
  - destruct (IH ol (<[c:=(n + 1)%Z]> cnt)) as [[cnt1 adm1] E1].
    { now rewrite length_insert. }
    rewrite E1. cbn. now eexists.
  - now apply IH.
Qed.

(** Of a class that the counter has at [n], the loop admits the first
    [MINIMUM_CNT - n] samples of the tail, or all of them if there are
    fewer. *)
Lemma walk_class_count (lab : nat -> nat) (c : nat) oi :
  forall cnt cnt' admitted n,
    walk cnt oi (lab <$> oi) = Return (cnt', admitted) ->
    cnt !! c = Some n ->
    Z.of_nat (class_count lab c admitted)
    = Z.min (Z.max (MINIMUM_CNT cfg - n) 0) (Z.of_nat (class_count lab c oi)).
Proof.
  unfold class_count.
  induction oi as [|x oi IH]; intros cnt cnt' adm n E Hn; cbn in E.
  - injection E as <- <-. cbn. lia.
  - unfold getitem in E.
    destruct (cnt !! lab x) as [k|] eqn:Hk; cbn in E; [|discriminate].
    destruct (Z.ltb_spec k (MINIMUM_CNT cfg)) as [Hlt | Hge].
    + destruct (Main.walk cfg (<[lab x:=(k + 1)%Z]> cnt) oi (lab <$> oi))
        as [[cnt1 adm1]|e] eqn:E1; cbn in E; [|discriminate].
      injection E as <- <-. cbn [map].
      destruct (Nat.eq_dec (lab x) c) as [Hc | Hc].
      * rewrite !count_occ_cons_eq by assumption.
        assert (k = n) as -> by (rewrite Hc in Hk; congruence).
        specialize (IH _ _ _ (n + 1)%Z E1).
        rewrite Hc, list_lookup_insert_eq in IH by (eapply lookup_lt_Some, Hn).
        specialize (IH eq_refl). lia.
      * rewrite !count_occ_cons_neq by assumption.
        eapply IH; [exact E1|]. now rewrite list_lookup_insert_ne.
    + cbn [map]. destruct (Nat.eq_dec (lab x) c) as [Hc | Hc].
      * rewrite count_occ_cons_eq by assumption.
        assert (k = n) as -> by (rewrite Hc in Hk; congruence).
        specialize (IH _ _ _ n E Hn). lia.
      * rewrite count_occ_cons_neq by assumption. eapply IH; eassumption.
Qed.

End FloorFacts.

(* ===================================================================== *)
(** ** [main.py]: one selection                                           *)
(* ===================================================================== *)

Section SelectFacts.
Context `{Argsort}.
Variable cfg : config.

Local Abbreviation K := (Main.free_slots cfg).
Local Abbreviation zeros := (map (fun _ : nat => 0%Z) (py_range (CLS_CNT cfg))).

Lemma descending_Return {A} (t : list A) arg ordered :
  Main.descending t arg = Return ordered <->
  exists xs, getitems t arg = Return xs /\ ordered = rev xs.
Proof.
  unfold Main.descending. destruct (getitems t arg) as [xs|e]; cbn.
  - split.
    + intros E. injection E as <-. now exists xs.
    + intros (ys & E & ->). now injection E as <-.
  - split; [discriminate|]. intros (ys & E & _). discriminate.
Qed.

Lemma descending_length {A} (t : list A) arg ordered :
  Main.descending t arg = Return ordered -> length ordered = length arg.
Proof.
  intros (xs & E & ->)%descending_Return.
  rewrite length_rev. eapply getitems_length, E.
Qed.

Lemma length_slice_from {A B} (l : list A) (l' : list B) k :
  length l = length l' -> length (slice_from l k) = length (slice_from l' k).
Proof. intros E. unfold slice_from. now rewrite !length_skipn, E. Qed.

(** [select] with the loop replaced by the recursion [walk]. *)
Lemma select_walk labeled_set unlabeled_set uncertainty label :
  Main.select cfg labeled_set unlabeled_set uncertainty label
  = (ordered_label ← Main.descending label (argsort uncertainty);
     ordered_index ← Main.descending unlabeled_set (argsort uncertainty);
     '(_, admitted) ←
       Main.walk cfg zeros (slice_from ordered_index K) (slice_from ordered_label K);
     let labeled_set := labeled_set ++ slice_to ordered_index K ++ admitted in
     Return (labeled_set,
             elements ((list_to_set unlabeled_set : gset nat)
                       ∖ list_to_set labeled_set))).
Proof.
  unfold Main.select.
  destruct (Main.descending label (argsort uncertainty)) as [ol|e] eqn:El;
    cbn [mbind result_bind Py.bind]; [|reflexivity].
  destruct (Main.descending unlabeled_set (argsort uncertainty)) as [oi|e] eqn:Ei;
    cbn [mbind result_bind Py.bind]; [|reflexivity].
  rewrite for_each_floor_body.
  2:{ apply length_slice_from.
      now rewrite (descending_length _ _ _ El), (descending_length _ _ _ Ei). }
  destruct (Main.walk cfg zeros (slice_from oi K) (slice_from ol K)) as [[cnt adm]|e];
    cbn [mbind result_bind Py.bind]; [|reflexivity].
  now rewrite <- app_assoc.
Qed.

(** What a selection that went through has done. *)
Lemma select_Return labeled_set unlabeled_set uncertainty label st' :
  Main.select cfg labeled_set unlabeled_set uncertainty label = Return st' ->
  exists ordered_label ordered_index cnt admitted,
    Main.descending label (argsort uncertainty) = Return ordered_label /\
    Main.descending unlabeled_set (argsort uncertainty) = Return ordered_index /\
    Main.walk cfg zeros (slice_from ordered_index K) (slice_from ordered_label K)
    = Return (cnt, admitted) /\
    st' = (labeled_set ++ slice_to ordered_index K ++ admitted,
           elements ((list_to_set unlabeled_set : gset nat)
                     ∖ list_to_set (labeled_set ++ slice_to ordered_index K ++ admitted))).
Proof.
  rewrite select_walk.
  destruct (Main.descending label (argsort uncertainty)) as [ol|e];
    cbn [mbind result_bind Py.bind]; [|discriminate].
  destruct (Main.descending unlabeled_set (argsort uncertainty)) as [oi|e];
    cbn [mbind result_bind Py.bind]; [|discriminate].
  destruct (Main.walk cfg zeros (slice_from oi K) (slice_from ol K))
    as [[cnt adm]|e] eqn:Ew; cbn [mbind result_bind Py.bind]; [|discriminate].
  intros E. injection E as <-. now exists ol, oi, cnt, adm.
Qed.

(** The newly labeled samples are distinct samples of the pool. *)
Lemma selected_sublist (ordered_index admitted : list nat) :
  admitted `sublist_of` slice_from ordered_index K ->
  slice_to ordered_index K ++ admitted `sublist_of` ordered_index.
Proof.
  intros Hs.
  assert (G : slice_to ordered_index K ++ admitted
              `sublist_of` slice_to ordered_index K ++ slice_from ordered_index K)
    by now apply sublist_app.
  now rewrite slice_to_from in G.
Qed.

End SelectFacts.

(* ===================================================================== *)
(** ** [main.py]: the two index lists over a trial                        *)
(* ===================================================================== *)

Section TrialFacts.
Context `{Argsort}.
Variable cfg : config.

Lemma argsort_NoDup (u : list Q) : NoDup (argsort u).
Proof.
  rewrite argsort_perm. apply NoDup_seq.
Qed.

(** One selection rearranges the samples of the two lists: what the pool
    loses is what the labeled list gains. *)
Lemma select_rearranges labeled_set unlabeled_set uncertainty label st' :
  NoDup (labeled_set ++ unlabeled_set) ->
  Main.select cfg labeled_set unlabeled_set uncertainty label = Return st' ->
  st'.1 ++ st'.2 ≡ₚ labeled_set ++ unlabeled_set.
Proof.
  intros Hnd Hsel.
  apply select_Return in Hsel as (ol & oi & cnt & adm & _ & Hoi & Hwalk & ->).
  apply NoDup_app in Hnd as (HL & HLU & HU).
  apply descending_Return in Hoi as (xs & Hxs & ->).
  set (new := slice_to (rev xs) (Main.free_slots cfg) ++ adm).
  cbn [fst snd].
  assert (Hsub : new `sublist_of` rev xs).
  { apply selected_sublist. eapply walk_sublist, Hwalk. }
  assert (Hxs_nd : NoDup (rev xs)).
  { rewrite <- Permutation_rev. eapply getitems_NoDup; eauto using argsort_NoDup. }
  assert (Hnew_nd : NoDup new) by (eapply sublist_NoDup; eassumption).
  assert (Hnew_in : forall x, x ∈ new -> x ∈ unlabeled_set).
  { intros x Hx. eapply getitems_elem_of; [exact Hxs|].
    rewrite (Permutation_rev xs).
    eapply sublist_submseteq, submseteq_Permutation in Hsub as [k Hk].
    rewrite Hk. apply elem_of_app. now left. }
  rewrite <- app_assoc. apply Permutation_app_head.
  apply NoDup_Permutation; [|assumption|].
  - apply NoDup_app. split; [assumption|]. split; [|apply NoDup_elements].
    intros x Hx Hx'. apply elem_of_elements, elem_of_difference in Hx' as [_ Hx'].
    apply Hx'. apply elem_of_list_to_set, elem_of_app. right. assumption.
  - intros x. rewrite elem_of_app, elem_of_elements, elem_of_difference,
      !elem_of_list_to_set, elem_of_app.
    split.
    + intros [Hx | [Hx _]]; auto.
    + intros Hx. destruct (decide (x ∈ new)) as [Hn | Hn]; [now left|].
      right. split; [assumption|]. intros [HxL | HxN]; [|contradiction].
      exact (HLU x HxL Hx).
Qed.

(** At every cycle boundary the two lists together are a rearrangement of
    [range(NUM_TRAIN)]. *)
Lemma boundary_partition indices st :
  Main.shuffled cfg indices -> Main.boundary cfg indices st ->
  st.1 ++ st.2 ≡ₚ py_range (NUM_TRAIN cfg).
Proof.
  intros Hsh Hb. induction Hb as [|st st' Hb IH Hcycle].
  - unfold Main.initial_split. cbn [fst snd]. now rewrite slice_to_from.
  - destruct Hcycle as [L U u label st' Hsel]. cbn [fst snd] in IH.
    rewrite (select_rearranges L U u label st'); [assumption| |assumption].
    rewrite IH. apply NoDup_seq.
Qed.

(** C5.  At every cycle boundary of a trial the labeled and the unlabeled
    list hold no index twice, share no index, and together hold exactly
    the indices of [range(NUM_TRAIN)]: the size of their union is the
    constant [NUM_TRAIN], so no selection duplicates or loses an index. *)
Theorem index_lists_partition_universe indices labeled_set unlabeled_set :
  Main.shuffled cfg indices ->
  Main.boundary cfg indices (labeled_set, unlabeled_set) ->
  NoDup labeled_set /\ NoDup unlabeled_set /\
  (forall x, x ∈ labeled_set -> x ∉ unlabeled_set) /\
  (forall x, x ∈ labeled_set \/ x ∈ unlabeled_set <-> x ∈ py_range (NUM_TRAIN cfg)) /\
  length labeled_set + length unlabeled_set = Z.to_nat (NUM_TRAIN cfg).
Proof.
  intros Hsh Hb. pose proof (boundary_partition _ _ Hsh Hb) as Hp.
  cbn [fst snd] in Hp.
  assert (Hnd : NoDup (labeled_set ++ unlabeled_set)).
  { rewrite Hp. apply NoDup_seq. }
  apply NoDup_app in Hnd as (HL & HLU & HU).
  repeat split; try assumption.
  - intros Hx. rewrite <- Hp. apply elem_of_app. assumption.
  - intros Hx. rewrite <- Hp in Hx. now apply elem_of_app in Hx.
  - apply Permutation_length in Hp.
    unfold py_range in Hp. now rewrite length_app, length_seq in Hp.
Qed.

End TrialFacts.

(* ===================================================================== *)
(** ** [main.py]: what the class floor gives each class                   *)
(* ===================================================================== *)

Section ClassFloorFacts.
Context `{Argsort}.
Variable cfg : config.
Variable lab : nat -> nat.

Local Abbreviation K := (Main.free_slots cfg).
Local Abbreviation zeros := (map (fun _ : nat => 0%Z) (py_range (CLS_CNT cfg))).

Lemma class_count_app c l1 l2 :
  class_count lab c (l1 ++ l2) = class_count lab c l1 + class_count lab c l2.
Proof. unfold class_count. now rewrite map_app, count_occ_app. Qed.

Lemma class_count_perm c l1 l2 :
  l1 ≡ₚ l2 -> class_count lab c l1 = class_count lab c l2.
Proof.
  intros Hp. unfold class_count.
  apply Permutation_count_occ. now apply Permutation_map.
Qed.

Lemma class_count_pos c l : 0 < class_count lab c l <-> exists x, x ∈ l /\ lab x = c.
Proof.
  unfold class_count. split.
  - intros Hpos. apply (count_occ_In Nat.eq_dec), in_map_iff in Hpos as (x & Hx & Hin).
    exists x. split; [now apply list_elem_of_In | assumption].
  - intros (x & Hin & Hx). apply (count_occ_In Nat.eq_dec), in_map_iff.
    exists x. split; [assumption | now apply list_elem_of_In].
Qed.

Lemma zeros_lookup c :
  (Z.of_nat c < CLS_CNT cfg)%Z -> zeros !! c = Some 0%Z.
Proof.
  intros Hc. unfold py_range.
  change (map (fun _ : nat => 0%Z) ?l) with ((fun _ : nat => 0%Z) <$> l).
  rewrite list_lookup_fmap, lookup_seq_lt by lia. reflexivity.
Qed.

(** With one score and one true label per sample of the pool, and every
    label a class of the configuration, the selection goes through: the
    pool is ranked, the first [free_slots] of the ranking are taken, and
    the loop runs over the rest. *)
Lemma select_aligned labeled_set unlabeled_set uncertainty :
  length uncertainty = length unlabeled_set ->
  (forall x, x ∈ unlabeled_set -> (Z.of_nat (lab x) < CLS_CNT cfg)%Z) ->
  exists ordered_index cnt admitted,
    Main.descending unlabeled_set (argsort uncertainty) = Return ordered_index /\
    ordered_index ≡ₚ unlabeled_set /\
    Main.walk cfg zeros (slice_from ordered_index K) (lab <$> slice_from ordered_index K)
    = Return (cnt, admitted) /\
    Main.select cfg labeled_set unlabeled_set uncertainty (lab <$> unlabeled_set)
    = Return (labeled_set ++ slice_to ordered_index K ++ admitted,
              elements ((list_to_set unlabeled_set : gset nat)
                        ∖ list_to_set (labeled_set ++ slice_to ordered_index K ++ admitted))).
Proof.
  intros Hlen Hlab.
  pose proof (argsort_perm uncertainty) as Harg. rewrite Hlen in Harg.
  destruct (getitems_total unlabeled_set _ Harg) as [xs Hxs].
  pose proof (getitems_perm _ _ _ Harg Hxs) as Hperm.
  assert (Hoi : Main.descending unlabeled_set (argsort uncertainty) = Return (rev xs)).
  { apply descending_Return. now exists xs. }
  assert (Hol : Main.descending (lab <$> unlabeled_set) (argsort uncertainty)
                = Return (lab <$> rev xs)).
  { apply descending_Return. exists (lab <$> xs).
    split; [now apply getitems_fmap|]. apply map_rev. }
  assert (Hrev : rev xs ≡ₚ unlabeled_set) by now rewrite <- Permutation_rev.
  assert (Htail : slice_from (lab <$> rev xs) K = lab <$> slice_from (rev xs) K).
  { unfold slice_from. rewrite length_fmap. apply skipn_map. }
  destruct (walk_total cfg (slice_from (rev xs) K) (lab <$> slice_from (rev xs) K) zeros)
    as [[cnt adm] Hwalk].
  { apply Forall_fmap, Forall_forall. intros x Hx. cbn.
    rewrite length_map. unfold py_range. rewrite length_seq.
    assert (x ∈ unlabeled_set).
    { rewrite <- Hrev, <- (slice_to_from (rev xs) K). apply elem_of_app. now right. }
    specialize (Hlab x ltac:(assumption)). lia. }
  exists (rev xs), cnt, adm. repeat split; try assumption.
  rewrite select_walk, Hol, Hoi. cbn [mbind result_bind Py.bind].
  rewrite Htail, Hwalk. reflexivity.
Qed.

(** Ranked by a score per sample, the pool comes out in descending order
    of score. *)
Lemma descending_sorted (score : nat -> Q) unlabeled_set ordered_index :
  Main.descending unlabeled_set (argsort (score <$> unlabeled_set))
  = Return ordered_index ->
  StronglySorted (fun a b => score b <= score a)%Q ordered_index.
Proof.
  intros (xs & Hxs & ->)%descending_Return.
  pose proof (argsort_sorted (score <$> unlabeled_set)) as Hs.
  rewrite (keys_getitems _ _ _ _ Hxs) in Hs. clear Hxs.
  induction xs as [|x xs IH]; [constructor|].
  cbn in Hs. apply StronglySorted_cons in Hs as [Hall Hs].
  cbn [rev]. apply StronglySorted_app. repeat split.
  - intros a b Ha Hb. apply list_elem_of_singleton in Hb as ->.
    rewrite <- Permutation_rev in Ha.
    rewrite Forall_fmap, Forall_forall in Hall. now apply Hall.
  - now apply IH.
  - repeat constructor.
Qed.

(** Of every class the selection labels what the free slots took of it
    plus the first [MINIMUM_CNT] of it in the rest of the ranking. *)
Lemma select_class_count labeled_set unlabeled_set uncertainty :
  length uncertainty = length unlabeled_set ->
  (forall x, x ∈ unlabeled_set -> (Z.of_nat (lab x) < CLS_CNT cfg)%Z) ->
  exists ordered_index admitted unlabeled_set',
    Main.descending unlabeled_set (argsort uncertainty) = Return ordered_index /\
    ordered_index ≡ₚ unlabeled_set /\
    admitted `sublist_of` slice_from ordered_index K /\
    Main.select cfg labeled_set unlabeled_set uncertainty (lab <$> unlabeled_set)
    = Return (labeled_set ++ slice_to ordered_index K ++ admitted, unlabeled_set') /\
    forall c, (Z.of_nat c < CLS_CNT cfg)%Z ->
      Z.of_nat (class_count lab c admitted)
      = Z.min (Z.max (MINIMUM_CNT cfg) 0)
          (Z.of_nat (class_count lab c (slice_from ordered_index K))).
Proof.
  intros Hlen Hlab.
  destruct (select_aligned labeled_set unlabeled_set uncertainty Hlen Hlab)
    as (oi & cnt & adm & Hoi & Hperm & Hwalk & Hsel).
  exists oi, adm. eexists. repeat split; try eassumption.
  - eapply walk_sublist, Hwalk.
  - intros c Hc.
    rewrite (walk_class_count cfg lab c _ _ _ _ 0%Z Hwalk (zeros_lookup c Hc)).
    now rewrite Z.sub_0_r.
Qed.

End ClassFloorFacts.

Section ClassFloorClaims.
Context `{Argsort}.
Variable cfg : config.
Variable lab : nat -> nat.

(** C3.  One selection gives every class at least
    [min(MINIMUM_CNT, number of samples of that class in the pool)] newly
    labeled samples, for a pool with one score per sample and every true
    label a class of the configuration. *)
Theorem floor_gives_each_class_its_minimum labeled_set unlabeled_set uncertainty :
  length uncertainty = length unlabeled_set ->
  (forall x, x ∈ unlabeled_set -> (Z.of_nat (lab x) < CLS_CNT cfg)%Z) ->
  exists new unlabeled_set',
    Main.select cfg labeled_set unlabeled_set uncertainty (lab <$> unlabeled_set)
    = Return (labeled_set ++ new, unlabeled_set') /\
    forall c,
      (Z.min (MINIMUM_CNT cfg) (Z.of_nat (class_count lab c unlabeled_set))
       <= Z.of_nat (class_count lab c new))%Z.
Proof.
  intros Hlen Hlab.
  destruct (select_class_count cfg lab labeled_set unlabeled_set uncertainty Hlen Hlab)
    as (oi & adm & U' & _ & Hperm & _ & Hsel & Hcount).
  exists (slice_to oi (Main.free_slots cfg) ++ adm), U'.
  split; [exact Hsel|]. intros c.
  destruct (Z.lt_ge_cases (Z.of_nat c) (CLS_CNT cfg)) as [Hc | Hc].
  - specialize (Hcount c Hc).
    rewrite <- (class_count_perm lab c _ _ Hperm).
    rewrite <- (slice_to_from oi (Main.free_slots cfg)) at 1.
    rewrite !class_count_app. lia.
  - destruct (class_count lab c unlabeled_set) as [|k] eqn:Ek; [lia|].
    assert (Hpos : 0 < class_count lab c unlabeled_set) by lia.
    apply class_count_pos in Hpos as (x & Hx & <-).
    specialize (Hlab x Hx). lia.
Qed.

(** C2 (as amended).  With 4 classes, budget 8 and per-class minimum 1, the
    4 highest-scoring samples are labeled and the floor loop then admits,
    from the descending rest of the ranking, exactly one sample of every
    class that occurs in that rest, whatever classes the top 4 cover.  In
    particular a class that the top 4 miss and the pool has gets one. *)
Theorem floor_admits_one_per_class_of_rest (score : nat -> Q)
    labeled_set unlabeled_set :
  CLS_CNT cfg = 4%Z -> ADDENDUM cfg = 8%Z -> MINIMUM_CNT cfg = 1%Z ->
  (forall x, x ∈ unlabeled_set -> lab x < 4) ->
  exists ordered_index extra unlabeled_set',
    Main.descending unlabeled_set (argsort (score <$> unlabeled_set))
    = Return ordered_index /\
    ordered_index ≡ₚ unlabeled_set /\
    StronglySorted (fun a b => score b <= score a)%Q ordered_index /\
    Main.select cfg labeled_set unlabeled_set
      (score <$> unlabeled_set) (lab <$> unlabeled_set)
    = Return (labeled_set ++ firstn 4 ordered_index ++ extra, unlabeled_set') /\
    extra `sublist_of` skipn 4 ordered_index /\
    forall c, c < 4 ->
      class_count lab c extra = Nat.min 1 (class_count lab c (skipn 4 ordered_index)) /\
      (class_count lab c (firstn 4 ordered_index) = 0 ->
       0 < class_count lab c unlabeled_set ->
       class_count lab c extra = 1).
Proof.
  intros HC HB Hm Hlab.
  destruct (select_class_count cfg lab labeled_set unlabeled_set (score <$> unlabeled_set))
    as (oi & adm & U' & Hoi & Hperm & Hsub & Hsel & Hcount).
  { apply length_fmap. }
  { intros x Hx. specialize (Hlab x Hx). lia. }
  assert (HK : Main.free_slots cfg = Z.of_nat 4).
  { unfold Main.free_slots. rewrite HC, HB, Hm. reflexivity. }
  rewrite HK in *. rewrite slice_to_of_nat in Hsel.
  assert (Hfrom : slice_from oi (Z.of_nat 4) = skipn 4 oi).
  { unfold slice_from. rewrite clip_of_nat.
    destruct (Nat.le_ge_cases 4 (length oi)).
    - now rewrite Nat.min_l.
    - rewrite Nat.min_r by assumption. now rewrite !skipn_all2 by lia. }
  rewrite Hfrom in *.
  exists oi, adm, U'. repeat split; try assumption.
  - eapply descending_sorted, Hoi.
  - specialize (Hcount c ltac:(lia)). rewrite Hm in Hcount. lia.
  - intros Htop Hpool. specialize (Hcount c ltac:(lia)). rewrite Hm in Hcount.
    rewrite <- (class_count_perm lab c _ _ Hperm) in Hpool.
    rewrite <- (firstn_skipn 4 oi), class_count_app, Htop in Hpool. lia.
Qed.

End ClassFloorClaims.

(* ===================================================================== *)
(** ** [bias_test_ll4al.py]: plain Top-B                                  *)
(* ===================================================================== *)

Section TopBFacts.
Context `{Argsort}.
Variable cfg : config.

Lemma clip_neg (n : nat) (b : Z) :
  (0 < b <= Z.of_nat n)%Z -> clip n (- b) = n - Z.to_nat b.
Proof.
  intros Hb. unfold clip.
  destruct (Z.ltb_spec (- b) 0); [|lia]. now rewrite Z.opp_involutive.
Qed.

(** With one score, one label, one true loss and one true label per sample
    of the pool, the selection goes through: the pool is put in ascending
    order of score and cut [ADDENDUM] from its end. *)
Lemma top_b_aligned (score : nat -> Q) labeled_set subset labels
    real_uncertainty real_labels :
  length labels = length subset ->
  length real_uncertainty = length subset ->
  length real_labels = length subset ->
  exists ascending pickled,
    getitems subset (argsort (score <$> subset)) = Return ascending /\
    ascending ≡ₚ subset /\
    StronglySorted (fun a b => score a <= score b)%Q ascending /\
    BiasTest.samples pickled = slice_from ascending (- ADDENDUM cfg) /\
    BiasTest.select cfg labeled_set subset (score <$> subset) labels
      real_uncertainty real_labels
    = Return ((labeled_set ++ slice_from ascending (- ADDENDUM cfg),
               slice_to ascending (- ADDENDUM cfg)), pickled).
Proof.
  intros Hl Hru Hrl.
  pose proof (argsort_perm (score <$> subset)) as Harg.
  rewrite length_fmap in Harg.
  pose proof (argsort_perm real_uncertainty) as Hrarg. rewrite Hru in Hrarg.
  destruct (getitems_total subset _ Harg) as [xs Hxs].
  destruct (getitems_total labels (argsort (score <$> subset))) as [ls Hls];
    [now rewrite Hl|].
  destruct (getitems_total real_labels (argsort real_uncertainty)) as [rls Hrls];
    [now rewrite Hrl|].
  destruct (getitems_total subset _ Hrarg) as [rxs Hrxs].
  eexists xs, _. split; [exact Hxs|].
  split; [exact (getitems_perm _ _ _ Harg Hxs)|].
  split.
  { pose proof (argsort_sorted (score <$> subset)) as Hs.
    rewrite (keys_getitems _ _ _ _ Hxs) in Hs. clear -Hs.
    induction xs as [|x xs IH]; [constructor|].
    cbn in Hs. apply StronglySorted_cons in Hs as [Hall Hs].
    constructor; [now apply IH|]. now rewrite Forall_fmap in Hall. }
  unfold BiasTest.select. rewrite Hls, Hxs, Hrls, Hrxs.
  cbn [mbind result_bind Py.bind]. split; [|reflexivity]. reflexivity.
Qed.

(** Top-B for a budget [0 < ADDENDUM <= P]: [ADDENDUM] samples of the pool
    are moved, and none of the rest scores higher than any of them. *)
Lemma top_b_moves (score : nat -> Q) labeled_set subset labels
    real_uncertainty real_labels :
  (0 < ADDENDUM cfg <= Z.of_nat (length subset))%Z ->
  length labels = length subset ->
  length real_uncertainty = length subset ->
  length real_labels = length subset ->
  exists selected unlabeled_set' pickled,
    BiasTest.select cfg labeled_set subset (score <$> subset) labels
      real_uncertainty real_labels
    = Return ((labeled_set ++ selected, unlabeled_set'), pickled) /\
    BiasTest.samples pickled = selected /\
    length selected = Z.to_nat (ADDENDUM cfg) /\
    length unlabeled_set' = length subset - Z.to_nat (ADDENDUM cfg) /\
    selected ++ unlabeled_set' ≡ₚ subset /\
    (forall x y, x ∈ selected -> y ∈ unlabeled_set' -> (score y <= score x)%Q).
Proof.
  intros HB Hl Hru Hrl.
  destruct (top_b_aligned score labeled_set subset labels real_uncertainty
              real_labels Hl Hru Hrl) as (xs & d & _ & Hperm & Hsorted & Hd & Hsel).
  pose proof (slice_to_from xs (- ADDENDUM cfg)) as Hcut.
  assert (Hn : length xs = length subset) by now rewrite Hperm.
  exists (slice_from xs (- ADDENDUM cfg)), (slice_to xs (- ADDENDUM cfg)), d.
  repeat split; try assumption.
  - unfold slice_from. rewrite length_skipn, clip_neg by lia. lia.
  - unfold slice_to. rewrite length_firstn, clip_neg by lia. lia.
  - rewrite Permutation_app_comm, Hcut. exact Hperm.
  - intros x y Hx Hy. rewrite <- Hcut in Hsorted.
    exact (StronglySorted_app_1_elem_of _ _ _ _ _ Hsorted Hy Hx).
Qed.

(** In the scenario the three samples that outscore all others are 1, 3
    and 5: a set of three samples that no other sample outscores is that
    set. *)
Lemma scenario_top_three (selected rest : list nat) :
  selected ++ rest ≡ₚ seq 0 10 ->
  length selected = 3 ->
  (forall x y, x ∈ selected -> y ∈ rest ->
     (BiasTest.scenario_score y <= BiasTest.scenario_score x)%Q) ->
  selected ≡ₚ [1; 3; 5].
Proof.
  intros Hp Hlen Htop.
  assert (Hnd : NoDup (selected ++ rest)) by (rewrite Hp; apply NoDup_seq).
  apply NoDup_app in Hnd as (Hnd & _ & _).
  assert (Hin : forall x, x < 10 -> x ∈ selected \/ x ∈ rest).
  { intros x Hx. apply elem_of_app. rewrite Hp. apply elem_of_seq. lia. }
  assert (Hlow : forall x, x ∈ selected -> x ∈ rest ->  False).
  { intros x Hx Hx'. assert (Hd : NoDup (selected ++ rest)) by (rewrite Hp; apply NoDup_seq).
    apply NoDup_app in Hd as (_ & Hd & _). exact (Hd x Hx Hx'). }
  (* a selected sample outside {1, 3, 5} scores at most 0.6 *)
  assert (Hweak : forall x, x ∈ selected -> x ∉ [1; 3; 5] ->
                    (BiasTest.scenario_score x <= 6 # 10)%Q).
  { intros x Hx Hx'. assert (Hx10 : x < 10).
    { assert (Hxs : x ∈ selected ++ rest) by (apply elem_of_app; now left).
      rewrite Hp in Hxs. apply elem_of_seq in Hxs. lia. }
    do 10 (destruct x as [|x];
           [first [ exfalso; apply Hx'; apply (bool_decide_unpack _); reflexivity
                  | vm_compute; discriminate ]|]).
    lia. }
  (* so 1, 3 and 5 cannot be left in the rest *)
  assert (Hall : forall x, x ∈ selected -> x ∈ [1; 3; 5]).
  { intros x Hx. destruct (decide (x ∈ [1; 3; 5])) as [|Hout]; [assumption|].
    exfalso. pose proof (Hweak x Hx Hout) as Hs.
    assert (H1 : 1 ∈ selected).
    { destruct (Hin 1 ltac:(lia)) as [|Hr]; [assumption|]. exfalso.
      pose proof (Htop x 1 Hx Hr) as Hc.
      pose proof (Qle_trans _ _ _ Hc Hs) as Hbad. vm_compute in Hbad. now apply Hbad. }
    assert (H3 : 3 ∈ selected).
    { destruct (Hin 3 ltac:(lia)) as [|Hr]; [assumption|]. exfalso.
      pose proof (Htop x 3 Hx Hr) as Hc.
      pose proof (Qle_trans _ _ _ Hc Hs) as Hbad. vm_compute in Hbad. now apply Hbad. }
    assert (H5 : 5 ∈ selected).
    { destruct (Hin 5 ltac:(lia)) as [|Hr]; [assumption|]. exfalso.
      pose proof (Htop x 5 Hx Hr) as Hc.
      pose proof (Qle_trans _ _ _ Hc Hs) as Hbad. vm_compute in Hbad. now apply Hbad. }
    assert (Hfour : [x; 1; 3; 5] ⊆+ selected).
    { apply NoDup_submseteq.
      - apply NoDup_cons. split; [exact Hout|].
        apply (bool_decide_unpack _). reflexivity.
      - intros y Hy. repeat (apply elem_of_cons in Hy as [-> | Hy]; [assumption|]).
        inversion Hy. }
    apply submseteq_length in Hfour. cbn in Hfour. lia. }
  apply submseteq_length_Permutation.
  - now apply NoDup_submseteq.
  - cbn. lia.
Qed.

(** C4.  For a pool of [P] samples and a budget [0 < ADDENDUM <= P], Top-B
    moves exactly [ADDENDUM] samples from the unlabeled to the labeled
    list, none of the samples left scores higher than any sample moved,
    the labeled list grows by [ADDENDUM], the unlabeled list shrinks to
    [P - ADDENDUM], and the two stay disjoint.  In the scenario of ten
    samples with budget 3 the samples moved are 1, 3 and 5, whatever the
    order of the pool. *)
Theorem top_b_moves_the_b_highest :
  (forall (score : nat -> Q) labeled_set unlabeled_set subset labels
          real_uncertainty real_labels,
     (0 < ADDENDUM cfg <= Z.of_nat (length subset))%Z ->
     subset ≡ₚ unlabeled_set ->
     NoDup (labeled_set ++ unlabeled_set) ->
     length labels = length subset ->
     length real_uncertainty = length subset ->
     length real_labels = length subset ->
     exists selected unlabeled_set' pickled,
       BiasTest.select cfg labeled_set subset (score <$> subset) labels
         real_uncertainty real_labels
       = Return ((labeled_set ++ selected, unlabeled_set'), pickled) /\
       Z.of_nat (length selected) = ADDENDUM cfg /\
       Z.of_nat (length (labeled_set ++ selected))
       = (Z.of_nat (length labeled_set) + ADDENDUM cfg)%Z /\
       Z.of_nat (length unlabeled_set')
       = (Z.of_nat (length subset) - ADDENDUM cfg)%Z /\
       selected ++ unlabeled_set' ≡ₚ unlabeled_set /\
       (forall x, x ∈ labeled_set ++ selected -> x ∉ unlabeled_set') /\
       (forall x y, x ∈ selected -> y ∈ unlabeled_set' -> (score y <= score x)%Q)) /\
  (forall labeled_set subset labels real_uncertainty real_labels,
     ADDENDUM cfg = 3%Z ->
     subset ≡ₚ seq 0 10 ->
     length labels = length subset ->
     length real_uncertainty = length subset ->
     length real_labels = length subset ->
     exists selected unlabeled_set' pickled,
       BiasTest.select cfg labeled_set subset
         (BiasTest.scenario_score <$> subset) labels real_uncertainty real_labels
       = Return ((labeled_set ++ selected, unlabeled_set'), pickled) /\
       selected ≡ₚ [1; 3; 5]).
Proof.
  split.
  - intros score L U subset labels ru rl HB Hshuf Hnd Hl Hru Hrl.
    destruct (top_b_moves score L subset labels ru rl HB Hl Hru Hrl)
      as (sel & U' & d & Hsel & _ & Hlen & Hlen' & Hperm & Htop).
    exists sel, U', d. repeat split; try assumption.
    + lia.
    + rewrite length_app. lia.
    + lia.
    + now rewrite Hperm.
    + rewrite <- Hshuf, <- Hperm, app_assoc in Hnd.
      apply NoDup_app in Hnd as (_ & Hdisj & _). exact Hdisj.
  - intros L subset labels ru rl HB Hshuf Hl Hru Hrl.
    assert (Hlen10 : length subset = 10) by now rewrite Hshuf.
    destruct (top_b_moves BiasTest.scenario_score L subset labels ru rl)
      as (sel & U' & d & Hsel & _ & Hlen & _ & Hperm & Htop);
      [lia | assumption..|].
    exists sel, U', d. split; [exact Hsel|].
    apply (scenario_top_three sel U').
    + now rewrite Hperm.
    + rewrite Hlen, HB. reflexivity.
    + exact Htop.
Qed.

(** Outside the budgets of C4: with [ADDENDUM = 0] the slice [[-0:]] is the
    whole list, so the whole pool is moved. *)
Remark top_b_zero_budget_moves_all (score : nat -> Q) labeled_set subset labels
    real_uncertainty real_labels :
  ADDENDUM cfg = 0%Z ->
  length labels = length subset ->
  length real_uncertainty = length subset ->
  length real_labels = length subset ->
  exists selected pickled,
    BiasTest.select cfg labeled_set subset (score <$> subset) labels
      real_uncertainty real_labels
    = Return ((labeled_set ++ selected, []), pickled) /\
    selected ≡ₚ subset.
Proof.
  intros HB Hl Hru Hrl.
  destruct (top_b_aligned score labeled_set subset labels real_uncertainty
              real_labels Hl Hru Hrl) as (xs & d & _ & Hperm & _ & _ & Hsel).
  rewrite HB in Hsel. exists xs, d. split; [|exact Hperm].
  rewrite Hsel. unfold slice_from, slice_to, clip. cbn.
  now rewrite skipn_O.
Qed.

End TopBFacts.

(* ===================================================================== *)
(** ** The two scorers                                                    *)
(* ===================================================================== *)

Section ScorerFacts.
Context `{Networks}.

(** What the networks are taken to satisfy, as PyTorch modules do: in
    evaluation mode a forward pass writes nothing to its module. *)
Hypothesis backbone_eval_pure : forall m x,
  training m = false -> (backbone_forward m x).2 = m.
Hypothesis module_eval_pure : forall m f,
  training m = false -> (module_forward m f).2 = m.

Lemma eval_id {W} (m : module_state W) : training m = false -> eval m = m.
Proof. destruct m as [t w]. cbn. now intros ->. Qed.

(** [main.py]: a pass over the loader leaves a backbone in evaluation mode
    as it is, and never touches the module. *)
Lemma main_scoring_keeps_models criterion loader :
  forall acc (models : model_pair Wb Wm),
  training (backbone models) = false ->
  (fold_left (Main.score_batch criterion) loader (acc, models)).2 = models.
Proof.
  induction loader as [|[inputs labels] loader IH]; intros [unc lab] [b m] Hb;
    [reflexivity|].
  cbn [fold_left]. unfold Main.score_batch at 2. cbn [backbone module].
  pose proof (backbone_eval_pure b inputs Hb) as Hpure. cbn in Hb.
  destruct (backbone_forward b inputs) as [[scores features] b'].
  cbn in Hpure. subst b'. now apply IH.
Qed.

(** [bias_test_ll4al.py]: a pass over the loader leaves both networks in
    evaluation mode as they are. *)
Lemma bias_scoring_keeps_models loader : forall acc (models : model_pair Wb Wm),
  training (backbone models) = false ->
  training (module models) = false ->
  (fold_left BiasTest.score_batch loader (acc, models)).2 = models.
Proof.
  induction loader as [|[inputs labels] loader IH]; intros [unc lab] [b m] Hb Hm;
    [reflexivity|].
  cbn [fold_left]. unfold BiasTest.score_batch at 2. cbn [backbone module].
  pose proof (backbone_eval_pure b inputs Hb) as Hpure. cbn in Hb, Hm.
  destruct (backbone_forward b inputs) as [[scores features] b'].
  cbn in Hpure. subst b'.
  pose proof (module_eval_pure m features Hm) as Hpure.
  destruct (module_forward m features) as [pred_loss m'].
  cbn in Hpure. subst m'. now apply IH.
Qed.

Lemma main_scorer_models models loader criterion :
  (Main.get_uncertainty models loader criterion).2
  = Models (eval (backbone models)) (eval (module models)).
Proof. unfold Main.get_uncertainty. now apply main_scoring_keeps_models. Qed.

Lemma bias_scorer_models models loader :
  (BiasTest.get_uncertainty models loader).2
  = Models (eval (backbone models)) (eval (module models)).
Proof. unfold BiasTest.get_uncertainty. now apply bias_scoring_keeps_models. Qed.

(** C9.  Both scorers ([get_uncertainty] of main.py and of
    bias_test_ll4al.py), run a second time on the models the first run
    left and on the same loader, return the same score and label arrays
    and leave the models as the first run left them.  A run writes
    nothing to the models but the evaluation-mode flag: the weights are
    those it was given, and a pair already in evaluation mode (frozen) is
    left exactly as it was.  The index lists are not within reach of
    either function. *)
Theorem scoring_twice_same_arrays_same_models
    (models : model_pair Wb Wm) (loader : list (Inputs * list nat))
    (criterion : Scores -> list nat -> list Q) :
  (let first := Main.get_uncertainty models loader criterion in
   let second := Main.get_uncertainty first.2 loader criterion in
   second.1 = first.1 /\ second.2 = first.2 /\
   weights (backbone first.2) = weights (backbone models) /\
   weights (module first.2) = weights (module models) /\
   (training (backbone models) = false -> training (module models) = false ->
    first.2 = models)) /\
  (let first := BiasTest.get_uncertainty models loader in
   let second := BiasTest.get_uncertainty first.2 loader in
   second.1 = first.1 /\ second.2 = first.2 /\
   weights (backbone first.2) = weights (backbone models) /\
   weights (module first.2) = weights (module models) /\
   (training (backbone models) = false -> training (module models) = false ->
    first.2 = models)).
Proof.
  split; cbv zeta.
  - rewrite !main_scorer_models. cbn [backbone module].
    assert (E : Main.get_uncertainty
                  (Models (eval (backbone models)) (eval (module models)))
                  loader criterion
                = Main.get_uncertainty models loader criterion) by reflexivity.
    rewrite E. repeat split.
    intros Hb Hm. destruct models as [b m]. cbn in *.
    now rewrite (eval_id b Hb), (eval_id m Hm).
  - rewrite !bias_scorer_models. cbn [backbone module].
    assert (E : BiasTest.get_uncertainty
                  (Models (eval (backbone models)) (eval (module models))) loader
                = BiasTest.get_uncertainty models loader) by reflexivity.
    rewrite E. repeat split.
    intros Hb Hm. destruct models as [b m]. cbn in *.
    now rewrite (eval_id b Hb), (eval_id m Hm).
Qed.

End ScorerFacts.


(* ===================================================================== *)
(** ** Worked instances                                                   *)
(* ===================================================================== *)

(** Where all scores differ, every admissible [argsort] returns the same
    order: the worked instances below do not depend on how ties fall. *)
Lemma keys_sorted_positions (u : list Q) (arg : list nat) :
  StronglySorted Qle (keys u arg) ->
  StronglySorted (fun k j => nth k u 0%Q <= nth j u 0%Q)%Q arg.
Proof.
  induction arg as [|k arg IH]; [constructor|].
  cbn. intros Hs. apply StronglySorted_cons in Hs as [Hall Hs].
  constructor; [now apply IH|].
  unfold keys in Hall. change (map ?f ?l) with (f <$> l) in Hall.
  now rewrite Forall_fmap in Hall.
Qed.

Lemma argsort_unique (A B : Argsort) (u : list Q) :
  distinct_scores u = true -> @argsort A u = @argsort B u.
Proof.
  intros Hd.
  apply (StronglySorted_unique_strong (fun k j => nth k u 0%Q <= nth j u 0%Q)%Q).
  - intros k j Hk Hj Hkj Hjk.
    rewrite (@argsort_perm A u) in Hk. rewrite (@argsort_perm B u) in Hj.
    apply list_elem_of_In in Hk, Hj.
    unfold distinct_scores in Hd. rewrite forallb_forall in Hd.
    specialize (Hd k Hk). rewrite forallb_forall in Hd. specialize (Hd j Hj).
    apply orb_true_iff in Hd as [Hd | Hd]; [now apply Nat.eqb_eq|].
    apply negb_true_iff in Hd.
    assert (Heq : Qeq_bool (nth k u 0%Q) (nth j u 0%Q) = true).
    { apply Qeq_bool_iff. now apply Qle_antisym. }
    congruence.
  - apply keys_sorted_positions, argsort_sorted.
  - apply keys_sorted_positions, argsort_sorted.
  - now rewrite !argsort_perm.
Qed.

(** The loss on a batch of four, unreduced and averaged over its two
    pairs. *)
Example loss_on_four :
  RankingLoss.loss_pred_loss [1; 0; 3; 4]%Q [5; 5; 7; 1]%Q 1 "none"
  = Return (Torch.Tensor1 [4; 0]%Q) /\
  RankingLoss.loss_pred_loss [1; 0; 3; 4]%Q [5; 5; 7; 1]%Q 1 "mean"
  = Return (Torch.Tensor0 (Torch.Fin (4 # 2))).
Proof. split; reflexivity. Qed.

(** The scenario of ten samples with budget 3, pool in the order
    [0 .. 9]: samples 5, 3 and 1 are appended to the labeled list. *)
Example top_three_of_ten :
  match BiasTest.select Demo.cfg_top3 [10; 11] (seq 0 10)
          (BiasTest.scenario_score <$> seq 0 10) (Demo.lab <$> seq 0 10)
          (Demo.score <$> seq 0 10) (Demo.lab <$> seq 0 10) with
  | Return (lists, _) => lists = ([10; 11; 5; 3; 1], [6; 0; 4; 2; 8; 9; 7])
  | Raise _ => False
  end.
Proof. vm_compute. reflexivity. Qed.

Lemma demo_labels_are_classes (lab : nat -> nat) :
  Forall (fun x => lab x < 4) Demo.pool ->
  forall x, x ∈ Demo.pool -> lab x < 4.
Proof. intros Hall. now apply Forall_forall. Qed.

Lemma floor_gives_each_class_its_minimum_witness :
  exists new unlabeled_set',
    Main.select Demo.cfg [12; 13] Demo.pool (Demo.score <$> Demo.pool)
      (Demo.lab <$> Demo.pool)
    = Return ([12; 13] ++ new, unlabeled_set') /\
    forall c,
      (Z.min (MINIMUM_CNT Demo.cfg) (Z.of_nat (class_count Demo.lab c Demo.pool))
       <= Z.of_nat (class_count Demo.lab c new))%Z.
Proof.
  apply (floor_gives_each_class_its_minimum Demo.cfg Demo.lab [12; 13] Demo.pool
           (Demo.score <$> Demo.pool)).
  - reflexivity.
  - intros x Hx.
    pose proof (demo_labels_are_classes Demo.lab
                  ltac:(apply (bool_decide_unpack _); vm_compute; reflexivity) x Hx).
    change (CLS_CNT Demo.cfg) with 4%Z. lia.
Defined.

Lemma floor_admits_one_per_class_of_rest_witness :
  exists ordered_index extra unlabeled_set',
    Main.descending Demo.pool (argsort (Demo.score <$> Demo.pool))
    = Return ordered_index /\
    ordered_index ≡ₚ Demo.pool /\
    StronglySorted (fun a b => Demo.score b <= Demo.score a)%Q ordered_index /\
    Main.select Demo.cfg [12; 13] Demo.pool
      (Demo.score <$> Demo.pool) (Demo.lab_two <$> Demo.pool)
    = Return ([12; 13] ++ firstn 4 ordered_index ++ extra, unlabeled_set') /\
    extra `sublist_of` skipn 4 ordered_index /\
    forall c, c < 4 ->
      class_count Demo.lab_two c extra
      = Nat.min 1 (class_count Demo.lab_two c (skipn 4 ordered_index)) /\
      (class_count Demo.lab_two c (firstn 4 ordered_index) = 0 ->
       0 < class_count Demo.lab_two c Demo.pool ->
       class_count Demo.lab_two c extra = 1).
Proof.
  apply (floor_admits_one_per_class_of_rest Demo.cfg Demo.lab_two Demo.score
           [12; 13] Demo.pool).
  - reflexivity.
  - reflexivity.
  - reflexivity.
  - apply demo_labels_are_classes.
    apply (bool_decide_unpack _). vm_compute. reflexivity.
Defined.

(** The run behind the counterexample to C2, for every admissible
    [argsort] (the scores of the pool all differ): pool [0 .. 11] ranked
    [0, 1, ..., 11], labels [0 1 2 3 | 0 0 0 0 1 2 3 0].  After the four
    highest-scoring samples the loop admits 4, 8, 9 and 10. *)
Lemma floor_run_with_all_classes_on_top (A : Argsort) :
  Main.descending Demo.pool (argsort (Demo.score <$> Demo.pool))
  = Return (seq 0 12) /\
  exists unlabeled_set',
    Main.select Demo.cfg [12; 13] Demo.pool
      (Demo.score <$> Demo.pool) (Demo.lab <$> Demo.pool)
    = Return ([12; 13; 0; 1; 2; 3; 4; 8; 9; 10], unlabeled_set').
Proof.
  split; [|eexists]; unfold Main.select;
    rewrite (argsort_unique A stable_argsort_admissible) by (vm_compute; reflexivity);
    vm_compute; reflexivity.
Qed.

(** C2 as stated fails in its first half.  In the pool [0 .. 11] ranked
    [0, 1, ..., 11], with labels [0 1 2 3 | 0 0 0 0 1 2 3 0], the four
    highest-scoring samples cover all four classes, and still the floor
    loop admits four more samples (4, 8, 9 and 10), three of them from
    below the eight highest scores. *)
Lemma floor_admits_extra_counterexample :
  ~ (forall (A : Argsort) (cfg : config) (lab : nat -> nat) (score : nat -> Q)
            (labeled_set unlabeled_set ordered_index : list nat)
            (st' : list nat * list nat),
       CLS_CNT cfg = 4%Z -> ADDENDUM cfg = 8%Z -> MINIMUM_CNT cfg = 1%Z ->
       (forall x, x ∈ unlabeled_set -> lab x < 4) ->
       Main.descending unlabeled_set (argsort (score <$> unlabeled_set))
       = Return ordered_index ->
       (forall c, c < 4 -> 0 < class_count lab c (firstn 4 ordered_index)) ->
       Main.select cfg labeled_set unlabeled_set
         (score <$> unlabeled_set) (lab <$> unlabeled_set) = Return st' ->
       st'.1 = labeled_set ++ firstn 4 ordered_index).
Proof.
  intros Hclaim.
  destruct (floor_run_with_all_classes_on_top stable_argsort_admissible)
    as (Hranked & U' & Hrun).
  assert (Hlab : forall x, x ∈ Demo.pool -> Demo.lab x < 4).
  { apply demo_labels_are_classes. apply (bool_decide_unpack _). vm_compute. reflexivity. }
  assert (Hcover : forall c, c < 4 -> 0 < class_count Demo.lab c (firstn 4 (seq 0 12))).
  { intros c Hc. do 4 (destruct c as [|c]; [vm_compute; lia|]). lia. }
  specialize (Hclaim stable_argsort_admissible Demo.cfg Demo.lab Demo.score
                [12; 13] Demo.pool (seq 0 12) _
                eq_refl eq_refl eq_refl Hlab Hranked Hcover Hrun).
  vm_compute in Hclaim. discriminate Hclaim.
Qed.

Lemma top_b_moves_the_b_highest_witness :
  (exists selected unlabeled_set' pickled,
     BiasTest.select Demo.cfg_top3 [10; 11] (seq 0 10)
       (BiasTest.scenario_score <$> seq 0 10) (Demo.lab <$> seq 0 10)
       (Demo.score <$> seq 0 10) (Demo.lab <$> seq 0 10)
     = Return (([10; 11] ++ selected, unlabeled_set'), pickled) /\
     Z.of_nat (length selected) = ADDENDUM Demo.cfg_top3 /\
     Z.of_nat (length ([10; 11] ++ selected))
     = (Z.of_nat (length [10; 11]) + ADDENDUM Demo.cfg_top3)%Z /\
     Z.of_nat (length unlabeled_set')
     = (Z.of_nat (length (seq 0 10)) - ADDENDUM Demo.cfg_top3)%Z /\
     selected ++ unlabeled_set' ≡ₚ seq 0 10 /\
     (forall x, x ∈ [10; 11] ++ selected -> x ∉ unlabeled_set') /\
     (forall x y, x ∈ selected -> y ∈ unlabeled_set' ->
        (BiasTest.scenario_score y <= BiasTest.scenario_score x)%Q)) /\
  (exists selected unlabeled_set' pickled,
     BiasTest.select Demo.cfg_top3 [10; 11] (seq 0 10)
       (BiasTest.scenario_score <$> seq 0 10) (Demo.lab <$> seq 0 10)
       (Demo.score <$> seq 0 10) (Demo.lab <$> seq 0 10)
     = Return (([10; 11] ++ selected, unlabeled_set'), pickled) /\
     selected ≡ₚ [1; 3; 5]).
Proof.
  split.
  - apply (proj1 (top_b_moves_the_b_highest Demo.cfg_top3)
             BiasTest.scenario_score [10; 11] (seq 0 10) (seq 0 10)).
    + cbn. lia.
    + reflexivity.
    + apply (bool_decide_unpack _). vm_compute. reflexivity.
    + reflexivity.
    + reflexivity.
    + reflexivity.
  - apply (proj2 (top_b_moves_the_b_highest Demo.cfg_top3) [10; 11] (seq 0 10)).
    + reflexivity.
    + reflexivity.
    + reflexivity.
    + reflexivity.
    + reflexivity.
Defined.

Lemma index_lists_partition_universe_witness :
  let labeled_set := [0; 1; 2; 3; 4; 5; 6; 7; 8; 9] in
  let unlabeled_set := [10] in
  NoDup labeled_set /\ NoDup unlabeled_set /\
  (forall x, x ∈ labeled_set -> x ∉ unlabeled_set) /\
  (forall x, x ∈ labeled_set \/ x ∈ unlabeled_set
             <-> x ∈ py_range (NUM_TRAIN Demo.cfg_trial)) /\
  length labeled_set + length unlabeled_set = Z.to_nat (NUM_TRAIN Demo.cfg_trial).
Proof.
  apply (index_lists_partition_universe Demo.cfg_trial (seq 0 11)).
  - unfold Main.shuffled. reflexivity.
  - apply (Main.boundary_cycle Demo.cfg_trial (seq 0 11)
             (Main.initial_split Demo.cfg_trial (seq 0 11))).
    + apply Main.boundary_init.
    + apply (Main.cycle_select Demo.cfg_trial [0; 1] (seq 2 9)
               (Demo.score <$> seq 2 9) (Demo.lab_trial <$> seq 2 9)).
      vm_compute. reflexivity.
Defined.

Lemma scoring_twice_same_arrays_same_models_witness :
  (let first := @Main.get_uncertainty Demo.networks Demo.models Demo.loader Demo.criterion in
   let second := @Main.get_uncertainty Demo.networks first.2 Demo.loader Demo.criterion in
   second.1 = first.1 /\ second.2 = first.2 /\
   weights (backbone first.2) = weights (backbone Demo.models) /\
   weights (module first.2) = weights (module Demo.models) /\
   (training (backbone Demo.models) = false ->
    training (module Demo.models) = false ->
    first.2 = Demo.models)) /\
  (let first := @BiasTest.get_uncertainty Demo.networks Demo.models Demo.loader in
   let second := @BiasTest.get_uncertainty Demo.networks first.2 Demo.loader in
   second.1 = first.1 /\ second.2 = first.2 /\
   weights (backbone first.2) = weights (backbone Demo.models) /\
   weights (module first.2) = weights (module Demo.models) /\
   (training (backbone Demo.models) = false ->
    training (module Demo.models) = false ->
    first.2 = Demo.models)).
Proof.
  apply (@scoring_twice_same_arrays_same_models Demo.networks
           ltac:(intros [t w] x Ht; cbn in *; subst t; reflexivity)
           ltac:(intros [t w] f Ht; cbn in *; subst t; reflexivity)
           Demo.models Demo.loader Demo.criterion).
Defined.

(* ===================================================================== *)
(** ** More on the ranking loss                                           *)
(* ===================================================================== *)

Section RankingLossMore.
Import Torch RankingLoss.

Lemma Forall2_nth_Q (R : Q -> Q -> Prop) (l l' : list Q) :
  length l = length l' ->
  (forall i, i < length l -> R (nth i l 0%Q) (nth i l' 0%Q)) ->
  Forall2 R l l'.
Proof.
  revert l'. induction l as [|x l IH]; intros [|y l'] Hlen Hnth;
    try discriminate Hlen; constructor.
  - apply (Hnth 0). cbn. lia.
  - apply IH; [now injection Hlen|].
    intros i Hi. apply (Hnth (S i)). cbn. lia.
Qed.

Lemma sum_Qeq (l l' : list Q) : Forall2 Qeq l l' -> (sum l == sum l')%Q.
Proof.
  induction 1 as [|x y l l' Hxy _ IH]; cbn; [reflexivity|].
  now rewrite Hxy, IH.
Qed.

Lemma sum_Qle (l l' : list Q) : Forall2 Qle l l' -> (sum l <= sum l')%Q.
Proof.
  induction 1 as [|x y l l' Hxy _ IH]; cbn; [apply Qle_refl|].
  now apply Qplus_le_compat.
Qed.



Lemma clamp_min1_Qeq (x y : Q) : (x == y)%Q -> (clamp_min1 0 x == clamp_min1 0 y)%Q.
Proof. intros E. rewrite !clamp_min1_max. now rewrite E. Qed.

Lemma clamp_min1_Qle (x y : Q) : (x <= y)%Q -> (clamp_min1 0 x <= clamp_min1 0 y)%Q.
Proof.
  intros L. rewrite !clamp_min1_max. apply Q.max_le_compat_l. exact L.
Qed.


Lemma sign_strict_Qeq (x y : Q) : (x == y)%Q -> sign_strict x = sign_strict y.
Proof.
  intros E. unfold sign_strict.
  destruct (Qle_bool x 0) eqn:Ex, (Qle_bool y 0) eqn:Ey; try reflexivity.
  - apply Qle_bool_iff in Ex. rewrite E in Ex. apply Qle_bool_iff in Ex. congruence.
  - apply Qle_bool_iff in Ey. rewrite <- E in Ey. apply Qle_bool_iff in Ey. congruence.
Qed.

Lemma indicator_Qeq (x y : Q) : (x == y)%Q -> indicator x = indicator y.
Proof. rewrite !indicator_sign_strict. apply sign_strict_Qeq. Qed.

(** Away from a tie the sign follows the difference: swapping the two
    samples of a pair swaps the sign. *)
Lemma indicator_opp (x : Q) : ~ (x == 0)%Q -> indicator (- x) = (- indicator x)%Q.
Proof.
  intros Hx. destruct (Qlt_le_dec 0 x) as [L | L].
  - rewrite (indicator_pos x L), indicator_nonpos; [reflexivity|].
    apply (Qopp_le_compat 0 x). now apply Qlt_le_weak.
  - assert (L' : (x < 0)%Q).
    { apply Qle_lteq in L as [L | L]; [assumption | contradiction]. }
    rewrite (indicator_nonpos x L), indicator_pos; [reflexivity|].
    now apply (Qopp_lt_compat x 0).
Qed.

(** Two runs of the unreduced loss are related entry by entry as soon as
    their pairs are. *)
Lemma unreduced_pointwise (R : Q -> Q -> Prop)
    input target margin input' target' margin' :
  length target = length input ->
  length target' = length input' ->
  length input' = length input ->
  (forall i, i < length input / 2 ->
     R (clamp_min1 0 (margin - indicator (nth i (half_diff target) 0)
                               * nth i (half_diff input) 0))%Q
       (clamp_min1 0 (margin' - indicator (nth i (half_diff target') 0)
                                * nth i (half_diff input') 0))%Q) ->
  Forall2 R (unreduced input target margin) (unreduced input' target' margin').
Proof.
  intros E E' En Hpair. apply Forall2_nth_Q.
  - rewrite !length_unreduced by assumption. now rewrite En.
  - intros i Hi. rewrite length_unreduced in Hi by assumption.
    rewrite !nth_unreduced by first [assumption | rewrite En; assumption].
    now apply Hpair.
Qed.


Lemma nth_half_diff_rev (t : list Q) (i : nat) :
  i < length t / 2 ->
  (nth i (half_diff (rev t)) 0 == - nth i (half_diff t) 0)%Q.
Proof.
  intros Hi.
  assert (Hlt : i < length t).
  { pose proof (Nat.Div0.div_le_upper_bound (length t) 2 (length t)). lia. }
  rewrite !nth_half_diff by (rewrite ?length_rev; assumption).
  rewrite length_rev, !rev_nth by lia.
  replace (length t - S (length t - 1 - i)) with i by lia.
  replace (length t - S i) with (length t - 1 - i) by lia. lra.
Qed.



(** X2.  A larger margin never lowers the loss: every per-pair loss, their
    sum and the mean grow (weakly) with the margin. *)
Theorem loss_grows_with_margin input target margin margin' :
  Nat.even (length input) = true ->
  length target = length input ->
  (margin <= margin')%Q ->
  exists loss loss',
    loss_pred_loss input target margin "none" = Return (Tensor1 loss) /\
    loss_pred_loss input target margin' "none" = Return (Tensor1 loss') /\
    Forall2 Qle loss loss' /\
    loss_pred_loss input target margin "mean"
    = Return (Tensor0 (div_int (sum loss) (length input / 2))) /\
    loss_pred_loss input target margin' "mean"
    = Return (Tensor0 (div_int (sum loss') (length input / 2))) /\
    (sum loss <= sum loss')%Q.
Proof.
  intros Hev E Hm.
  assert (Hall : Forall2 Qle (unreduced input target margin)
                   (unreduced input target margin')).
  { apply unreduced_pointwise; try assumption; [reflexivity|].
    intros i Hi. apply clamp_min1_Qle. lra. }
  eexists _, _. split; [now apply loss_pred_loss_none|].
  split; [now apply loss_pred_loss_none|].
  split; [exact Hall|].
  split; [now apply loss_pred_loss_mean|].
  split; [now apply loss_pred_loss_mean | now apply sum_Qle].
Qed.

Lemma loss_grows_with_margin_witness :
  exists loss loss',
    loss_pred_loss [1; 0; 3; 4]%Q [5; 5; 7; 1]%Q 1 "none" = Return (Tensor1 loss) /\
    loss_pred_loss [1; 0; 3; 4]%Q [5; 5; 7; 1]%Q 4 "none" = Return (Tensor1 loss') /\
    Forall2 Qle loss loss' /\
    loss_pred_loss [1; 0; 3; 4]%Q [5; 5; 7; 1]%Q 1 "mean"
    = Return (Tensor0 (div_int (sum loss) (4 / 2))) /\
    loss_pred_loss [1; 0; 3; 4]%Q [5; 5; 7; 1]%Q 4 "mean"
    = Return (Tensor0 (div_int (sum loss') (4 / 2))) /\
    (sum loss <= sum loss')%Q.
Proof.
  apply (loss_grows_with_margin [1; 0; 3; 4]%Q [5; 5; 7; 1]%Q 1 4);
    [reflexivity | reflexivity | vm_compute; discriminate].
Defined.



(** X4.  Swapping the two samples of every pair (reversing both vectors)
    changes no per-pair loss as long as no pair has equal targets. *)
Theorem loss_unchanged_by_reversal_without_ties input target margin :
  Nat.even (length input) = true ->
  length target = length input ->
  (forall i, i < length input / 2 ->
     ~ (nth i target 0 == nth (length input - 1 - i) target 0)%Q) ->
  exists loss loss',
    loss_pred_loss input target margin "none" = Return (Tensor1 loss) /\
    loss_pred_loss (rev input) (rev target) margin "none" = Return (Tensor1 loss') /\
    Forall2 Qeq loss loss' /\
    loss_pred_loss input target margin "mean"
    = Return (Tensor0 (div_int (sum loss) (length input / 2))) /\
    loss_pred_loss (rev input) (rev target) margin "mean"
    = Return (Tensor0 (div_int (sum loss') (length input / 2))) /\
    (sum loss == sum loss')%Q.
Proof.
  intros Hev E Hties.
  assert (Hev' : Nat.even (length (rev input)) = true) by now rewrite length_rev.
  assert (E' : length (rev target) = length (rev input)) by now rewrite !length_rev.
  assert (Hall : Forall2 Qeq (unreduced input target margin)
                   (unreduced (rev input) (rev target) margin)).
  { apply unreduced_pointwise; [assumption.. | apply length_rev |].
    intros i Hi. apply clamp_min1_Qeq.
    assert (Hi' : i < length target / 2) by now rewrite E.
    rewrite (nth_half_diff_rev input i Hi).
    rewrite (indicator_Qeq _ _ (nth_half_diff_rev target i Hi')).
    rewrite indicator_opp.
    - lra.
    - rewrite nth_half_diff, E by assumption.
      specialize (Hties i Hi). lra. }
  eexists _, _. split; [now apply loss_pred_loss_none|].
  split; [now apply loss_pred_loss_none|].
  split; [exact Hall|].
  split; [now apply loss_pred_loss_mean|].
  split; [|now apply sum_Qeq].
  rewrite loss_pred_loss_mean by assumption. now rewrite length_rev.
Qed.

Lemma loss_unchanged_by_reversal_without_ties_witness :
  exists loss loss',
    loss_pred_loss [1; 0; 3; 4]%Q [5; 5; 7; 1]%Q 1 "none" = Return (Tensor1 loss) /\
    loss_pred_loss (rev [1; 0; 3; 4]%Q) (rev [5; 5; 7; 1]%Q) 1 "none"
    = Return (Tensor1 loss') /\
    Forall2 Qeq loss loss' /\
    loss_pred_loss [1; 0; 3; 4]%Q [5; 5; 7; 1]%Q 1 "mean"
    = Return (Tensor0 (div_int (sum loss) (4 / 2))) /\
    loss_pred_loss (rev [1; 0; 3; 4]%Q) (rev [5; 5; 7; 1]%Q) 1 "mean"
    = Return (Tensor0 (div_int (sum loss') (4 / 2))) /\
    (sum loss == sum loss')%Q.
Proof.
  apply (loss_unchanged_by_reversal_without_ties [1; 0; 3; 4]%Q [5; 5; 7; 1]%Q 1);
    [reflexivity | reflexivity |].
  intros i Hi. do 2 (destruct i as [|i]; [vm_compute; discriminate|]).
  cbn in Hi. lia.
Defined.

(** With a tie the order of the two samples matters: the pair [(1, 0)] with
    equal targets costs 2, the pair [(0, 1)] costs nothing. *)
Example loss_changed_by_reversal_on_a_tie :
  loss_pred_loss [1; 0]%Q [5; 5]%Q 1 "none" = Return (Tensor1 [2]%Q) /\
  loss_pred_loss (rev [1; 0]%Q) (rev [5; 5]%Q) 1 "none" = Return (Tensor1 [0]%Q).
Proof. split; reflexivity. Qed.



(** What broadcasting does with two sizes. *)
Lemma broadcast2_spec f (a b : list Q) :
  match broadcast2 f a b with
  | Return l =>
      (length a = length b \/ length a = 1 \/ length b = 1) /\
      length l = (if Nat.eqb (length a) 1 then length b else length a)
  | Raise e =>
      e = RuntimeError /\ length a <> length b /\ length a <> 1 /\ length b <> 1
  end.
Proof.
  unfold broadcast2. destruct (Nat.eqb_spec (length a) (length b)) as [E | E].
  - split; [now left|]. rewrite length_map, length_combine, <- E, Nat.min_id.
    destruct (Nat.eqb_spec (length a) 1) as [E1 | E1]; congruence.
  - destruct a as [|x [|x' a]], b as [|y [|y' b]]; cbn in *;
      try (exfalso; apply E; reflexivity);
      try (split; [|rewrite ?length_map; reflexivity]; auto);
      try (repeat split; [assumption | discriminate ..]).
Qed.

(** X6.  On an even batch and with a supported reduction the only
    exception is the RuntimeError of a size mismatch: it is raised exactly
    when the halved target and the halved input differ in size and neither
    holds a single pair.  A halved target (or input) of one pair is
    broadcast over the other without complaint, so the unreduced loss may
    have another size than [N/2]. *)
Theorem loss_size_mismatch input target margin reduction :
  Nat.even (length input) = true ->
  reduction = "mean" \/ reduction = "none" ->
  let h := length input / 2 in
  let k := length target / 2 in
  (loss_pred_loss input target margin reduction = Raise RuntimeError <->
   h <> k /\ h <> 1 /\ k <> 1) /\
  (forall e, loss_pred_loss input target margin reduction = Raise e ->
             e = RuntimeError) /\
  (forall l, loss_pred_loss input target margin "none" = Return (Tensor1 l) ->
             length l = if Nat.eqb k 1 then h else k).
Proof.
  intros Hev Hred h k.
  assert (Hk : length (map indicator (half_diff target)) = k)
    by now rewrite length_map, length_half_diff.
  assert (Hh : length (half_diff input) = h) by apply length_half_diff.
  pose proof (broadcast2_spec Qmult (map indicator (half_diff target))
                (half_diff input)) as Hb.
  rewrite Hk, Hh in Hb.
  rewrite !(loss_pred_loss_branch _ _ _ _ Hev). cbv zeta.
  unfold pair_losses, mul.
  destruct (broadcast2 Qmult (map indicator (half_diff target)) (half_diff input))
    as [l | e].
  - destruct Hb as [Hsizes Hlen]. split; [split|split].
    + destruct Hred as [-> | ->]; cbn; discriminate.
    + intros (H1 & H2 & H3). exfalso. lia.
    + intros e. destruct Hred as [-> | ->]; cbn; discriminate.
    + intros l'. cbn. intros Hl'. injection Hl' as <-.
      unfold clamp_min, rsub_const. now rewrite !length_map.
  - destruct Hb as (-> & Hb). split; [split|split].
    + intros _. destruct Hb as (H1 & H2 & H3). repeat split; congruence.
    + intros _. destruct Hred as [-> | ->]; reflexivity.
    + intros e. destruct Hred as [-> | ->]; cbn; congruence.
    + intros l'. cbn. discriminate.
Qed.

Lemma loss_size_mismatch_witness :
  let h := 4 / 2 in
  let k := 6 / 2 in
  (loss_pred_loss [1; 0; 3; 4]%Q [5; 5; 7; 1; 2; 3]%Q 1 "none" = Raise RuntimeError <->
   h <> k /\ h <> 1 /\ k <> 1) /\
  (forall e, loss_pred_loss [1; 0; 3; 4]%Q [5; 5; 7; 1; 2; 3]%Q 1 "none" = Raise e ->
             e = RuntimeError) /\
  (forall l, loss_pred_loss [1; 0; 3; 4]%Q [5; 5; 7; 1; 2; 3]%Q 1 "none"
             = Return (Tensor1 l) ->
             length l = if Nat.eqb k 1 then h else k).
Proof.
  apply (loss_size_mismatch [1; 0; 3; 4]%Q [5; 5; 7; 1; 2; 3]%Q 1 "none");
    [reflexivity | now right].
Defined.

(** A target of two values is spread over every pair of a longer batch. *)
Example loss_broadcasts_a_single_target_pair :
  loss_pred_loss [1; 0; 3; 4]%Q [5; 7]%Q 1 "none" = Return (Tensor1 [0; 0]%Q).
Proof. reflexivity. Qed.

End RankingLossMore.

(* ===================================================================== *)
(** ** [main.py]: more on the class-floor selection                       *)
(* ===================================================================== *)

Section FloorSelectionMore.
Context `{Argsort}.
Variable cfg : config.

Local Abbreviation K := (Main.free_slots cfg).
Local Abbreviation zeros := (map (fun _ : nat => 0%Z) (py_range (CLS_CNT cfg))).

Lemma Zsum_insert (cnt : list Z) (c : nat) (n v : Z) :
  cnt !! c = Some n ->
  foldr Z.add 0%Z (<[c := v]> cnt) = (foldr Z.add 0%Z cnt - n + v)%Z.
Proof.
  revert c. induction cnt as [|x cnt IH]; intros [|c] Hc; try discriminate Hc.
  - cbn in Hc. injection Hc as ->. cbn. lia.
  - cbn in Hc. change (<[S c:=v]> (x :: cnt)) with (x :: <[c:=v]> cnt).
    cbn [foldr]. rewrite (IH c Hc). lia.
Qed.

Lemma Zsum_constant (cnt : list Z) (m : Z) :
  Forall (fun n => n = m) cnt ->
  foldr Z.add 0%Z cnt = (m * Z.of_nat (length cnt))%Z.
Proof. induction 1 as [|x cnt -> _ IH]; cbn [foldr length]; lia. Qed.

Lemma Zsum_bounded (cnt : list Z) (m : Z) :
  Forall (fun n => (n <= m)%Z) cnt ->
  (foldr Z.add 0%Z cnt <= m * Z.of_nat (length cnt))%Z.
Proof. induction 1 as [|x cnt Hx _ IH]; cbn [foldr length]; lia. Qed.

(** The counters of the loop count its admissions: their sum grows by the
    number of admitted samples, and none passes [MINIMUM_CNT]. *)
Lemma walk_counters oi : forall ol cnt cnt' admitted,
  Main.walk cfg cnt oi ol = Return (cnt', admitted) ->
  length cnt' = length cnt /\
  foldr Z.add 0%Z cnt' = (foldr Z.add 0%Z cnt + Z.of_nat (length admitted))%Z /\
  (Forall (fun n => (n <= MINIMUM_CNT cfg)%Z) cnt ->
   Forall (fun n => (n <= MINIMUM_CNT cfg)%Z) cnt').
Proof.
  induction oi as [|x oi IH]; intros [|c ol] cnt cnt' adm E; cbn in E;
    try (injection E as <- <-; cbn; repeat split; [lia | auto]).
  unfold getitem in E. destruct (cnt !! c) as [n|] eqn:Hn; cbn in E; [|discriminate].
  destruct (Z.ltb_spec n (MINIMUM_CNT cfg)) as [Hlt | Hge].
  - destruct (Main.walk cfg (<[c:=(n + 1)%Z]> cnt) oi ol) as [[cnt1 adm1]|e] eqn:E1;
      cbn in E; [|discriminate].
    injection E as <- <-.
    destruct (IH _ _ _ _ E1) as (Hlen & Hsum & Hbound).
    rewrite length_insert in Hlen. rewrite (Zsum_insert _ _ _ _ Hn) in Hsum.
    repeat split; [assumption | cbn [length]; lia |].
    intros Hall. apply Hbound. apply Forall_insert; [assumption | lia].
  - exact (IH _ _ _ _ E).
Qed.

(** With the labels of the samples beside them, counter [c] ends at its
    start plus the admitted samples of class [c]. *)
Lemma walk_counter_lookup (lab : nat -> nat) (c : nat) oi :
  forall cnt cnt' admitted n,
    Main.walk cfg cnt oi (lab <$> oi) = Return (cnt', admitted) ->
    cnt !! c = Some n ->
    cnt' !! c = Some (n + Z.of_nat (class_count lab c admitted))%Z.
Proof.
  unfold class_count.
  induction oi as [|x oi IH]; intros cnt cnt' adm n E Hn; cbn in E.
  - injection E as <- <-. cbn. rewrite Hn. f_equal. lia.
  - unfold getitem in E.
    destruct (cnt !! lab x) as [k|] eqn:Hk; cbn in E; [|discriminate].
    destruct (Z.ltb_spec k (MINIMUM_CNT cfg)) as [Hlt | Hge].
    + destruct (Main.walk cfg (<[lab x:=(k + 1)%Z]> cnt) oi (lab <$> oi))
        as [[cnt1 adm1]|e] eqn:E1; cbn in E; [|discriminate].
      injection E as <- <-. cbn [map].
      destruct (Nat.eq_dec (lab x) c) as [Hc | Hc].
      * rewrite count_occ_cons_eq by assumption.
        assert (k = n) as -> by (rewrite Hc in Hk; congruence).
        rewrite (IH _ _ _ (n + 1)%Z E1).
        -- f_equal. lia.
        -- rewrite Hc. apply list_lookup_insert_eq. eapply lookup_lt_Some, Hn.
      * rewrite count_occ_cons_neq by assumption.
        eapply IH; [exact E1|]. now rewrite list_lookup_insert_ne.
    + eapply IH; eassumption.
Qed.

Lemma class_count_le_length (lab : nat -> nat) (c : nat) (l : list nat) :
  class_count lab c l <= length l.
Proof.
  unfold class_count. rewrite <- (length_map lab l). apply count_occ_bound.
Qed.

Lemma length_zeros : length zeros = Z.to_nat (CLS_CNT cfg).
Proof. unfold py_range. now rewrite length_map, length_seq. Qed.

Lemma Zsum_zeros : foldr Z.add 0%Z zeros = 0%Z.
Proof.
  unfold py_range. generalize (seq 0 (Z.to_nat (CLS_CNT cfg))) as l.
  induction l as [|x l IH]; cbn; [reflexivity | now rewrite IH].
Qed.

End FloorSelectionMore.

Section FloorSelectionExtras.
Context `{Argsort}.
Variable cfg : config.

Local Abbreviation K := (Main.free_slots cfg).
Local Abbreviation zeros := (map (fun _ : nat => 0%Z) (py_range (CLS_CNT cfg))).

Lemma length_argsort (u : list Q) : length (argsort u) = length u.
Proof. now rewrite (Permutation_length (argsort_perm u)), length_seq. Qed.

(** X7.  One cycle of main.py only appends to the labeled list and only
    removes from the pool: the old labeled list is a prefix of the new one,
    every new entry comes from the old pool, the new pool is part of the
    old one, has no duplicates and shares no index with the new labeled
    list, whatever the two lists were before. *)
Theorem cycle_appends_labeled_and_prunes_pool st st' :
  Main.cycle cfg st st' ->
  st.1 `prefix_of` st'.1 /\
  (forall x, x ∈ st'.1 -> x ∈ st.1 \/ x ∈ st.2) /\
  (forall x, x ∈ st'.2 -> x ∈ st.2) /\
  NoDup st'.2 /\
  (forall x, x ∈ st'.1 -> x ∉ st'.2).
Proof.
  intros [L U u label st1 Hsel]. cbn [fst snd].
  apply select_Return in Hsel as (ol & oi & cnt & adm & _ & Hoi & Hwalk & ->).
  cbn [fst snd].
  apply descending_Return in Hoi as (xs & Hxs & ->).
  assert (Hnew : forall x, x ∈ slice_to (rev xs) K ++ adm -> x ∈ U).
  { intros x Hx. eapply getitems_elem_of; [exact Hxs|].
    rewrite (Permutation_rev xs).
    pose proof (selected_sublist cfg (rev xs) adm (walk_sublist cfg _ _ _ _ _ Hwalk))
      as Hsub.
    apply sublist_submseteq, submseteq_Permutation in Hsub as [k Hk].
    rewrite Hk. apply elem_of_app. now left. }
  repeat split.
  - now eexists.
  - intros x Hx. apply elem_of_app in Hx as [Hx | Hx]; auto.
  - intros x Hx. apply elem_of_elements, elem_of_difference in Hx as [Hx _].
    now apply elem_of_list_to_set in Hx.
  - apply NoDup_elements.
  - intros x Hx Hx'. apply elem_of_elements, elem_of_difference in Hx' as [_ Hx'].
    apply Hx'. now apply elem_of_list_to_set.
Qed.

(** X8.  With a non-negative per-class minimum and
    [MINIMUM_CNT * CLS_CNT <= ADDENDUM], one selection never labels more
    than [ADDENDUM] new samples, whatever scores and labels it is given. *)
Theorem floor_selection_within_budget labeled_set unlabeled_set uncertainty label st' :
  (0 <= MINIMUM_CNT cfg)%Z ->
  (0 <= CLS_CNT cfg)%Z ->
  (MINIMUM_CNT cfg * CLS_CNT cfg <= ADDENDUM cfg)%Z ->
  Main.select cfg labeled_set unlabeled_set uncertainty label = Return st' ->
  (Z.of_nat (length st'.1) <= Z.of_nat (length labeled_set) + ADDENDUM cfg)%Z.
Proof.
  intros Hm HC HK Hsel.
  apply select_Return in Hsel as (ol & oi & cnt & adm & _ & _ & Hwalk & ->).
  cbn [fst]. apply walk_counters in Hwalk as (Hlen & Hsum & Hbound).
  rewrite Zsum_zeros in Hsum. rewrite length_zeros in Hlen.
  assert (Hall : Forall (fun n => (n <= MINIMUM_CNT cfg)%Z) cnt).
  { apply Hbound. apply List.Forall_forall. intros n Hn.
    apply in_map_iff in Hn as (? & <- & _). exact Hm. }
  apply Zsum_bounded in Hall. rewrite Hlen, Z2Nat.id in Hall by assumption.
  assert (Htop : (Z.of_nat (length (slice_to oi K))
                  <= ADDENDUM cfg - MINIMUM_CNT cfg * CLS_CNT cfg)%Z).
  { unfold slice_to. rewrite length_firstn. unfold clip, Main.free_slots.
    destruct (Z.ltb_spec (ADDENDUM cfg - MINIMUM_CNT cfg * CLS_CNT cfg) 0); lia. }
  rewrite !length_app. lia.
Qed.

(** X9.  When the budget is smaller than [MINIMUM_CNT * CLS_CNT] the first
    slice has a negative bound and takes all of the ranking but its last
    [MINIMUM_CNT * CLS_CNT - ADDENDUM] samples: the selection labels at
    least that many, however small [ADDENDUM] is. *)
Theorem floor_selection_overruns_small_budget
    labeled_set unlabeled_set uncertainty label st' :
  (Main.free_slots cfg < 0)%Z ->
  length uncertainty = length unlabeled_set ->
  Main.select cfg labeled_set unlabeled_set uncertainty label = Return st' ->
  length labeled_set + (length unlabeled_set - Z.to_nat (- Main.free_slots cfg))
  <= length st'.1.
Proof.
  intros HK Hlen Hsel.
  apply select_Return in Hsel as (ol & oi & cnt & adm & _ & Hoi & _ & ->).
  cbn [fst]. apply descending_length in Hoi.
  rewrite length_argsort, Hlen in Hoi.
  rewrite !length_app. unfold slice_to. rewrite length_firstn, Hoi.
  unfold clip. destruct (Z.ltb_spec K 0); lia.
Qed.

(** X10.  From an exhausted pool a selection that goes through changes
    neither list, and with no scores it does go through. *)
Theorem selection_from_exhausted_pool labeled_set label :
  Main.select cfg labeled_set [] [] label = Return (labeled_set, []) /\
  (forall uncertainty st',
     Main.select cfg labeled_set [] uncertainty label = Return st' ->
     uncertainty = [] /\ st' = (labeled_set, [])).
Proof.
  assert (Hnil : Main.select cfg labeled_set [] [] label = Return (labeled_set, [])).
  { unfold Main.select.
    assert (Harg : argsort [] = []).
    { apply Permutation_nil. symmetry. apply (argsort_perm []). }
    rewrite Harg. unfold Main.descending.
    cbn [getitems rev mbind result_bind Py.bind].
    unfold slice_from, slice_to. rewrite skipn_nil, firstn_nil.
    cbn [length]. change (py_range (Z.of_nat 0)) with (@nil nat).
    cbn [for_each mbind result_bind Py.bind].
    rewrite app_nil_r. do 2 f_equal.
    apply elements_empty_iff. intros x.
    split; [|intros Hx; now apply elem_of_empty in Hx].
    intros [Hx _]%elem_of_difference. apply elem_of_list_to_set in Hx. inversion Hx. }
  split; [exact Hnil|].
  intros u st' Hsel.
  assert (Hu : u = []).
  { apply select_Return in Hsel as (ol & oi & cnt & adm & _ & Hoi & _).
    apply descending_Return in Hoi as (xs & Hxs & _).
    apply getitems_Return in Hxs.
    destruct (argsort u) as [|k arg] eqn:Harg.
    - apply length_zero_iff_nil. now rewrite <- length_argsort, Harg.
    - inversion Hxs as [|? ? ? ? Hk]; subst. discriminate Hk. }
  subst u. split; [reflexivity|]. congruence.
Qed.

End FloorSelectionExtras.

Lemma cycle_appends_labeled_and_prunes_pool_witness :
  let st := ([0; 1], seq 2 9) in
  let st' := ([0; 1; 2; 3; 4; 5; 6; 7; 8; 9], [10]) in
  st.1 `prefix_of` st'.1 /\
  (forall x, x ∈ st'.1 -> x ∈ st.1 \/ x ∈ st.2) /\
  (forall x, x ∈ st'.2 -> x ∈ st.2) /\
  NoDup st'.2 /\
  (forall x, x ∈ st'.1 -> x ∉ st'.2).
Proof.
  apply (cycle_appends_labeled_and_prunes_pool Demo.cfg_trial).
  apply (Main.cycle_select Demo.cfg_trial [0; 1] (seq 2 9)
           (Demo.score <$> seq 2 9) (Demo.lab_trial <$> seq 2 9)).
  vm_compute. reflexivity.
Defined.

Lemma floor_selection_within_budget_witness :
  (Z.of_nat (length ([12; 13; 0; 1; 2; 3; 4; 8; 9; 10], [6; 5; 11; 7]).1)
   <= Z.of_nat (length [12; 13]) + ADDENDUM Demo.cfg)%Z.
Proof.
  apply (floor_selection_within_budget Demo.cfg [12; 13] Demo.pool
           (Demo.score <$> Demo.pool) (Demo.lab <$> Demo.pool)
           ([12; 13; 0; 1; 2; 3; 4; 8; 9; 10], [6; 5; 11; 7])).
  - cbn. lia.
  - cbn. lia.
  - cbn. lia.
  - vm_compute. reflexivity.
Defined.

Lemma floor_selection_overruns_small_budget_witness :
  length [12; 13] + (length Demo.pool - Z.to_nat (- Main.free_slots Demo.cfg_small))
  <= length ([12; 13; 0; 1; 2; 3; 4; 5; 6; 7; 8; 9; 10; 11], @nil nat).1.
Proof.
  apply (floor_selection_overruns_small_budget Demo.cfg_small [12; 13] Demo.pool
           (Demo.score <$> Demo.pool) (Demo.lab <$> Demo.pool)
           ([12; 13; 0; 1; 2; 3; 4; 5; 6; 7; 8; 9; 10; 11], [])).
  - vm_compute. reflexivity.
  - reflexivity.
  - vm_compute. reflexivity.
Defined.

Lemma selection_from_exhausted_pool_witness :
  Main.select Demo.cfg [12; 13] [] [] [] = Return ([12; 13], []) /\
  (Main.select Demo.cfg [12; 13] [] [] [] = Return ([12; 13], []) ->
   @nil Q = [] /\ ([12; 13], @nil nat) = ([12; 13], [])).
Proof.
  destruct (selection_from_exhausted_pool Demo.cfg [12; 13] []) as [Hreturns Honly].
  split; [exact Hreturns|]. apply Honly.
Defined.

Section FloorSelectionSpends.
Context `{Argsort}.
Variable cfg : config.
Variable lab : nat -> nat.

Local Abbreviation K := (Main.free_slots cfg).
Local Abbreviation zeros := (map (fun _ : nat => 0%Z) (py_range (CLS_CNT cfg))).

(** X11.  With at least one class, [0 <= MINIMUM_CNT],
    [MINIMUM_CNT * CLS_CNT <= ADDENDUM] and a pool that holds at least
    [ADDENDUM - MINIMUM_CNT * CLS_CNT + MINIMUM_CNT] samples of every
    class, one selection labels exactly [ADDENDUM] new samples. *)
Theorem floor_selection_spends_budget labeled_set unlabeled_set uncertainty :
  (0 <= MINIMUM_CNT cfg)%Z ->
  (0 < CLS_CNT cfg)%Z ->
  (MINIMUM_CNT cfg * CLS_CNT cfg <= ADDENDUM cfg)%Z ->
  length uncertainty = length unlabeled_set ->
  (forall x, x ∈ unlabeled_set -> (Z.of_nat (lab x) < CLS_CNT cfg)%Z) ->
  (forall c, (Z.of_nat c < CLS_CNT cfg)%Z ->
     (Main.free_slots cfg + MINIMUM_CNT cfg
      <= Z.of_nat (class_count lab c unlabeled_set))%Z) ->
  exists new unlabeled_set',
    Main.select cfg labeled_set unlabeled_set uncertainty (lab <$> unlabeled_set)
    = Return (labeled_set ++ new, unlabeled_set') /\
    Z.of_nat (length new) = ADDENDUM cfg.
Proof.
  intros Hm HC HK Hlen Hlab Hmany.
  destruct (select_aligned cfg lab labeled_set unlabeled_set uncertainty Hlen Hlab)
    as (oi & cnt & adm & _ & Hperm & Hwalk & Hsel).
  exists (slice_to oi K ++ adm). eexists. split; [exact Hsel|].
  assert (HK0 : (0 <= K)%Z) by (unfold Main.free_slots; lia).
  (* the pool is large enough for the free slots *)
  assert (Hpool : (K <= Z.of_nat (length oi))%Z).
  { pose proof (Hmany 0 ltac:(lia)) as H0.
    pose proof (class_count_le_length lab 0 unlabeled_set).
    rewrite (Permutation_length Hperm). lia. }
  assert (Htop : Z.of_nat (length (slice_to oi K)) = K).
  { unfold slice_to. rewrite length_firstn. unfold clip.
    destruct (Z.ltb_spec K 0); lia. }
  (* every class has enough samples left in the rest *)
  assert (Hrest : forall c, (Z.of_nat c < CLS_CNT cfg)%Z ->
            (MINIMUM_CNT cfg <= Z.of_nat (class_count lab c (slice_from oi K)))%Z).
  { intros c Hc. specialize (Hmany c Hc).
    rewrite <- (class_count_perm lab c _ _ Hperm) in Hmany.
    rewrite <- (slice_to_from oi K), class_count_app in Hmany.
    pose proof (class_count_le_length lab c (slice_to oi K)). lia. }
  (* so every counter ends at [MINIMUM_CNT] *)
  pose proof (walk_counters cfg _ _ _ _ _ Hwalk) as (Hclen & Hsum & _).
  rewrite Zsum_zeros in Hsum. rewrite length_zeros in Hclen.
  assert (Hall : Forall (fun n => n = MINIMUM_CNT cfg) cnt).
  { apply Forall_lookup. intros c n Hn.
    assert (Hc : (Z.of_nat c < CLS_CNT cfg)%Z).
    { apply lookup_lt_Some in Hn. lia. }
    pose proof (walk_counter_lookup cfg lab c _ _ _ _ 0%Z Hwalk (zeros_lookup cfg c Hc))
      as Hn'.
    rewrite (walk_class_count cfg lab c _ _ _ _ 0%Z Hwalk (zeros_lookup cfg c Hc)) in Hn'.
    specialize (Hrest c Hc). rewrite Hn in Hn'. injection Hn' as ->. lia. }
  apply Zsum_constant in Hall. rewrite Hclen in Hall.
  rewrite length_app. unfold Main.free_slots in *. lia.
Qed.

End FloorSelectionSpends.

Lemma floor_selection_spends_budget_witness :
  exists new unlabeled_set',
    Main.select Demo.cfg_five [12; 13] Demo.pool (Demo.score <$> Demo.pool)
      (Demo.lab_mod <$> Demo.pool)
    = Return ([12; 13] ++ new, unlabeled_set') /\
    Z.of_nat (length new) = ADDENDUM Demo.cfg_five.
Proof.
  apply (floor_selection_spends_budget Demo.cfg_five Demo.lab_mod [12; 13] Demo.pool
           (Demo.score <$> Demo.pool)).
  - cbn. lia.
  - cbn. lia.
  - cbn. lia.
  - reflexivity.
  - intros x Hx.
    pose proof (demo_labels_are_classes Demo.lab_mod
                  ltac:(apply (bool_decide_unpack _); vm_compute; reflexivity) x Hx).
    change (CLS_CNT Demo.cfg_five) with 4%Z. lia.
  - intros c Hc. change (CLS_CNT Demo.cfg_five) with 4%Z in Hc.
    do 4 (destruct c as [|c]; [vm_compute; discriminate|]). lia.
Defined.

(* ===================================================================== *)
(** ** [bias_test_ll4al.py]: more on Top-B and on what is pickled         *)
(* ===================================================================== *)

Section TopBMore.
Context `{Argsort}.
Variable cfg : config.

(** [Counter(labels)[c]] is the number of occurrences of [c], and [c] is a
    key only if it occurs. *)
Lemma Counter_from (labels : list nat) : forall (m : gmap nat nat) (c : nat),
  fold_left (fun m c => <[c := S (default 0 (m !! c))]> m) labels m !! c
  = match count_occ Nat.eq_dec labels c with
    | 0 => m !! c
    | S n => Some (default 0 (m !! c) + S n)
    end.
Proof.
  induction labels as [|x labels IH]; intros m c; [reflexivity|].
  cbn [fold_left]. rewrite IH. destruct (Nat.eq_dec x c) as [-> | Hx].
  - rewrite count_occ_cons_eq by reflexivity. rewrite lookup_insert_eq. cbn.
    destruct (count_occ Nat.eq_dec labels c); f_equal; lia.
  - rewrite count_occ_cons_neq by assumption. now rewrite lookup_insert_ne.
Qed.

Lemma Counter_lookup (labels : list nat) (c : nat) :
  BiasTest.Counter labels !! c
  = match count_occ Nat.eq_dec labels c with
    | 0 => None
    | S n => Some (S n)
    end.
Proof. unfold BiasTest.Counter. rewrite Counter_from, lookup_empty. reflexivity. Qed.

(** The samples in [argsort] order of their scores are in ascending order
    of score. *)
Lemma ascending_by_score (score : nat -> Q) (subset xs : list nat) :
  getitems subset (argsort (score <$> subset)) = Return xs ->
  StronglySorted (fun a b => score a <= score b)%Q xs.
Proof.
  intros Hxs. pose proof (argsort_sorted (score <$> subset)) as Hs.
  rewrite (keys_getitems _ _ _ _ Hxs) in Hs. clear Hxs.
  induction xs as [|x xs IH]; [constructor|].
  cbn in Hs. apply StronglySorted_cons in Hs as [Hall Hs].
  constructor; [now apply IH|]. now rewrite Forall_fmap in Hall.
Qed.

(** The whole result of one Top-B update, for arrays of the size of the
    pool. *)
Lemma top_b_unfolded labeled_set subset uncertainty labels
    real_uncertainty real_labels :
  length uncertainty = length subset ->
  length labels = length subset ->
  length real_uncertainty = length subset ->
  length real_labels = length subset ->
  exists xs ls rxs rls,
    getitems subset (argsort uncertainty) = Return xs /\
    getitems labels (argsort uncertainty) = Return ls /\
    getitems subset (argsort real_uncertainty) = Return rxs /\
    getitems real_labels (argsort real_uncertainty) = Return rls /\
    xs ≡ₚ subset /\ rxs ≡ₚ subset /\
    BiasTest.select cfg labeled_set subset uncertainty labels
      real_uncertainty real_labels
    = Return ((labeled_set ++ slice_from xs (- ADDENDUM cfg),
               slice_to xs (- ADDENDUM cfg)),
              BiasTest.Dump (slice_from xs (- ADDENDUM cfg))
                (BiasTest.Counter (slice_from ls (- ADDENDUM cfg)))
                (slice_from rxs (-5000))
                (BiasTest.Counter (slice_from rls (-5000)))).
Proof.
  intros Hu Hl Hru Hrl.
  pose proof (argsort_perm uncertainty) as Harg. rewrite Hu in Harg.
  pose proof (argsort_perm real_uncertainty) as Hrarg. rewrite Hru in Hrarg.
  destruct (getitems_total subset _ Harg) as [xs Hxs].
  destruct (getitems_total labels (argsort uncertainty)) as [ls Hls];
    [now rewrite Hl|].
  destruct (getitems_total subset _ Hrarg) as [rxs Hrxs].
  destruct (getitems_total real_labels (argsort real_uncertainty)) as [rls Hrls];
    [now rewrite Hrl|].
  exists xs, ls, rxs, rls. repeat split; try assumption.
  - exact (getitems_perm _ _ _ Harg Hxs).
  - exact (getitems_perm _ _ _ Hrarg Hrxs).
  - unfold BiasTest.select. rewrite Hls, Hxs, Hrls, Hrxs. reflexivity.
Qed.

End TopBMore.

Section TopBExtras.
Context `{Argsort}.
Variable cfg : config.

(** X12.  Top-B loses and duplicates no sample for any value of [ADDENDUM],
    but the number of samples that stay in the pool follows the slice
    [[:-ADDENDUM]]: [P - ADDENDUM] of them for a positive budget (none once
    the budget reaches the pool size [P]), none at all for a budget of 0,
    and only the [-ADDENDUM] lowest-scoring ones for a negative budget.  No
    budget makes the update fail. *)
Theorem top_b_for_any_budget labeled_set subset uncertainty labels
    real_uncertainty real_labels :
  length uncertainty = length subset ->
  length labels = length subset ->
  length real_uncertainty = length subset ->
  length real_labels = length subset ->
  exists selected unlabeled_set' pickled,
    BiasTest.select cfg labeled_set subset uncertainty labels
      real_uncertainty real_labels
    = Return ((labeled_set ++ selected, unlabeled_set'), pickled) /\
    selected ++ unlabeled_set' ≡ₚ subset /\
    ((0 < ADDENDUM cfg)%Z ->
     length unlabeled_set' = length subset - Z.to_nat (ADDENDUM cfg)) /\
    (ADDENDUM cfg = 0%Z -> unlabeled_set' = []) /\
    ((ADDENDUM cfg < 0)%Z ->
     length unlabeled_set' = Nat.min (Z.to_nat (- ADDENDUM cfg)) (length subset)).
Proof.
  intros Hu Hl Hru Hrl.
  destruct (top_b_unfolded cfg labeled_set subset uncertainty labels
              real_uncertainty real_labels Hu Hl Hru Hrl)
    as (xs & ls & rxs & rls & _ & _ & _ & _ & Hperm & _ & Hsel).
  eexists _, _, _. split; [exact Hsel|].
  assert (Hn : length xs = length subset) by now rewrite Hperm.
  split; [|split; [|split]].
  - now rewrite Permutation_app_comm, slice_to_from.
  - intros HB. unfold slice_to. rewrite length_firstn, Hn. unfold clip.
    destruct (Z.ltb_spec (- ADDENDUM cfg) 0); lia.
  - intros ->. reflexivity.
  - intros HB. unfold slice_to. rewrite length_firstn, Hn. unfold clip.
    destruct (Z.ltb_spec (- ADDENDUM cfg) 0); lia.
Qed.

(** X13.  The pickled histograms are the class histograms of the pickled
    samples: with the true label of every pool sample in [labels] and in
    [real_labels], [label_cnt[c]] is the number of samples of class [c] in
    [samples] and [real_label_cnt[c]] that in [real_samples]; a class
    without a sample is no key.  [samples] are the samples appended to the
    labeled list. *)
Theorem top_b_pickles_class_histograms (lab : nat -> nat)
    labeled_set subset uncertainty real_uncertainty :
  length uncertainty = length subset ->
  length real_uncertainty = length subset ->
  exists unlabeled_set' pickled,
    BiasTest.select cfg labeled_set subset uncertainty (lab <$> subset)
      real_uncertainty (lab <$> subset)
    = Return ((labeled_set ++ BiasTest.samples pickled, unlabeled_set'), pickled) /\
    (forall c, BiasTest.label_cnt pickled !! c
               = match class_count lab c (BiasTest.samples pickled) with
                 | 0 => None
                 | S n => Some (S n)
                 end) /\
    (forall c, BiasTest.real_label_cnt pickled !! c
               = match class_count lab c (BiasTest.real_samples pickled) with
                 | 0 => None
                 | S n => Some (S n)
                 end).
Proof.
  intros Hu Hru.
  destruct (top_b_unfolded cfg labeled_set subset uncertainty (lab <$> subset)
              real_uncertainty (lab <$> subset) Hu ltac:(apply length_fmap)
              Hru ltac:(apply length_fmap))
    as (xs & ls & rxs & rls & Hxs & Hls & Hrxs & Hrls & _ & _ & Hsel).
  rewrite (getitems_fmap lab _ _ _ Hxs) in Hls. injection Hls as <-.
  rewrite (getitems_fmap lab _ _ _ Hrxs) in Hrls. injection Hrls as <-.
  exists (slice_to xs (- ADDENDUM cfg)),
    (BiasTest.Dump (slice_from xs (- ADDENDUM cfg))
       (BiasTest.Counter (slice_from (lab <$> xs) (- ADDENDUM cfg)))
       (slice_from rxs (-5000))
       (BiasTest.Counter (slice_from (lab <$> rxs) (-5000)))).
  split; [exact Hsel|]. cbn [BiasTest.samples BiasTest.label_cnt
                             BiasTest.real_samples BiasTest.real_label_cnt].
  assert (Hcut : forall (l : list nat) k,
            slice_from (lab <$> l) k = lab <$> slice_from l k).
  { intros l k. unfold slice_from. rewrite length_fmap. apply skipn_map. }
  split; intros c; rewrite Counter_lookup, Hcut; reflexivity.
Qed.

(** X14.  [real_samples] are the [min(5000, P)] samples of the pool with
    the highest true losses, whatever [ADDENDUM] is: with the true loss of
    every pool sample in [real_uncertainty], no sample left out has a
    higher true loss than a pickled one. *)
Theorem top_b_pickles_highest_true_losses (real_score : nat -> Q)
    labeled_set subset uncertainty labels real_labels :
  length uncertainty = length subset ->
  length labels = length subset ->
  length real_labels = length subset ->
  exists lists pickled rest,
    BiasTest.select cfg labeled_set subset uncertainty labels
      (real_score <$> subset) real_labels
    = Return (lists, pickled) /\
    Z.of_nat (length (BiasTest.real_samples pickled))
    = Z.min 5000 (Z.of_nat (length subset)) /\
    BiasTest.real_samples pickled ++ rest ≡ₚ subset /\
    (forall x y, x ∈ BiasTest.real_samples pickled -> y ∈ rest ->
       (real_score y <= real_score x)%Q).
Proof.
  intros Hu Hl Hrl.
  destruct (top_b_unfolded cfg labeled_set subset uncertainty labels
              (real_score <$> subset) real_labels Hu Hl ltac:(apply length_fmap) Hrl)
    as (xs & ls & rxs & rls & _ & _ & Hrxs & _ & _ & Hperm & Hsel).
  exists (labeled_set ++ slice_from xs (- ADDENDUM cfg), slice_to xs (- ADDENDUM cfg)).
  eexists. exists (slice_to rxs (-5000)). split; [exact Hsel|].
  cbn [BiasTest.real_samples].
  assert (Hn : length rxs = length subset) by now rewrite Hperm.
  pose proof (slice_to_from rxs (-5000)) as Hcut.
  split; [|split].
  - unfold slice_from. rewrite length_skipn, Hn. unfold clip.
    change (-5000 <? 0)%Z with true. cbv iota.
    change (- -5000)%Z with 5000%Z. lia.
  - now rewrite Permutation_app_comm, Hcut.
  - intros x y Hx Hy. pose proof (ascending_by_score real_score subset rxs Hrxs) as Hs.
    rewrite <- Hcut in Hs.
    exact (StronglySorted_app_1_elem_of _ _ _ _ _ Hs Hy Hx).
Qed.

End TopBExtras.

Lemma top_b_for_any_budget_witness :
  exists selected unlabeled_set' pickled,
    BiasTest.select Demo.cfg_top3 [10; 11] (seq 0 10)
      (BiasTest.scenario_score <$> seq 0 10) (Demo.lab <$> seq 0 10)
      (Demo.score <$> seq 0 10) (Demo.lab <$> seq 0 10)
    = Return (([10; 11] ++ selected, unlabeled_set'), pickled) /\
    selected ++ unlabeled_set' ≡ₚ seq 0 10 /\
    ((0 < ADDENDUM Demo.cfg_top3)%Z ->
     length unlabeled_set' = length (seq 0 10) - Z.to_nat (ADDENDUM Demo.cfg_top3)) /\
    (ADDENDUM Demo.cfg_top3 = 0%Z -> unlabeled_set' = []) /\
    ((ADDENDUM Demo.cfg_top3 < 0)%Z ->
     length unlabeled_set'
     = Nat.min (Z.to_nat (- ADDENDUM Demo.cfg_top3)) (length (seq 0 10))).
Proof.
  apply (top_b_for_any_budget Demo.cfg_top3 [10; 11] (seq 0 10)); reflexivity.
Defined.

Lemma top_b_pickles_class_histograms_witness :
  exists unlabeled_set' pickled,
    BiasTest.select Demo.cfg_top3 [10; 11] (seq 0 10)
      (BiasTest.scenario_score <$> seq 0 10) (Demo.lab <$> seq 0 10)
      (Demo.score <$> seq 0 10) (Demo.lab <$> seq 0 10)
    = Return (([10; 11] ++ BiasTest.samples pickled, unlabeled_set'), pickled) /\
    (forall c, BiasTest.label_cnt pickled !! c
               = match class_count Demo.lab c (BiasTest.samples pickled) with
                 | 0 => None
                 | S n => Some (S n)
                 end) /\
    (forall c, BiasTest.real_label_cnt pickled !! c
               = match class_count Demo.lab c (BiasTest.real_samples pickled) with
                 | 0 => None
                 | S n => Some (S n)
                 end).
Proof.
  apply (top_b_pickles_class_histograms Demo.cfg_top3 Demo.lab [10; 11] (seq 0 10));
    reflexivity.
Defined.

Lemma top_b_pickles_highest_true_losses_witness :
  exists lists pickled rest,
    BiasTest.select Demo.cfg_top3 [10; 11] (seq 0 10)
      (BiasTest.scenario_score <$> seq 0 10) (Demo.lab <$> seq 0 10)
      (Demo.score <$> seq 0 10) (Demo.lab <$> seq 0 10)
    = Return (lists, pickled) /\
    Z.of_nat (length (BiasTest.real_samples pickled))
    = Z.min 5000 (Z.of_nat (length (seq 0 10))) /\
    BiasTest.real_samples pickled ++ rest ≡ₚ seq 0 10 /\
    (forall x y, x ∈ BiasTest.real_samples pickled -> y ∈ rest ->
       (Demo.score y <= Demo.score x)%Q).
Proof.
  apply (top_b_pickles_highest_true_losses Demo.cfg_top3 Demo.score [10; 11] (seq 0 10));
    reflexivity.
Defined.

(* ===================================================================== *)
(** ** The scorers and the selections they feed                           *)
(* ===================================================================== *)

Section ScorerAlignment.
Context `{Networks}.

Local Abbreviation labels_of loader := (concat (map snd loader)).

Lemma main_score_batch_arrays criterion (loader : list (Inputs * list nat)) :
  (forall b inputs labels, (inputs, labels) ∈ loader ->
     length (criterion (backbone_forward b inputs).1.1 labels) = length labels) ->
  forall acc models,
    let r := fold_left (Main.score_batch criterion) loader (acc, models) in
    r.1.2 = acc.2 ++ labels_of loader /\
    length r.1.1 = length acc.1 + length (labels_of loader).
Proof.
  induction loader as [|[inputs labels] loader IH]; intros Hc [u l] models r.
  - subst r. cbn. rewrite app_nil_r. split; [reflexivity | lia].
  - subst r. cbn [fold_left].
    assert (Hstep : Main.score_batch criterion (u, l, models) (inputs, labels)
                    = ((u ++ criterion (backbone_forward (backbone models) inputs).1.1 labels,
                        l ++ labels),
                       Models (backbone_forward (backbone models) inputs).2 (module models))).
    { unfold Main.score_batch.
      now destruct (backbone_forward (backbone models) inputs) as [[scores features] b']. }
    rewrite Hstep. clear Hstep.
    pose proof (Hc (backbone models) inputs labels ltac:(left)) as Hlen.
    destruct (backbone_forward (backbone models) inputs) as [[scores features] b'].
    cbn [fst snd] in Hlen |- *.
    destruct (IH ltac:(intros; apply Hc; now right)
                (u ++ criterion scores labels, l ++ labels) (Models b' (module models)))
      as [E1 E2].
    cbn zeta in E1, E2. rewrite E1, E2. cbn [fst snd map concat].
    rewrite <- app_assoc, !length_app, Hlen. split; [reflexivity | lia].
Qed.

Lemma bias_score_batch_arrays (loader : list (Inputs * list nat)) :
  (forall b m inputs labels, (inputs, labels) ∈ loader ->
     length (module_forward m (backbone_forward b inputs).1.2).1 = length labels) ->
  forall acc models,
    let r := fold_left BiasTest.score_batch loader (acc, models) in
    r.1.2 = acc.2 ++ labels_of loader /\
    length r.1.1 = length acc.1 + length (labels_of loader).
Proof.
  induction loader as [|[inputs labels] loader IH]; intros Hc [u l] models r.
  - subst r. cbn. rewrite app_nil_r. split; [reflexivity | lia].
  - subst r. cbn [fold_left].
    assert (Hstep : BiasTest.score_batch (u, l, models) (inputs, labels)
                    = let f := (backbone_forward (backbone models) inputs).1.2 in
                      ((u ++ (module_forward (module models) f).1, l ++ labels),
                       Models (backbone_forward (backbone models) inputs).2
                         (module_forward (module models) f).2)).
    { unfold BiasTest.score_batch.
      destruct (backbone_forward (backbone models) inputs) as [[scores features] b'].
      cbn [fst snd]. now destruct (module_forward (module models) features). }
    rewrite Hstep. clear Hstep. cbn zeta.
    pose proof (Hc (backbone models) (module models) inputs labels ltac:(left)) as Hlen.
    destruct (backbone_forward (backbone models) inputs) as [[scores features] b'].
    cbn [fst snd] in Hlen |- *.
    destruct (module_forward (module models) features) as [pred_loss m'].
    cbn [fst snd] in Hlen |- *.
    destruct (IH ltac:(intros; apply Hc; now right)
                (u ++ pred_loss, l ++ labels) (Models b' m'))
      as [E1 E2].
    cbn zeta in E1, E2. rewrite E1, E2. cbn [fst snd map concat].
    rewrite <- app_assoc, !length_app, Hlen. split; [reflexivity | lia].
Qed.

(** X15.  The three scorers ([get_uncertainty] of main.py and of
    bias_test_ll4al.py, and [get_real_uncertainty]) return the labels of
    the loader, batch after batch, as their label array, and one score
    for each of them, when the criterion and the loss module give one
    value per sample of a batch. *)
Theorem scorers_return_one_score_per_label models loader criterion :
  (forall b inputs labels, (inputs, labels) ∈ loader ->
     length (criterion (backbone_forward b inputs).1.1 labels) = length labels) ->
  (forall b m inputs labels, (inputs, labels) ∈ loader ->
     length (module_forward m (backbone_forward b inputs).1.2).1 = length labels) ->
  let main := (Main.get_uncertainty models loader criterion).1 in
  let bias := (BiasTest.get_uncertainty models loader).1 in
  let real := (BiasOracle.get_real_uncertainty models loader criterion).1 in
  main.2 = labels_of loader /\ length main.1 = length (labels_of loader) /\
  bias.2 = labels_of loader /\ length bias.1 = length (labels_of loader) /\
  real.2 = labels_of loader /\ length real.1 = length (labels_of loader).
Proof.
  intros Hc Hm.
  pose proof (main_score_batch_arrays criterion loader Hc) as Hmain.
  pose proof (bias_score_batch_arrays loader Hm) as Hbias.
  cbn zeta.
  unfold Main.get_uncertainty, BiasTest.get_uncertainty, BiasOracle.get_real_uncertainty.
  change (@BiasOracle.score_batch _) with (@Main.score_batch _).
  repeat split; first [apply (Hmain ([], [])) | apply (Hbias ([], []))].
Qed.

End ScorerAlignment.

Lemma scorers_return_one_score_per_label_witness :
  let labels := concat (map snd Demo.loader) in
  let main := (@Main.get_uncertainty Demo.networks Demo.models Demo.loader Demo.criterion).1 in
  let bias := (@BiasTest.get_uncertainty Demo.networks Demo.models Demo.loader).1 in
  let real :=
    (@BiasOracle.get_real_uncertainty Demo.networks Demo.models Demo.loader
       Demo.criterion).1 in
  main.2 = labels /\ length main.1 = length labels /\
  bias.2 = labels /\ length bias.1 = length labels /\
  real.2 = labels /\ length real.1 = length labels.
Proof.
  apply (@scorers_return_one_score_per_label Demo.networks Demo.models Demo.loader
           Demo.criterion).
  - intros b inputs labels Hin. apply list_elem_of_In in Hin.
    destruct Hin as [E | [E | []]]; injection E as <- <-; reflexivity.
  - intros b m inputs labels Hin. apply list_elem_of_In in Hin.
    destruct Hin as [E | [E | []]]; injection E as <- <-; reflexivity.
Defined.

Section SelectionErrors.
Context `{Argsort}.
Variable cfg : config.
Variable lab : nat -> nat.

Local Abbreviation K := (Main.free_slots cfg).
Local Abbreviation zeros := (map (fun _ : nat => 0%Z) (py_range (CLS_CNT cfg))).

(** A label that is no index of [cnt_lst] stops the loop, admitted or not. *)
Lemma walk_unknown_class oi : forall ol cnt,
  length ol = length oi ->
  Exists (fun c => length cnt <= c) ol ->
  Main.walk cfg cnt oi ol = Raise IndexError.
Proof.
  induction oi as [|x oi IH]; intros [|c ol] cnt Hlen Hex; try discriminate Hlen.
  - inversion Hex.
  - cbn [Main.walk]. unfold getitem. destruct (cnt !! c) as [n|] eqn:Hn; [|reflexivity].
    apply Exists_cons in Hex as [Hc | Hex].
    { apply lookup_lt_Some in Hn. lia. }
    injection Hlen as Hlen. cbn [mbind result_bind Py.bind].
    destruct (n <? MINIMUM_CNT cfg)%Z.
    + rewrite IH; [reflexivity | assumption | now rewrite length_insert].
    + now apply IH.
Qed.

(** X16.  With one score per pool sample, a selection of main.py fails
    exactly when a sample below the first [ADDENDUM - MINIMUM_CNT *
    CLS_CNT] of the ranking has a label that is no class index, and then
    with IndexError; the labels of the samples taken by the first slice
    are never looked at. *)
Theorem selection_fails_exactly_on_unknown_class
    labeled_set unlabeled_set uncertainty :
  length uncertainty = length unlabeled_set ->
  exists ordered_index,
    Main.descending unlabeled_set (argsort uncertainty) = Return ordered_index /\
    (Forall (fun x => (Z.of_nat (lab x) < CLS_CNT cfg)%Z)
       (slice_from ordered_index K) ->
     exists st',
       Main.select cfg labeled_set unlabeled_set uncertainty (lab <$> unlabeled_set)
       = Return st') /\
    (Exists (fun x => (CLS_CNT cfg <= Z.of_nat (lab x))%Z)
       (slice_from ordered_index K) ->
     Main.select cfg labeled_set unlabeled_set uncertainty (lab <$> unlabeled_set)
     = Raise IndexError).
Proof.
  intros Hlen.
  pose proof (argsort_perm uncertainty) as Harg. rewrite Hlen in Harg.
  destruct (getitems_total unlabeled_set _ Harg) as [xs Hxs].
  assert (Hoi : Main.descending unlabeled_set (argsort uncertainty) = Return (rev xs)).
  { apply descending_Return. now exists xs. }
  assert (Hol : Main.descending (lab <$> unlabeled_set) (argsort uncertainty)
                = Return (lab <$> rev xs)).
  { apply descending_Return. exists (lab <$> xs).
    split; [now apply getitems_fmap|]. apply map_rev. }
  assert (Htail : slice_from (lab <$> rev xs) K = lab <$> slice_from (rev xs) K).
  { unfold slice_from. rewrite length_fmap. apply skipn_map. }
  assert (Hzeros : length zeros = Z.to_nat (CLS_CNT cfg)).
  { unfold py_range. now rewrite length_map, length_seq. }
  exists (rev xs). split; [exact Hoi|].
  rewrite select_walk, Hol, Hoi. cbn [mbind result_bind Py.bind]. rewrite Htail.
  split.
  - intros Hall.
    destruct (walk_total cfg (slice_from (rev xs) K) (lab <$> slice_from (rev xs) K) zeros)
      as [[cnt adm] Hwalk].
    { apply Forall_fmap. eapply Forall_impl; [exact Hall|].
      intros x Hx. unfold compose. cbv beta in Hx |- *. rewrite Hzeros. lia. }
    rewrite Hwalk. now eexists.
  - intros Hex.
    rewrite (walk_unknown_class (slice_from (rev xs) K) (lab <$> slice_from (rev xs) K) zeros);
      [reflexivity | apply length_fmap |].
    apply Exists_fmap. eapply Exists_impl; [exact Hex|].
    intros x Hx. unfold compose. cbv beta in Hx |- *. rewrite Hzeros. lia.
Qed.

End SelectionErrors.

Lemma selection_fails_exactly_on_unknown_class_witness :
  (exists st',
     Main.select Demo.cfg [12; 13] Demo.pool (Demo.score <$> Demo.pool)
       (Demo.lab <$> Demo.pool)
     = Return st') /\
  Main.select Demo.cfg [12; 13] Demo.pool (Demo.score <$> Demo.pool)
    (DemoRun.lab_unknown <$> Demo.pool)
  = Raise IndexError.
Proof.
  split.
  - destruct (selection_fails_exactly_on_unknown_class Demo.cfg Demo.lab [12; 13]
                Demo.pool (Demo.score <$> Demo.pool))
      as (ordered_index & Hranked & Hreturns & _); [reflexivity|].
    apply Hreturns. vm_compute in Hranked. injection Hranked as <-.
    apply (bool_decide_unpack _). vm_compute. reflexivity.
  - destruct (selection_fails_exactly_on_unknown_class Demo.cfg DemoRun.lab_unknown
                [12; 13] Demo.pool (Demo.score <$> Demo.pool))
      as (ordered_index & Hranked & _ & Hraises); [reflexivity|].
    apply Hraises. vm_compute in Hranked. injection Hranked as <-.
    apply (bool_decide_unpack _). vm_compute. reflexivity.
Defined.

Section CycleFacts.
Context `{Networks} `{Argsort}.
Variable cfg : config.
Variable lab : nat -> nat.

(** X17.  In a cycle of main.py the scorer hands the selection what it
    needs: when the loader goes through the pool in the order of
    [unlabeled_set] with the true labels, the criterion gives one loss
    per sample and every label is a class index, scoring followed by
    selection returns; what it labels comes from the pool, and what it
    leaves in the pool was there and is not labeled. *)
Theorem main_cycle_scores_then_selects models loader criterion
    labeled_set unlabeled_set :
  concat (map snd loader) = lab <$> unlabeled_set ->
  (forall b inputs labels, (inputs, labels) ∈ loader ->
     length (criterion (backbone_forward b inputs).1.1 labels) = length labels) ->
  (forall x, x ∈ unlabeled_set -> (Z.of_nat (lab x) < CLS_CNT cfg)%Z) ->
  exists new unlabeled_set' models',
    MainCycle.score_and_select cfg models loader criterion labeled_set unlabeled_set
    = Return ((labeled_set ++ new, unlabeled_set'), models') /\
    (forall x, x ∈ new -> x ∈ unlabeled_set) /\
    (forall x, x ∈ unlabeled_set' -> x ∈ unlabeled_set /\ x ∉ labeled_set ++ new).
Proof.
  intros Hloader Hcrit Hlab.
  unfold MainCycle.score_and_select.
  destruct (main_score_batch_arrays criterion loader Hcrit ([], [])
              (Models (eval (backbone models)) (eval (module models))))
    as [Hl Hu].
  change (fold_left (Main.score_batch criterion) loader
            ([], [], Models (eval (backbone models)) (eval (module models))))
    with (Main.get_uncertainty models loader criterion) in Hl, Hu.
  destruct (Main.get_uncertainty models loader criterion) as [[u l] models'].
  cbn [fst snd app length] in Hl, Hu. rewrite Hloader in Hl, Hu.
  rewrite length_fmap in Hu. subst l.
  destruct (select_aligned cfg lab labeled_set unlabeled_set u Hu Hlab)
    as (oi & cnt & adm & _ & Hperm & Hwalk & Hsel).
  rewrite Hsel. cbn [mbind result_bind Py.bind].
  exists (slice_to oi (Main.free_slots cfg) ++ adm). eexists _, models'.
  split; [reflexivity|]. split.
  - intros x Hx. rewrite <- Hperm.
    pose proof (selected_sublist cfg oi adm (walk_sublist cfg _ _ _ _ _ Hwalk)) as Hsub.
    apply sublist_submseteq, submseteq_Permutation in Hsub as [k Hk].
    rewrite Hk. apply elem_of_app. now left.
  - intros x Hx. apply elem_of_elements, elem_of_difference in Hx as [Hx Hx'].
    split; [now apply elem_of_list_to_set in Hx|].
    intros Hin. apply Hx'. now apply elem_of_list_to_set.
Qed.

(** X18.  In a cycle of bias_test_ll4al.py the two scorers run on the same
    loader hand Top-B arrays of the size of the pool, when the loss
    module and the criterion give one value per sample: scoring followed
    by the update returns, the samples it labels and those it leaves are
    the pool rearranged, and the pickled [samples] are the labeled ones. *)
Theorem bias_cycle_scores_then_selects models loader criterion labeled_set subset :
  length (concat (map snd loader)) = length subset ->
  (forall b inputs labels, (inputs, labels) ∈ loader ->
     length (criterion (backbone_forward b inputs).1.1 labels) = length labels) ->
  (forall b m inputs labels, (inputs, labels) ∈ loader ->
     length (module_forward m (backbone_forward b inputs).1.2).1 = length labels) ->
  exists selected unlabeled_set' pickled models',
    BiasCycle.score_and_select cfg models loader criterion labeled_set subset
    = Return (((labeled_set ++ selected, unlabeled_set'), pickled), models') /\
    selected ++ unlabeled_set' ≡ₚ subset /\
    BiasTest.samples pickled = selected.
Proof.
  intros Hloader Hcrit Hmod.
  unfold BiasCycle.score_and_select.
  destruct (bias_score_batch_arrays loader Hmod ([], [])
              (Models (eval (backbone models)) (eval (module models))))
    as [Hl Hu].
  change (fold_left BiasTest.score_batch loader
            ([], [], Models (eval (backbone models)) (eval (module models))))
    with (BiasTest.get_uncertainty models loader) in Hl, Hu.
  destruct (BiasTest.get_uncertainty models loader) as [[u l] models1].
  cbn [fst snd app length] in Hl, Hu.
  destruct (main_score_batch_arrays criterion loader Hcrit ([], [])
              (Models (eval (backbone models1)) (eval (module models1))))
    as [Hrl Hru].
  change (fold_left (Main.score_batch criterion) loader
            ([], [], Models (eval (backbone models1)) (eval (module models1))))
    with (BiasOracle.get_real_uncertainty models1 loader criterion) in Hrl, Hru.
  destruct (BiasOracle.get_real_uncertainty models1 loader criterion)
    as [[ru rl] models2].
  cbn [fst snd app length] in Hrl, Hru.
  destruct (top_b_unfolded cfg labeled_set subset u l ru rl)
    as (xs & ls & rxs & rls & _ & _ & _ & _ & Hperm & _ & Hsel).
  - now rewrite Hu.
  - now rewrite Hl.
  - now rewrite Hru.
  - now rewrite Hrl.
  - rewrite Hsel. cbn [mbind result_bind Py.bind].
    eexists _, _, _, models2. split; [reflexivity|]. split; [|reflexivity].
    now rewrite Permutation_app_comm, slice_to_from.
Qed.

End CycleFacts.

Lemma main_cycle_scores_then_selects_witness :
  exists new unlabeled_set' models',
    @MainCycle.score_and_select Demo.networks stable_argsort_admissible Demo.cfg
      Demo.models Demo.loader Demo.criterion [12; 13] [0; 1; 2]
    = Return (([12; 13] ++ new, unlabeled_set'), models') /\
    (forall x, x ∈ new -> x ∈ [0; 1; 2]) /\
    (forall x, x ∈ unlabeled_set' -> x ∈ [0; 1; 2] /\ x ∉ [12; 13] ++ new).
Proof.
  apply (@main_cycle_scores_then_selects Demo.networks stable_argsort_admissible
           Demo.cfg Demo.lab Demo.models Demo.loader Demo.criterion [12; 13] [0; 1; 2]).
  - reflexivity.
  - intros b inputs labels Hin. apply list_elem_of_In in Hin.
    destruct Hin as [E | [E | []]]; injection E as <- <-; reflexivity.
  - intros x Hx. apply list_elem_of_In in Hx.
    destruct Hx as [<- | [<- | [<- | []]]]; vm_compute; reflexivity.
Defined.

Lemma bias_cycle_scores_then_selects_witness :
  exists selected unlabeled_set' pickled models',
    @BiasCycle.score_and_select Demo.networks stable_argsort_admissible Demo.cfg_top3
      Demo.models Demo.loader Demo.criterion [12; 13] [0; 1; 2]
    = Return ((([12; 13] ++ selected, unlabeled_set'), pickled), models') /\
    selected ++ unlabeled_set' ≡ₚ [0; 1; 2] /\
    BiasTest.samples pickled = selected.
Proof.
  apply (@bias_cycle_scores_then_selects Demo.networks stable_argsort_admissible
           Demo.cfg_top3 Demo.models Demo.loader Demo.criterion [12; 13] [0; 1; 2]).
  - reflexivity.
  - intros b inputs labels Hin. apply list_elem_of_In in Hin.
    destruct Hin as [E | [E | []]]; injection E as <- <-; reflexivity.
  - intros b m inputs labels Hin. apply list_elem_of_In in Hin.
    destruct Hin as [E | [E | []]]; injection E as <- <-; reflexivity.
Defined.

(* ===================================================================== *)
(** ** [main.py]: [test], [train_epoch] and [train]                       *)
(* ===================================================================== *)

Section MainRunFacts.
Context `{Networks}.
Variables MARGIN WEIGHT : Q.
Variable criterion : Scores -> list nat -> list Q.
Variable argmax : Scores -> list nat.
Variable detach : Features -> Features.
Variable Optimizers : Type.
Variable zero_grad : Optimizers -> Optimizers.
Variable descend : Torch.scalar -> bool -> Inputs -> list nat ->
  model_pair Wb Wm * Optimizers -> model_pair Wb Wm * Optimizers.
Variable sched_step : Optimizers -> Optimizers.
Variable World : Type.
Variable path_exists : World -> string -> bool.
Variable makedirs : World -> string -> World.

Local Abbreviation labels_of loader := (concat (map snd loader)).
Local Abbreviation test := (MainRun.test argmax).
Local Abbreviation test_batch := (MainRun.test_batch argmax).
Local Abbreviation train_batch :=
  (MainRun.train_batch MARGIN WEIGHT criterion detach Optimizers zero_grad descend).
Local Abbreviation train_epoch :=
  (MainRun.train_epoch MARGIN WEIGHT criterion detach Optimizers zero_grad descend).
Local Abbreviation train_step :=
  (MainRun.train_step MARGIN WEIGHT criterion detach Optimizers zero_grad descend
     sched_step).
Local Abbreviation train :=
  (MainRun.train MARGIN WEIGHT criterion detach Optimizers zero_grad descend
     sched_step World path_exists makedirs).

Lemma count_equal_same_length (preds labels : list nat) :
  length preds = length labels ->
  exists n, TorchMore.count_equal preds labels = Return n /\ n <= length labels.
Proof.
  intros E. unfold TorchMore.count_equal. rewrite E, Nat.eqb_refl.
  eexists. split; [reflexivity|].
  etransitivity; [apply List.filter_length_le|].
  rewrite length_combine. lia.
Qed.

(** The loop of [test] counts every label, and no more hits than labels. *)
Lemma test_loop (loader : list (Inputs * list nat)) :
  (forall b inputs labels, (inputs, labels) ∈ loader ->
     length (argmax (backbone_forward b inputs).1.1) = length labels) ->
  forall total correct models,
  exists correct' models',
    for_each test_batch ((total, correct), models) loader
    = Return ((total + Z.of_nat (length (labels_of loader)), correct')%Z, models') /\
    (correct <= correct' <= correct + Z.of_nat (length (labels_of loader)))%Z.
Proof.
  induction loader as [|[inputs labels] loader IH]; intros Hp total correct models.
  - exists correct, models. cbn. rewrite Z.add_0_r. split; [reflexivity | lia].
  - cbn [for_each].
    assert (Hstep : test_batch ((total, correct), models) (inputs, labels)
                    = (n ← TorchMore.count_equal
                             (argmax (backbone_forward (backbone models) inputs).1.1) labels;
                       Return ((total + Z.of_nat (length labels),
                                correct + Z.of_nat n)%Z,
                               Models (backbone_forward (backbone models) inputs).2
                                 (module models)))).
    { unfold MainRun.test_batch.
      now destruct (backbone_forward (backbone models) inputs) as [[scores features] b']. }
    rewrite Hstep. clear Hstep.
    pose proof (Hp (backbone models) inputs labels ltac:(left)) as Hlen.
    destruct (backbone_forward (backbone models) inputs) as [[scores features] b'].
    cbn [fst snd] in Hlen |- *.
    destruct (count_equal_same_length _ _ Hlen) as (n & -> & Hn).
    cbn [mbind result_bind Py.bind].
    destruct (IH ltac:(intros; apply Hp; now right)
                (total + Z.of_nat (length labels))%Z (correct + Z.of_nat n)%Z
                (Models b' (module models)))
      as (c' & m' & -> & Hc).
    exists c', m'. cbn [map concat snd]. rewrite length_app. split.
    + do 3 f_equal. lia.
    + lia.
Qed.

(** X19.  [test] of main.py on a loader it finds under [mode], with one
    prediction per label: it raises ZeroDivisionError when the loader
    yields no sample at all, and otherwise returns an accuracy between 0
    and 100. *)
Theorem test_accuracy_is_percentage models dataloaders mode loader :
  dataloaders !! mode = Some loader ->
  (forall b inputs labels, (inputs, labels) ∈ loader ->
     length (argmax (backbone_forward b inputs).1.1) = length labels) ->
  (labels_of loader = [] -> test models dataloaders mode = Fail ZeroDivisionError) /\
  (labels_of loader <> [] ->
   exists acc models',
     test models dataloaders mode = Done (acc, models') /\ (0 <= acc <= 100)%Q).
Proof.
  intros Hmode Hp. unfold MainRun.test, dict_getitem. rewrite Hmode.
  cbn [mbind outcome_bind PyMore.bind backbone module].
  destruct (test_loop loader Hp 0%Z 0%Z
              (Models (eval (backbone models)) (eval (module models))))
    as (c & m' & -> & Hc).
  cbn [lift mbind outcome_bind PyMore.bind]. unfold int_truediv. split.
  - intros ->. reflexivity.
  - intros Hne.
    assert (Hpos : (0 < Z.of_nat (length (labels_of loader)))%Z).
    { destruct (labels_of loader); [congruence | cbn [length]; lia]. }
    assert (Hz : (0 + Z.of_nat (length (labels_of loader)) =? 0)%Z = false)
      by (apply Z.eqb_neq; lia).
    rewrite Hz. cbn [mbind outcome_bind PyMore.bind]. eexists _, m'. split; [reflexivity|].
    rewrite Z.add_0_l.
    assert (Hq : (0 < inject_Z (Z.of_nat (length (labels_of loader))))%Q).
    { change 0%Q with (inject_Z 0). now rewrite <- Zlt_Qlt. }
    split.
    + apply Qle_shift_div_l; [exact Hq|]. rewrite Qmult_0_l.
      change 0%Q with (inject_Z 0). rewrite <- Zle_Qle. lia.
    + apply Qle_shift_div_r; [exact Hq|].
      change 100%Q with (inject_Z 100). rewrite <- inject_Z_mult, <- Zle_Qle. lia.
Qed.

(** X20.  [test] of main.py raises KeyError exactly when [dataloaders] has
    no entry for [mode], and then for that key.  So the default mode
    ['val'] raises it on a dict with the two entries ['train'] and
    ['test'], whatever the loaders and the models are. *)
Theorem test_key_error_iff_mode_missing models dataloaders mode :
  (forall key, test models dataloaders mode = Fail (KeyError key)
               <-> key = mode /\ dataloaders !! mode = None) /\
  (forall train_loader test_loader,
     test models (<["train" := train_loader]> (<["test" := test_loader]> ∅)) "val"
     = Fail (KeyError "val")).
Proof.
  assert (Hmiss : forall d m, d !! m = None -> test models d m = Fail (KeyError m)).
  { intros d m Hm. unfold MainRun.test, dict_getitem. now rewrite Hm. }
  split.
  - intros key. split.
    + unfold MainRun.test, dict_getitem.
      destruct (dataloaders !! mode) as [loader|] eqn:Hm;
        cbn [mbind outcome_bind PyMore.bind].
      * destruct (for_each _ _ loader) as [[[total correct] m']|e];
          cbn [lift mbind outcome_bind PyMore.bind]; [|discriminate].
        unfold int_truediv. destruct (total =? 0)%Z; discriminate.
      * intros E. injection E as <-. now split.
    + intros [-> Hm]. now apply Hmiss.
  - intros tr te. apply Hmiss.
    rewrite lookup_insert_ne by discriminate.
    rewrite lookup_insert_ne by discriminate. apply lookup_empty.
Qed.

(** One batch of [train_epoch]: an even batch goes through, an odd one
    stops at the assertion of [loss_pred_loss]. *)
Lemma train_batch_by_parity epoch epoch_loss st inputs labels :
  (forall b m,
     length (criterion (backbone_forward b inputs).1.1 labels) = length labels /\
     length (module_forward m (backbone_forward b inputs).1.2).1 = length labels /\
     length (module_forward m (detach (backbone_forward b inputs).1.2)).1
     = length labels) ->
  if Nat.even (length labels)
  then exists st', train_batch epoch epoch_loss st (inputs, labels) = Return st'
  else train_batch epoch epoch_loss st (inputs, labels)
       = Raise (AssertionError "the batch size is not even.").
Proof.
  intros Hlen. destruct st as [models optimizers]. unfold MainRun.train_batch.
  specialize (Hlen (backbone models) (module models)).
  destruct (backbone_forward (backbone models) inputs) as [[scores features] b'].
  cbn [fst snd] in Hlen. destruct Hlen as (Hc & Hm & Hd).
  assert (Hpred : length (module_forward (module models)
                            (if (epoch_loss <? epoch)%Z then detach features
                             else features)).1 = length labels).
  { now destruct (epoch_loss <? epoch)%Z. }
  destruct (module_forward (module models)
              (if (epoch_loss <? epoch)%Z then detach features else features))
    as [pred_loss m'].
  cbn [fst] in Hpred.
  destruct (Nat.even (length labels)) eqn:Hev.
  - rewrite loss_pred_loss_mean by (rewrite ?Hpred, ?Hc; first [assumption | reflexivity]).
    cbn [mbind result_bind Py.bind]. now eexists.
  - unfold RankingLoss.loss_pred_loss. rewrite Hpred, Hev. reflexivity.
Qed.

Lemma train_loop_by_parity epoch epoch_loss (loader : list (Inputs * list nat)) :
  (forall b m inputs labels, (inputs, labels) ∈ loader ->
     length (criterion (backbone_forward b inputs).1.1 labels) = length labels /\
     length (module_forward m (backbone_forward b inputs).1.2).1 = length labels /\
     length (module_forward m (detach (backbone_forward b inputs).1.2)).1
     = length labels) ->
  forall st,
  if forallb (fun data => Nat.even (length data.2)) loader
  then exists st', for_each (train_batch epoch epoch_loss) st loader = Return st'
  else for_each (train_batch epoch epoch_loss) st loader
       = Raise (AssertionError "the batch size is not even.").
Proof.
  induction loader as [|[inputs labels] loader IH]; intros Hlen st.
  - cbn. now eexists.
  - cbn [forallb for_each snd].
    pose proof (train_batch_by_parity epoch epoch_loss st inputs labels
                  ltac:(intros b m; apply Hlen; left)) as Hstep.
    destruct (Nat.even (length labels)).
    + destruct Hstep as [st' ->]. cbn [andb mbind result_bind Py.bind].
      apply IH. intros. apply Hlen. now right.
    + rewrite Hstep. reflexivity.
Qed.

Lemma all_even_true (loader : list (Inputs * list nat)) :
  Forall (fun data => Nat.even (length data.2) = true) loader ->
  forallb (fun data : Inputs * list nat => Nat.even (length data.2)) loader = true.
Proof.
  intros Hall. apply forallb_forall. intros d Hd. apply list_elem_of_In in Hd.
  exact (proj1 (Forall_forall _ _) Hall d Hd).
Qed.

Lemma all_even_false (loader : list (Inputs * list nat)) :
  Exists (fun data => Nat.even (length data.2) = false) loader ->
  forallb (fun data : Inputs * list nat => Nat.even (length data.2)) loader = false.
Proof.
  intros Hex. apply not_true_is_false. intros Hb.
  apply Exists_exists in Hex as (d & Hd & Hodd).
  apply list_elem_of_In in Hd.
  pose proof (proj1 (forallb_forall _ _) Hb d Hd) as Hev. cbn in Hev. congruence.
Qed.

Lemma train_epoch_by_parity models optimizers dataloaders loader epoch epoch_loss :
  dataloaders !! "train" = Some loader ->
  (forall b m inputs labels, (inputs, labels) ∈ loader ->
     length (criterion (backbone_forward b inputs).1.1 labels) = length labels /\
     length (module_forward m (backbone_forward b inputs).1.2).1 = length labels /\
     length (module_forward m (detach (backbone_forward b inputs).1.2)).1
     = length labels) ->
  if forallb (fun data => Nat.even (length data.2)) loader
  then exists st', train_epoch models optimizers dataloaders epoch epoch_loss = Done st'
  else train_epoch models optimizers dataloaders epoch epoch_loss
       = Fail (Core (AssertionError "the batch size is not even.")).
Proof.
  intros Htrain Hlen. unfold MainRun.train_epoch, dict_getitem. rewrite Htrain.
  cbn [mbind outcome_bind PyMore.bind backbone module].
  pose proof (train_loop_by_parity epoch epoch_loss loader Hlen
                (Models (train_mode (backbone models)) (train_mode (module models)),
                 optimizers)) as Hloop.
  destruct (forallb _ loader).
  - destruct Hloop as [st' ->]. now eexists.
  - now rewrite Hloop.
Qed.

(** X21.  [train_epoch] of main.py, when the criterion and the loss module
    give one value per sample of a batch: it returns if every batch of the
    training loader has an even number of samples, and otherwise raises
    the AssertionError of [loss_pred_loss], in whatever epoch and for
    whatever weights. *)
Theorem train_epoch_needs_even_batches models optimizers dataloaders loader
    epoch epoch_loss :
  dataloaders !! "train" = Some loader ->
  (forall b m inputs labels, (inputs, labels) ∈ loader ->
     length (criterion (backbone_forward b inputs).1.1 labels) = length labels /\
     length (module_forward m (backbone_forward b inputs).1.2).1 = length labels /\
     length (module_forward m (detach (backbone_forward b inputs).1.2)).1
     = length labels) ->
  (Forall (fun data => Nat.even (length data.2) = true) loader ->
   exists st', train_epoch models optimizers dataloaders epoch epoch_loss = Done st') /\
  (Exists (fun data => Nat.even (length data.2) = false) loader ->
   train_epoch models optimizers dataloaders epoch epoch_loss
   = Fail (Core (AssertionError "the batch size is not even."))).
Proof.
  intros Htrain Hlen.
  pose proof (train_epoch_by_parity models optimizers dataloaders loader epoch epoch_loss
                Htrain Hlen) as Hepoch.
  split.
  - intros Hall. now rewrite (all_even_true loader Hall) in Hepoch.
  - intros Hex. now rewrite (all_even_false loader Hex) in Hepoch.
Qed.



End MainRunFacts.

Lemma test_accuracy_is_percentage_witness :
  exists acc models',
    @MainRun.test Demo.networks DemoRun.argmax Demo.models DemoRun.dataloaders "train"
    = Done (acc, models') /\ (0 <= acc <= 100)%Q.
Proof.
  destruct (@test_accuracy_is_percentage Demo.networks DemoRun.argmax Demo.models
              DemoRun.dataloaders "train" Demo.loader) as [_ Hreturns].
  - vm_compute. reflexivity.
  - intros b inputs labels Hin. apply list_elem_of_In in Hin.
    destruct Hin as [E | [E | []]]; injection E as <- <-; reflexivity.
  - apply Hreturns. discriminate.
Defined.

Lemma train_epoch_needs_even_batches_witness :
  (exists st',
     @MainRun.train_epoch Demo.networks 1 1 Demo.criterion id nat S DemoRun.descend
       Demo.models 0 DemoRun.even_dataloaders 0 120
     = Done st') /\
  @MainRun.train_epoch Demo.networks 1 1 Demo.criterion id nat S DemoRun.descend
    Demo.models 0 DemoRun.dataloaders 0 120
  = Fail (Core (AssertionError "the batch size is not even.")).
Proof.
  split.
  - destruct (@train_epoch_needs_even_batches Demo.networks 1 1 Demo.criterion id nat S
                DemoRun.descend Demo.models 0 DemoRun.even_dataloaders
                DemoRun.even_loader 0 120) as [Hreturns _].
    + vm_compute. reflexivity.
    + intros b m inputs labels Hin. apply list_elem_of_In in Hin.
      destruct Hin as [E | [E | []]]; injection E as <- <-; repeat split.
    + apply Hreturns. repeat constructor.
  - destruct (@train_epoch_needs_even_batches Demo.networks 1 1 Demo.criterion id nat S
                DemoRun.descend Demo.models 0 DemoRun.dataloaders Demo.loader 0 120)
      as [_ Hraises].
    + vm_compute. reflexivity.
    + intros b m inputs labels Hin. apply list_elem_of_In in Hin.
      destruct Hin as [E | [E | []]]; injection E as <- <-; repeat split.
    + apply Hraises. apply Exists_cons_tl, Exists_cons_hd. reflexivity.
Defined.


(* ===================================================================== *)
(** ** [autoencoder/vae.py]                                               *)
(* ===================================================================== *)

Section VaeFacts.
Context `{AutoEncoder}.
Variable criterion : list Image -> list Image -> Q.
Variable kld : Mu -> Logvar -> Q.
Variable Opt : Type.
Variable zero_grad : Opt -> Opt.
Variable descend : Q -> list Image -> module_state Wae * Opt -> module_state Wae * Opt.
Variable sched_step : Torch.scalar -> Opt -> Opt.
Variable DATASET : string.

Local Abbreviation train_batch := (Vae.train_batch criterion kld Opt zero_grad descend).
Local Abbreviation train_epoch := (Vae.train_epoch criterion kld Opt zero_grad descend).
Local Abbreviation test := (Vae.test criterion).
Local Abbreviation train_step :=
  (Vae.train_step criterion kld Opt zero_grad descend sched_step DATASET).
Local Abbreviation train :=
  (Vae.train criterion kld Opt zero_grad descend sched_step DATASET).

Lemma vae_train_batch_binds st data :
  Vae.cnt (train_batch st data) = S (Vae.cnt st) /\
  is_Some (Vae.locals (train_batch st data)).
Proof.
  unfold Vae.train_batch.
  destruct (vae_forward (Vae.net st) data.1) as [[[[recon features] mu] logvar] model].
  destruct (descend _ _ _) as [model' opt']. cbn. split; [reflexivity | now eexists].
Qed.

Lemma vae_epoch_fold (loader : list (list Image * list nat)) : forall st,
  Vae.cnt (fold_left train_batch loader st) = Vae.cnt st + length loader /\
  (is_Some (Vae.locals st) \/ loader <> [] ->
   is_Some (Vae.locals (fold_left train_batch loader st))).
Proof.
  induction loader as [|data loader IH]; intros st.
  - cbn. split; [lia|]. intros [Hs | Hne]; [assumption | congruence].
  - cbn [fold_left length].
    destruct (vae_train_batch_binds st data) as [Hcnt Hloc].
    destruct (IH (train_batch st data)) as [IHcnt IHloc].
    split; [lia|]. intros _. apply IHloc. now left.
Qed.


Lemma vae_test_unfold model dataloaders mode :
  test model dataloaders mode
  = if String.eqb mode "val" || String.eqb mode "test" then
      match dataloaders !! mode with
      | Some loader => Done (fold_left (Vae.test_batch criterion) loader (0%Q, eval model))
      | None => Fail (KeyError mode)
      end
    else Fail (Core (AssertionError EmptyString)).
Proof.
  unfold Vae.test, dict_getitem.
  destruct (String.eqb mode "val" || String.eqb mode "test"); [|reflexivity].
  cbn [py_assert lift mbind outcome_bind PyMore.bind].
  now destruct (dataloaders !! mode).
Qed.

(** X24.  [test] of vae.py by its mode: any mode but ['val'] and ['test']
    fails the assertion, whether [dataloaders] has it or not; one of the
    two modes without an entry is a KeyError; otherwise the function
    returns.  On a dict with the entries ['train'] and ['test'] only, it
    returns for the mode ['test'] alone: the default ['val'] is a
    KeyError and ['train'] an AssertionError. *)
Theorem vae_test_by_mode model dataloaders mode :
  (test model dataloaders mode = Fail (Core (AssertionError EmptyString))
   <-> mode <> "val" /\ mode <> "test") /\
  (test model dataloaders mode = Fail (KeyError mode)
   <-> (mode = "val" \/ mode = "test") /\ dataloaders !! mode = None) /\
  ((exists r, test model dataloaders mode = Done r)
   <-> (mode = "val" \/ mode = "test") /\ is_Some (dataloaders !! mode)) /\
  (forall train_loader test_loader,
     let loaders := <["train" := train_loader]> (<["test" := test_loader]> ∅) in
     test model loaders "val" = Fail (KeyError "val") /\
     test model loaders "train" = Fail (Core (AssertionError EmptyString)) /\
     exists r, test model loaders "test" = Done r).
Proof.
  assert (Hmode : forall d,
    (test model d mode = Fail (Core (AssertionError EmptyString))
     <-> mode <> "val" /\ mode <> "test") /\
    (test model d mode = Fail (KeyError mode)
     <-> (mode = "val" \/ mode = "test") /\ d !! mode = None) /\
    ((exists r, test model d mode = Done r)
     <-> (mode = "val" \/ mode = "test") /\ is_Some (d !! mode))).
  { intros d. rewrite vae_test_unfold.
    destruct (String.eqb_spec mode "val") as [Hval | Hval];
      destruct (String.eqb_spec mode "test") as [Htest | Htest];
      destruct (d !! mode) as [loader|]; cbn [orb];
      repeat split; intros;
      repeat match goal with
             | Hc : _ /\ _ |- _ => destruct Hc
             | Hc : exists _, _ |- _ => destruct Hc
             | Hc : is_Some None |- _ => destruct Hc
             end;
      try discriminate; try congruence; try tauto;
      try (now eexists). }
  destruct (Hmode dataloaders) as (H1 & H2 & H3).
  split; [exact H1|]. split; [exact H2|]. split; [exact H3|].
  intros tr te loaders. subst loaders. rewrite !vae_test_unfold.
  cbn [String.eqb Ascii.eqb Bool.eqb orb].
  rewrite lookup_insert_ne by discriminate.
  rewrite lookup_insert_ne by discriminate. rewrite lookup_empty.
  rewrite lookup_insert_ne by discriminate. rewrite lookup_insert_eq.
  repeat split. now eexists.
Qed.

End VaeFacts.

Section VaeTrainFacts.
Context `{AutoEncoder}.
Variable criterion : list Image -> list Image -> Q.
Variable kld : Mu -> Logvar -> Q.
Variable Opt : Type.
Variable zero_grad : Opt -> Opt.
Variable descend : Q -> list Image -> module_state Wae * Opt -> module_state Wae * Opt.
Variable sched_step : Torch.scalar -> Opt -> Opt.
Variable DATASET : string.
Variable dataloaders : gmap string (list (list Image * list nat)).

Local Abbreviation train_batch := (Vae.train_batch criterion kld Opt zero_grad descend).
Local Abbreviation train_epoch := (Vae.train_epoch criterion kld Opt zero_grad descend).
Local Abbreviation test := (Vae.test criterion).
Local Abbreviation train_step :=
  (Vae.train_step criterion kld Opt zero_grad descend sched_step DATASET dataloaders).
Local Abbreviation train :=
  (Vae.train criterion kld Opt zero_grad descend sched_step DATASET).

(** [train_epoch] on a loader that it finds. *)
Lemma vae_train_epoch_unfold model opt loader summary_writer epoch :
  dataloaders !! "train" = Some loader ->
  train_epoch model opt dataloaders summary_writer epoch
  = let st := fold_left train_batch loader
                (Vae.EpochState Opt 0 0 (train_mode model) opt None) in
    match Vae.locals st with
    | None => Fail (Core (UnboundLocalError "inputs"))
    | Some b =>
        match Vae.inputs b !! 0, Vae.recon b !! 0 with
        | Some origin, Some recon0 =>
            Done (Torch.div_int (Vae._loss st) (Vae.cnt st),
                  ((Vae.net st, Vae.adam st),
                   summary_writer ++
                   [Vae.add_image "image/origin" origin epoch;
                    Vae.add_image "image/recon" recon0 epoch;
                    Vae.add_scalar "loss"
                      (Torch.div_int (Vae._loss st) (Vae.cnt st)) epoch] ++
                   if (epoch mod 100 =? 99)%Z
                   then [Vae.add_embedding (Vae.features b) (Vae.targets b)
                           (Vae.inputs b) epoch]
                   else []))
        | _, _ => Fail (Core IndexError)
        end
    end.
Proof.
  intros Hkey. unfold Vae.train_epoch, dict_getitem. rewrite Hkey.
  cbn [mbind outcome_bind PyMore.bind]. cbv zeta.
  destruct (Vae.locals _) as [b|]; [|reflexivity].
  unfold getitem.
  destruct (Vae.inputs b !! 0) as [origin|];
    cbn [lift mbind outcome_bind PyMore.bind]; [|reflexivity].
  destruct (Vae.recon b !! 0) as [recon0|];
    cbn [lift mbind outcome_bind PyMore.bind]; [|reflexivity].
  destruct (epoch mod 100 =? 99)%Z; now rewrite <- !app_assoc.
Qed.

(** An epoch writes no checkpoint. *)
Lemma vae_train_epoch_saves model opt summary_writer epoch loss st events :
  train_epoch model opt dataloaders summary_writer epoch = Done (loss, (st, events)) ->
  Vae.saves events = Vae.saves summary_writer.
Proof.
  unfold Vae.train_epoch at 1, dict_getitem.
  destruct (dataloaders !! "train") as [loader|] eqn:Hkey;
    cbn [mbind outcome_bind PyMore.bind]; [|discriminate].
  intros E.
  assert (E' : train_epoch model opt dataloaders summary_writer epoch
               = Done (loss, (st, events))).
  { unfold Vae.train_epoch, dict_getitem. rewrite Hkey. exact E. }
  clear E. rewrite (vae_train_epoch_unfold _ _ _ _ _ Hkey) in E'. cbv zeta in E'.
  destruct (Vae.locals _) as [b|]; [|discriminate].
  destruct (Vae.inputs b !! 0) as [origin|]; [|discriminate].
  destruct (Vae.recon b !! 0) as [recon0|]; [|discriminate].
  injection E' as _ _ <-. unfold Vae.saves. rewrite !omap_app.
  destruct (epoch mod 100 =? 99)%Z; cbn; now rewrite app_nil_r.
Qed.

Section Pure.

(** In evaluation mode a forward pass writes nothing to the module. *)
Hypothesis eval_pure : forall m inputs,
  training m = false -> (vae_forward m inputs).2 = m.

Lemma vae_test_loop_pure loader : forall loss model,
  training model = false ->
  (fold_left (Vae.test_batch criterion) loader (loss, model)).2 = model.
Proof.
  induction loader as [|data loader IH]; intros loss model Hm; [reflexivity|].
  cbn [fold_left]. unfold Vae.test_batch at 2.
  pose proof (eval_pure model data.1 Hm) as Hp.
  destruct (vae_forward model data.1) as [[[[recon f] mu] lv] model'].
  cbn [snd] in Hp. subst model'. now apply IH.
Qed.

(** [test] leaves the model in evaluation mode, and run again on what it
    left it returns the same loss. *)
Lemma vae_test_pure model mode loss model' :
  test model dataloaders mode = Done (loss, model') ->
  model' = ModuleState false (weights model) /\
  test (ModuleState false (weights model)) dataloaders mode
  = Done (loss, ModuleState false (weights model)).
Proof.
  unfold Vae.test.
  destruct (py_assert _ _) as [[]|e]; cbn [lift mbind outcome_bind PyMore.bind];
    [|discriminate].
  unfold dict_getitem. destruct (dataloaders !! mode) as [loader|];
    cbn [mbind outcome_bind PyMore.bind]; [|discriminate].
  change (eval (ModuleState false (weights model))) with (eval model).
  pose proof (vae_test_loop_pure loader 0%Q (eval model) eq_refl) as Hp.
  destruct (fold_left _ loader _) as [l m]. cbn [snd] in Hp. subst m.
  intros E. injection E as <- <-. split; reflexivity.
Qed.

(** What holds of the state of [train] after [k] epochs. *)
Local Abbreviation checkpoints_ok k st :=
  (Forall (fun s : Z * Wae =>
             ((s.1 mod 5 = 0)%Z /\ (0 < s.1 <= Z.of_nat k)%Z) /\
             exists l,
               test (ModuleState false s.2) dataloaders "test"
               = Done (l, ModuleState false s.2) /\
               Qle (Vae.best_loss st) l)
     (Vae.saves (Vae.events st)) /\
   StronglySorted (fun a b : Z * Wae => (a.1 < b.1)%Z) (Vae.saves (Vae.events st)) /\
   match last (Vae.saves (Vae.events st)) with
   | None => Vae.best_loss st = 999999999%Q
   | Some s =>
       test (ModuleState false s.2) dataloaders "test"
       = Done (Vae.best_loss st, ModuleState false s.2) /\
       Qlt (Vae.best_loss st) 999999999%Q
   end /\
   Qle (Vae.best_loss st) 999999999%Q).

Lemma vae_train_step_keeps st epoch st' :
  checkpoints_ok epoch st ->
  train_step st epoch = Done st' ->
  checkpoints_ok (S epoch) st'.
Proof.
  intros (Hall & Hsorted & Hlast & Hbound). unfold Vae.train_step.
  destruct (train_epoch _ _ _ _ _) as [[loss [[model opt] log]]|e] eqn:Hepoch;
    cbn [mbind outcome_bind PyMore.bind]; [|discriminate].
  apply vae_train_epoch_saves in Hepoch.
  assert (Hkeep : forall model' opt',
            checkpoints_ok (S epoch)
              (Vae.TrainState Opt (Vae.best_loss st) model' opt' log)).
  { intros model' opt'. cbn [Vae.events Vae.best_loss]. rewrite Hepoch.
    split; [|now split].
    eapply Forall_impl; [exact Hall|]. intros s [[Hmod Hrange] Hloss].
    split; [split; [assumption | lia] | assumption]. }
  destruct (Z.eqb_spec (Z.of_nat epoch mod 5) 4) as [Hfive | _];
    [|intros E; injection E as <-; apply Hkeep].
  destruct (test model dataloaders "test") as [[_loss model2]|e] eqn:Htest;
    cbn [mbind outcome_bind PyMore.bind]; [|discriminate].
  destruct (Qle_bool (Vae.best_loss st) _loss) eqn:Hcmp; cbn [negb];
    [intros E; injection E as <-; apply Hkeep|].
  intros E. injection E as <-.
  assert (Hlt : (_loss < Vae.best_loss st)%Q).
  { apply Qnot_le_lt. intros Hle. apply Qle_bool_iff in Hle. congruence. }
  apply vae_test_pure in Htest as [-> Hagain].
  cbn [Vae.events Vae.best_loss weights].
  assert (Hsnoc : Vae.saves (log ++ [Vae.torch_save (Z.of_nat epoch + 1) (weights model)
                                       (Vae.checkpoint_path DATASET)])
                  = Vae.saves (Vae.events st) ++ [((Z.of_nat epoch + 1)%Z, weights model)]).
  { unfold Vae.saves in *. rewrite omap_app, Hepoch. reflexivity. }
  rewrite Hsnoc.
  split; [|split; [|split]].
  - apply Forall_app. split.
    + eapply Forall_impl; [exact Hall|]. intros s [[Hmod Hrange] (l & Hl & Hle)].
      split; [split; [assumption | lia]|].
      exists l. split; [assumption|].
      apply Qlt_le_weak. eapply Qlt_le_trans; eassumption.
    + apply Forall_singleton. cbn [fst snd]. split; [split|].
      * rewrite Z.add_mod, Hfive by discriminate. reflexivity.
      * lia.
      * exists _loss. split; [assumption | apply Qle_refl].
  - apply StronglySorted_app_2.
    + intros a b Ha Hb. apply list_elem_of_singleton in Hb as ->. cbn [fst].
      destruct (proj1 (Forall_forall _ _) Hall a Ha) as [[_ Hrange] _]. lia.
    + assumption.
    + repeat constructor.
  - rewrite last_snoc. cbn [snd]. split; [assumption|].
    eapply Qlt_le_trans; eassumption.
  - apply Qlt_le_weak. eapply Qlt_le_trans; eassumption.
Qed.

Lemma vae_train_loop_keeps n : forall k st st',
  checkpoints_ok k st ->
  for_epochs train_step st (seq k n) = Done st' ->
  checkpoints_ok (k + n) st'.
Proof.
  induction n as [|n IH]; intros k st st' Hinv.
  - cbn. intros E. injection E as <-. now rewrite Nat.add_0_r.
  - cbn [seq for_epochs].
    destruct (train_step st k) as [st1|e] eqn:Hstep;
      cbn [mbind outcome_bind PyMore.bind]; [|discriminate].
    intros Hrest. replace (k + S n) with (S k + n) by lia.
    eapply IH; [|exact Hrest]. eapply vae_train_step_keeps; eassumption.
Qed.

(** X25.  The checkpoints that [train] of vae.py writes, when a forward
    pass in evaluation mode leaves the autoencoder as it is.  Every
    checkpoint is written at the end of an epoch that is a multiple of 5,
    with that number as its ['epoch'], so that fewer than 5 epochs write
    none; the numbers grow from one checkpoint to the next; the test loss
    of the weights of any checkpoint is at least the final [best_loss];
    and the last checkpoint, the one the file holds in the end, has
    exactly the test loss [best_loss], which is below the initial
    999999999.  Without a checkpoint [best_loss] is still 999999999. *)
Theorem vae_train_keeps_best_checkpoint model opt num_epochs trained_ae_exists st :
  train model opt dataloaders num_epochs trained_ae_exists = Done st ->
  Forall (fun s : Z * Wae =>
            (s.1 mod 5 = 0)%Z /\ (0 < s.1 <= num_epochs)%Z /\
            exists l,
              test (ModuleState false s.2) dataloaders "test"
              = Done (l, ModuleState false s.2) /\
              (Vae.best_loss st <= l)%Q)
    (Vae.saves (Vae.events st)) /\
  StronglySorted (fun a b : Z * Wae => (a.1 < b.1)%Z) (Vae.saves (Vae.events st)) /\
  match last (Vae.saves (Vae.events st)) with
  | None => Vae.best_loss st = 999999999%Q
  | Some s =>
      test (ModuleState false s.2) dataloaders "test"
      = Done (Vae.best_loss st, ModuleState false s.2) /\
      (Vae.best_loss st < 999999999)%Q
  end /\
  ((num_epochs < 5)%Z -> Vae.saves (Vae.events st) = []).
Proof.
  unfold Vae.train, py_range. intros Hrun.
  apply (vae_train_loop_keeps (Z.to_nat num_epochs) 0) in Hrun.
  - destruct Hrun as (Hall & Hsorted & Hlast & _). cbn [Nat.add] in Hall.
    assert (Hall' : Forall (fun s : Z * Wae =>
                (s.1 mod 5 = 0)%Z /\ (0 < s.1 <= num_epochs)%Z /\
                exists l,
                  test (ModuleState false s.2) dataloaders "test"
                  = Done (l, ModuleState false s.2) /\
                  (Vae.best_loss st <= l)%Q)
              (Vae.saves (Vae.events st))).
    { eapply Forall_impl; [exact Hall|]. intros s [[Hmod Hrange] Hloss].
      split; [assumption|]. split; [lia | assumption]. }
    split; [exact Hall'|]. split; [exact Hsorted|]. split; [exact Hlast|].
    intros Hfew. destruct (Vae.saves (Vae.events st)) as [|s l]; [reflexivity|].
    apply Forall_cons in Hall' as [(Hmod & Hrange & _) _].
    exfalso. rewrite Z.mod_small in Hmod by lia. lia.
  - cbn [Vae.events Vae.best_loss].
    assert (Hnone : Vae.saves (if negb trained_ae_exists
                                then [Vae.makedirs "../trained_ae"] else []) = []).
    { now destruct trained_ae_exists. }
    rewrite Hnone. repeat split; [constructor | constructor | apply Qle_refl].
Qed.

End Pure.

End VaeTrainFacts.

Section VaeTrainReturns.
Context `{AutoEncoder}.
Variable criterion : list Image -> list Image -> Q.
Variable kld : Mu -> Logvar -> Q.
Variable Opt : Type.
Variable zero_grad : Opt -> Opt.
Variable descend : Q -> list Image -> module_state Wae * Opt -> module_state Wae * Opt.
Variable sched_step : Torch.scalar -> Opt -> Opt.
Variable DATASET : string.
Variable dataloaders : gmap string (list (list Image * list nat)).
Variable loader : list (list Image * list nat).

Local Abbreviation train_batch := (Vae.train_batch criterion kld Opt zero_grad descend).
Local Abbreviation train_epoch := (Vae.train_epoch criterion kld Opt zero_grad descend).
Local Abbreviation test := (Vae.test criterion).
Local Abbreviation train_step :=
  (Vae.train_step criterion kld Opt zero_grad descend sched_step DATASET dataloaders).
Local Abbreviation train :=
  (Vae.train criterion kld Opt zero_grad descend sched_step DATASET).

(** The locals bound after the loop come from a batch of the loader. *)
Lemma vae_epoch_locals (batches : list (list Image * list nat)) : forall st b,
  Vae.locals (fold_left train_batch batches st) = Some b ->
  Vae.locals st = Some b \/
  exists m inputs targets,
    (inputs, targets) ∈ batches /\ Vae.inputs b = inputs /\
    Vae.recon b = (vae_forward m inputs).1.1.1.1.
Proof.
  induction batches as [|[inputs targets] batches IH]; intros st b Hb; [now left|].
  cbn [fold_left] in Hb. right.
  destruct (IH _ _ Hb) as [Hnew | (m & i & t & Hin & Hi & Hr)].
  - exists (Vae.net st), inputs, targets. split; [left|].
    unfold Vae.train_batch in Hnew. cbn [fst snd] in Hnew.
    destruct (vae_forward (Vae.net st) inputs) as [[[[recon features] mu] logvar] model].
    destruct (descend _ _ _) as [model' opt']. cbn in Hnew.
    injection Hnew as <-. split; reflexivity.
  - exists m, i, t. split; [now right | now split].
Qed.

Hypothesis has_train : dataloaders !! "train" = Some loader.
Hypothesis some_batch : loader <> [].
Hypothesis no_empty_batch : forall m inputs targets,
  (inputs, targets) ∈ loader ->
  inputs <> [] /\ (vae_forward m inputs).1.1.1.1 <> [].

Lemma vae_train_epoch_returns model opt summary_writer epoch :
  exists r, train_epoch model opt dataloaders summary_writer epoch = Done r.
Proof.
  rewrite (vae_train_epoch_unfold criterion kld Opt zero_grad descend dataloaders
             model opt loader summary_writer epoch has_train).
  cbv zeta.
  destruct (vae_epoch_fold criterion kld Opt zero_grad descend loader
              (Vae.EpochState Opt 0 0 (train_mode model) opt None)) as [_ Hloc].
  destruct (Hloc ltac:(now right)) as [b Hb]. rewrite Hb.
  destruct (vae_epoch_locals _ _ _ Hb) as [Hnone | (m & i & t & Hin & Hi & Hr)];
    [discriminate|].
  destruct (no_empty_batch m i t Hin) as [Hne Hre].
  rewrite Hi, Hr.
  destruct i as [|origin i]; [congruence|].
  destruct ((vae_forward m (origin :: i)).1.1.1.1) as [|recon0 recon]; [congruence|].
  cbn [lookup list_lookup]. now eexists.
Qed.

Lemma vae_train_step_returns st epoch :
  match dataloaders !! "test" with
  | Some _ => exists st', train_step st epoch = Done st'
  | None =>
      if (Z.of_nat epoch mod 5 =? 4)%Z
      then train_step st epoch = Fail (KeyError "test")
      else exists st', train_step st epoch = Done st'
  end.
Proof.
  unfold Vae.train_step.
  destruct (vae_train_epoch_returns (Vae.current st) (Vae.optimizer st) (Vae.events st)
              (Z.of_nat epoch)) as [[loss [[model opt] log]] ->].
  cbn [mbind outcome_bind PyMore.bind].
  rewrite (vae_test_unfold criterion). cbn [String.eqb Ascii.eqb Bool.eqb orb].
  destruct (dataloaders !! "test") as [test_loader|];
    destruct (Z.of_nat epoch mod 5 =? 4)%Z; cbn [mbind outcome_bind PyMore.bind];
    try (now eexists); try reflexivity.
  destruct (fold_left _ test_loader _) as [_loss model2].
  destruct (negb _); now eexists.
Qed.

Lemma vae_train_loop_with_test epochs : forall st,
  is_Some (dataloaders !! "test") ->
  exists st', for_epochs train_step st epochs = Done st'.
Proof.
  induction epochs as [|e epochs IH]; intros st Htest; [now eexists|].
  cbn [for_epochs]. pose proof (vae_train_step_returns st e) as Hstep.
  destruct Htest as [test_loader Htest]. rewrite Htest in Hstep.
  destruct Hstep as [st1 ->]. cbn [mbind outcome_bind PyMore.bind].
  apply IH. now exists test_loader.
Qed.

Lemma vae_train_loop_without_test n : forall k st,
  dataloaders !! "test" = None -> k <= 4 ->
  if k + n <=? 4
  then exists st', for_epochs train_step st (seq k n) = Done st'
  else for_epochs train_step st (seq k n) = Fail (KeyError "test").
Proof.
  induction n as [|n IH]; intros k st Htest Hk.
  - rewrite Nat.add_0_r. rewrite (proj2 (Nat.leb_le k 4) Hk). now eexists.
  - cbn [seq for_epochs]. pose proof (vae_train_step_returns st k) as Hstep.
    rewrite Htest in Hstep.
    destruct (Nat.eq_dec k 4) as [-> | Hk4].
    + change (Z.of_nat 4 mod 5 =? 4)%Z with true in Hstep. cbv iota in Hstep.
      rewrite Hstep. reflexivity.
    + assert (Hmod : (Z.of_nat k mod 5 =? 4)%Z = false).
      { apply Z.eqb_neq. rewrite Z.mod_small by lia. lia. }
      rewrite Hmod in Hstep. destruct Hstep as [st1 ->].
      cbn [mbind outcome_bind PyMore.bind].
      replace (k + S n) with (S k + n) by lia. apply IH; [assumption | lia].
Qed.

(** X26.  [train] of vae.py on a training loader that yields a batch, no
    batch and no reconstruction without an image: with a ['test'] entry
    in [dataloaders] it returns, for any number of epochs; without one it
    returns only for fewer than 5 epochs, and otherwise trains 5 epochs
    and raises KeyError at the first evaluation. *)
Theorem vae_train_returns_unless_test_missing model opt num_epochs trained_ae_exists :
  (is_Some (dataloaders !! "test") ->
   exists st, train model opt dataloaders num_epochs trained_ae_exists = Done st) /\
  (dataloaders !! "test" = None ->
   ((num_epochs < 5)%Z ->
    exists st, train model opt dataloaders num_epochs trained_ae_exists = Done st) /\
   ((5 <= num_epochs)%Z ->
    train model opt dataloaders num_epochs trained_ae_exists = Fail (KeyError "test"))).
Proof.
  unfold Vae.train, py_range. split.
  - intros Htest. now apply vae_train_loop_with_test.
  - intros Htest.
    pose proof (vae_train_loop_without_test (Z.to_nat num_epochs) 0
                  (Vae.TrainState Opt 999999999 model opt
                     (if negb trained_ae_exists then [Vae.makedirs "../trained_ae"]
                      else []))
                  Htest ltac:(lia)) as Hloop.
    cbn [Nat.add] in Hloop. split; intros Hn.
    + rewrite (proj2 (Nat.leb_le _ _)) in Hloop by lia. exact Hloop.
    + rewrite (proj2 (Nat.leb_gt _ _)) in Hloop by lia. exact Hloop.
Qed.

End VaeTrainReturns.

Lemma vae_train_keeps_best_checkpoint_witness :
  exists st,
    @Vae.train DemoRun.autoencoder DemoRun.criterion DemoRun.kld nat S DemoRun.step
      (fun _ opt => opt) "cifar10" (ModuleState false 0) 0 DemoRun.images 10 false
    = Done st /\
    Forall (fun s : Z * nat =>
              (s.1 mod 5 = 0)%Z /\ (0 < s.1 <= 10)%Z /\
              exists l,
                @Vae.test DemoRun.autoencoder DemoRun.criterion
                  (ModuleState false s.2) DemoRun.images "test"
                = Done (l, ModuleState false s.2) /\
                (Vae.best_loss st <= l)%Q)
      (Vae.saves (Vae.events st)) /\
    StronglySorted (fun a b : Z * nat => (a.1 < b.1)%Z) (Vae.saves (Vae.events st)) /\
    match last (Vae.saves (Vae.events st)) with
    | None => Vae.best_loss st = 999999999%Q
    | Some s =>
        @Vae.test DemoRun.autoencoder DemoRun.criterion
          (ModuleState false s.2) DemoRun.images "test"
        = Done (Vae.best_loss st, ModuleState false s.2) /\
        (Vae.best_loss st < 999999999)%Q
    end /\
    ((10 < 5)%Z -> Vae.saves (Vae.events st) = []).
Proof.
  eexists. split; [vm_compute; reflexivity|].
  apply (@vae_train_keeps_best_checkpoint DemoRun.autoencoder DemoRun.criterion
           DemoRun.kld nat S DemoRun.step (fun _ opt => opt) "cifar10" DemoRun.images
           ltac:(intros [t w] inputs Ht; cbn in *; subst t; reflexivity)
           (ModuleState false 0) 0 10 false).
  vm_compute. reflexivity.
Defined.

Lemma vae_train_returns_unless_test_missing_witness :
  (exists st,
     @Vae.train DemoRun.autoencoder DemoRun.criterion DemoRun.kld nat S DemoRun.step
       (fun _ opt => opt) "cifar10" (ModuleState false 0) 0 DemoRun.images 10 false
     = Done st) /\
  @Vae.train DemoRun.autoencoder DemoRun.criterion DemoRun.kld nat S DemoRun.step
    (fun _ opt => opt) "cifar10" (ModuleState false 0) 0 DemoRun.images_without_test
    10 false
  = Fail (KeyError "test").
Proof.
  split.
  - destruct (@vae_train_returns_unless_test_missing DemoRun.autoencoder
                DemoRun.criterion DemoRun.kld nat S DemoRun.step (fun _ opt => opt)
                "cifar10" DemoRun.images [([1; 2]%Q, [0; 1])]
                ltac:(vm_compute; reflexivity) ltac:(discriminate)
                ltac:(intros m inputs targets Hin; apply list_elem_of_In in Hin;
                      destruct Hin as [E | []]; injection E as <- <-;
                      split; discriminate)
                (ModuleState false 0) 0 10 false) as [Hreturns _].
    apply Hreturns. eexists. vm_compute. reflexivity.
  - destruct (@vae_train_returns_unless_test_missing DemoRun.autoencoder
                DemoRun.criterion DemoRun.kld nat S DemoRun.step (fun _ opt => opt)
                "cifar10" DemoRun.images_without_test [([1; 2]%Q, [0; 1])]
                ltac:(vm_compute; reflexivity) ltac:(discriminate)
                ltac:(intros m inputs targets Hin; apply list_elem_of_In in Hin;
                      destruct Hin as [E | []]; injection E as <- <-;
                      split; discriminate)
                (ModuleState false 0) 0 10 false) as [_ Hmissing].
    destruct (Hmissing ltac:(vm_compute; reflexivity)) as [_ Hraises].
    apply Hraises. lia.
Defined.
